(** * ArbitkaWalletTracker: the transaction-monitoring engine of [bot.js]

    A shallow embedding of the polling engine of the wallet tracker:
    the balance-delta analyzer ([analyzeSolTransaction]), the filter
    evaluator ([shouldNotify]), the signature differ
    ([checkWalletTransactions] with [processTransaction]) and the interval
    scheduler ([start], [checkTransactions]).

    Conventions of the embedding.
    - A JavaScript number is a [jsnum]: NaN, an infinity, or a finite
      double given by the rational it denotes.  The results of [-], [+],
      [/] and [*] are rounded to the nearest double, ties to even
      ([round]); the two zeros are not told apart, which no comparison,
      [Math.abs] or JSON text of the program does either.  A lamport
      balance is a number that holds an integer and is given by it.
    - The values stored in a wallet record or read from [process.env] are
      [jsval]s; [ToBoolean], [ToNumber] and [!==] follow ECMAScript.  The
      conversion of a string to a number is a parameter, [StringToNumber].
    - The RPC connection and the Telegram bot are a record of response
      functions, fixed for the duration of one poll; a rejected promise is
      [Throw].
    - Effects are recorded in order in a trace of [Event]s; the cursor map
      [lastCheckedSignatures] is a [gmap] from wallet ids to signatures.
      [console.log] output is not recorded, [console.error] is.
    - A poll is an async function: other code runs while it awaits.  The
      monad runs a poll from its start to its end; [pollBegin] and
      [pollEnd] cut it at an [await] for the runs in which another poll
      comes in between.  The members of a batch, which [Promise.all] has
      in flight together, are recorded one after the other.  Time is in
      milliseconds since [start]; the interval timer is the list of the
      calls it has made. *)

From Stdlib Require Import ZArith QArith Qround Qabs Qpower Qreduction Bool
  List Lia Lqa.
From Stdlib Require Floats.SpecFloat.
From stdpp Require Import gmap strings list.

Local Open Scope Z_scope.

(** ** JavaScript values and numbers *)

Module JS.

(** A number. *)
Inductive jsnum : Type :=
| NaN
| Infinity (negative : bool)
| Finite (q : Q).

(** [floor (log2 q)] for a positive [q]. *)
Definition ilog2 (q : Q) : Z :=
  let k := Z.log2 (Qnum q) - Z.log2 (Zpos (Qden q)) in
  if Qle_bool (2 ^ k) q then k else k - 1.

(** The integer nearest to [x], the even one of two that are as near. *)
Definition nearestEven (x : Q) : Z :=
  let f := Qfloor x in
  match (x - inject_Z f ?= 1 # 2)%Q with
  | Lt => f
  | Gt => f + 1
  | Eq => if Z.even f then f else f + 1
  end.

(** The exponent of the grid of doubles around [q]: 53 significant bits,
    and no step below [2^-1074]. *)
Definition grid (q : Q) : Z := Z.max (ilog2 (Qabs q) - 52) (-1074).

(** The magnitude of the point of that grid nearest to [q]. *)
Definition magnitude (q : Q) : Q :=
  (inject_Z (nearestEven (Qabs q / 2 ^ grid q)) * 2 ^ grid q)%Q.

(** The double nearest to the real number [q] (binary64, round to
    nearest, ties to even): an infinity from [2^1024] on. *)
Definition round (q : Q) : jsnum :=
  if Qeq_bool q 0 then Finite 0
  else if Qle_bool (2 ^ 1024) (magnitude q)
       then Infinity (negb (Qle_bool 0 q))
       else Finite (Qred (if Qle_bool 0 q then magnitude q
                          else (- magnitude q)%Q)).

(** The number that holds the integer [z]. *)
Definition of_Z (z : Z) : jsnum := Finite (inject_Z z).

(** [a + b] *)
Definition num_add (a b : jsnum) : jsnum :=
  match a, b with
  | NaN, _ | _, NaN => NaN
  | Infinity s, Infinity s' => if Bool.eqb s s' then Infinity s else NaN
  | Infinity s, Finite _ | Finite _, Infinity s => Infinity s
  | Finite x, Finite y => round (x + y)
  end.

(** [a - b] *)
Definition num_sub (a b : jsnum) : jsnum :=
  match a, b with
  | NaN, _ | _, NaN => NaN
  | Infinity s, Infinity s' => if Bool.eqb s s' then NaN else Infinity s
  | Infinity s, Finite _ => Infinity s
  | Finite _, Infinity s => Infinity (negb s)
  | Finite x, Finite y => round (x - y)
  end.

(** [Math.abs(a)] *)
Definition num_abs (a : jsnum) : jsnum :=
  match a with
  | NaN => NaN
  | Infinity _ => Infinity false
  | Finite x => Finite (Qabs x)
  end.

Definition Qltb (x y : Q) : bool := negb (Qle_bool y x).

(** [a < b]: false as soon as one side is NaN. *)
Definition num_lt (a b : jsnum) : bool :=
  match a, b with
  | NaN, _ | _, NaN => false
  | Infinity s, Infinity s' => s && negb s'
  | Infinity s, Finite _ => s
  | Finite _, Infinity s => negb s
  | Finite x, Finite y => Qltb x y
  end.

(** [a > b] *)
Definition num_gt (a b : jsnum) : bool := num_lt b a.

(** [a <= b] *)
Definition num_le (a b : jsnum) : bool :=
  match a, b with
  | NaN, _ | _, NaN => false
  | Infinity s, Infinity s' => s || negb s'
  | Infinity s, Finite _ => s
  | Finite _, Infinity s => negb s
  | Finite x, Finite y => Qle_bool x y
  end.

(** [isNaN(a)] for a number. *)
Definition num_isNaN (a : jsnum) : bool :=
  match a with
  | NaN => true
  | _ => false
  end.

(** [a / 1e9] *)
Definition div_1e9 (a : jsnum) : jsnum :=
  match a with
  | NaN => NaN
  | Infinity s => Infinity s
  | Finite x => round (x / inject_Z 1000000000)
  end.

(** [a * 1000] *)
Definition mul_1000 (a : jsnum) : jsnum :=
  match a with
  | NaN => NaN
  | Infinity s => Infinity s
  | Finite x => round (x * inject_Z 1000)
  end.

Inductive jsval : Type :=
| JUndefined
| JNull
| JBool (b : bool)
| JNum (n : jsnum)
| JStr (s : string).

(** What [process.env.X] evaluates to. *)
Definition of_env (v : option string) : jsval :=
  match v with
  | Some s => JStr s
  | None => JUndefined
  end.

Definition ToBoolean (v : jsval) : bool :=
  match v with
  | JUndefined | JNull => false
  | JBool b => b
  | JNum NaN => false
  | JNum (Infinity _) => true
  | JNum (Finite q) => negb (Qeq_bool q 0)
  | JStr s => negb (String.eqb s "")
  end.

(** [v !== s] for a string [s]. *)
Definition strict_ne_str (v : jsval) (s : string) : bool :=
  match v with
  | JStr s' => negb (String.eqb s' s)
  | _ => true
  end.

Section Conversion.

(** The numeric value of a string (StringToNumber of ECMAScript),
    NaN when the string is not a numeric literal. *)
Variable StringToNumber : string -> jsnum.

Definition ToNumber (v : jsval) : jsnum :=
  match v with
  | JUndefined => NaN
  | JNull => Finite 0
  | JBool true => Finite 1
  | JBool false => Finite 0
  | JNum n => n
  | JStr s => StringToNumber s
  end.

(** [a < v], [a > v] and [a <= v] for a number [a]: the other operand
    is converted to a number. *)
Definition lt_val (a : jsnum) (v : jsval) : bool := num_lt a (ToNumber v).
Definition gt_val (a : jsnum) (v : jsval) : bool := num_gt a (ToNumber v).
Definition le_val (a : jsnum) (v : jsval) : bool := num_le a (ToNumber v).

End Conversion.

End JS.

Import JS.

(** ** Configuration read from the environment (lines 11-17) *)

Record Env : Type := {
  POLL_INTERVAL : option string;
  MAX_SIGNATURES_PER_CHECK : option string;
  MINIMUM_SOL_THRESHOLD : option string;
  DUST_THRESHOLD : option string
}.

Definition with_DUST_THRESHOLD (env : Env) (v : option string) : Env :=
  {| POLL_INTERVAL := POLL_INTERVAL env;
     MAX_SIGNATURES_PER_CHECK := MAX_SIGNATURES_PER_CHECK env;
     MINIMUM_SOL_THRESHOLD := MINIMUM_SOL_THRESHOLD env;
     DUST_THRESHOLD := v |}.

(** ** Data *)

(** A wallet record of [wallets.json]. *)
Module Wallet.
Record t : Type := {
  name : string;
  address : string;
  minAmount : jsval;
  maxAmount : jsval;
  direction : jsval;
  active : jsval
}.
End Wallet.

(** An entry of the answer of [getSignaturesForAddress]. *)
Module SigInfo.
Record t : Type := { signature : string }.
End SigInfo.

(** The answer of [getParsedTransaction]: [meta] may be null;
    [accountKeys] holds [accountKeys[i].pubkey.toString()]; the balances
    are numbers that hold integers, [blockTime] is null or such a
    number. *)
Module Tx.
Record Meta : Type := {
  preBalances : list Z;
  postBalances : list Z
}.
Record t : Type := {
  meta : option Meta;
  accountKeys : list string;
  signatures : list string;
  blockTime : option Z
}.
End Tx.

(** The object returned by [analyzeSolTransaction]. *)
Module Transfer.
Record t : Type := {
  signature : option string;
  amount : jsnum;
  direction : string;
  timestamp : jsnum;
  receiver_sender : option string
}.
End Transfer.

(** A promise that resolves or rejects, a call that returns or throws. *)
Inductive result (A : Type) : Type :=
| Ok (a : A)
| Throw (message : string).
Arguments Ok {A} a.
Arguments Throw {A} message.

(** ** Balance-delta analyzer (lines 638-679) *)

(** The loop of lines 645-651 on the keys from index [i] on: the index of
    the first key that is the wallet address, [None] for [-1]. *)
Fixpoint findWalletIndex (walletAddress : string) (i : nat)
    (keys : list string) : option nat :=
  match keys with
  | [] => None
  | k :: keys' =>
      if String.eqb k walletAddress then Some i
      else findWalletIndex walletAddress (S i) keys'
  end.

(** [balances[i]] as an operand of [-]: NaN past the end of the array. *)
Definition balance (balances : list Z) (i : nat) : jsnum :=
  match balances !! i with
  | Some z => of_Z z
  | None => NaN
  end.

(** The loop of lines 658-670, from index [i] on, [keys] being the
    account keys from [i]. *)
Fixpoint findCounterparty (preBalances postBalances : list Z)
    (walletIndex : nat) (balanceChange : jsnum) (i : nat)
    (keys : list string) : option string :=
  match keys with
  | [] => None
  | k :: keys' =>
      if negb (Nat.eqb i walletIndex) then
        let senderBalanceChange :=
          num_sub (balance postBalances i) (balance preBalances i) in
        if num_gt balanceChange (Finite 0)
           && num_lt senderBalanceChange (Finite 0) then Some k
        else if num_lt balanceChange (Finite 0)
                && num_gt senderBalanceChange (Finite 0)
                && num_lt (num_add senderBalanceChange balanceChange)
                          (Finite 1000000) then Some k
        else findCounterparty preBalances postBalances walletIndex
               balanceChange (S i) keys'
      else findCounterparty preBalances postBalances walletIndex
             balanceChange (S i) keys'
  end.

(** [env] is the configuration in scope of the function; reading
    [transaction.meta] of a transaction without [meta] throws. *)
Definition analyzeSolTransaction (env : Env) (transaction : Tx.t)
    (walletAddress : string) : result (option Transfer.t) :=
  match Tx.meta transaction with
  | None => Throw "Cannot read properties of null"
  | Some meta =>
      let preBalances := Tx.preBalances meta in
      let postBalances := Tx.postBalances meta in
      let accountKeys := Tx.accountKeys transaction in
      match findWalletIndex walletAddress 0 accountKeys with
      | None => Ok None
      | Some walletIndex =>
          let balanceChange :=
            num_sub (balance postBalances walletIndex)
                    (balance preBalances walletIndex) in
          if num_lt (num_abs balanceChange) (Finite 1000) then Ok None
          else
            let receiver_sender :=
              findCounterparty preBalances postBalances walletIndex
                balanceChange 0 accountKeys in
            Ok (Some {|
              Transfer.signature := Tx.signatures transaction !! 0%nat;
              Transfer.amount := num_abs balanceChange;
              Transfer.direction :=
                if num_gt balanceChange (Finite 0) then "incoming"
                else "outgoing";
              Transfer.timestamp :=
                match Tx.blockTime transaction with
                | Some t => mul_1000 (of_Z t)
                | None => Finite 0
                end;
              Transfer.receiver_sender := receiver_sender |})
      end
  end.

(** ** Filter evaluator (lines 681-710) *)

Section Filter.

Variable StringToNumber : string -> jsnum.
Variable env : Env.

Definition shouldNotify (transfer : Transfer.t) (wallet : Wallet.t) : bool :=
  let amount := div_1e9 (Transfer.amount transfer) in
  if lt_val StringToNumber amount (of_env (MINIMUM_SOL_THRESHOLD env))
  then false
  else if ToBoolean (Wallet.minAmount wallet)
          && lt_val StringToNumber amount (Wallet.minAmount wallet)
  then false
  else if ToBoolean (Wallet.maxAmount wallet)
          && gt_val StringToNumber amount (Wallet.maxAmount wallet)
  then false
  else if strict_ne_str (Wallet.direction wallet) "both"
          && strict_ne_str (Wallet.direction wallet)
               (Transfer.direction transfer)
  then false
  else true.

End Filter.

(** ** Effects: the cursor map, the trace, exceptions *)

Inductive Event : Type :=
| EGetSignatures (address : string) (limit : nat)
    (* connection.getSignaturesForAddress(publicKey, { limit }) *)
| EGetTransaction (signature : string)
    (* connection.getParsedTransaction(signature, 'confirmed') *)
| ESendMessage (userId : string) (walletName : string) (transfer : Transfer.t)
    (* bot.sendMessage(userId, message, ...) *)
| ESetCursor (walletId : string) (signature : string)
    (* lastCheckedSignatures.set(walletId, signature) *)
| ESleep (ms : Z)
    (* await new Promise(resolve => setTimeout(resolve, ms)) *)
| EError (message : string).
    (* console.error(..., message) *)

(** The collaborators: the Solana RPC connection and the Telegram bot. *)
Record Connection : Type := {
  validAddress : string -> bool;
    (* whether [new PublicKey(address)] returns *)
  getSignaturesForAddress : string -> nat -> result (list SigInfo.t);
  getParsedTransaction : string -> result (option Tx.t);
  sendMessage : string -> string -> Transfer.t -> result unit
}.

(** The cursor map [lastCheckedSignatures] (line 25). *)
Abbreviation Cursors := (gmap string string).

(** A computation reads and writes the cursor map, returns or throws, and
    emits the events of its own execution in order. *)
Definition M (A : Type) : Type := Cursors -> result A * Cursors * list Event.

Definition ret {A} (a : A) : M A := fun c => (Ok a, c, []).

Definition throw {A} (message : string) : M A :=
  fun c => (Throw message, c, []).

Definition bind {A B} (m : M A) (k : A -> M B) : M B :=
  fun c =>
    match m c with
    | (Ok a, c', t) =>
        match k a c' with
        | (r, c'', t') => (r, c'', t ++ t')
        end
    | (Throw e, c', t) => (Throw e, c', t)
    end.

Notation "'let*' x := m 'in' k" := (bind m (fun x => k))
  (at level 10, x name, m at level 100, k at level 200).
Notation "m ;;; k" := (bind m (fun _ => k))
  (at level 100, right associativity).

(** [try { m } catch (error) { h error.message }] *)
Definition try_catch {A} (m : M A) (h : string -> M A) : M A :=
  fun c =>
    match m c with
    | (Ok a, c', t) => (Ok a, c', t)
    | (Throw e, c', t) =>
        match h e c' with
        | (r, c'', t') => (r, c'', t ++ t')
        end
    end.

Definition emit (e : Event) : M unit := fun c => (Ok tt, c, [e]).

(** An awaited call: the event, then the answer or the rejection. *)
Definition await {A} (e : Event) (r : result A) : M A :=
  fun c => (r, c, [e]).

Definition lift {A} (r : result A) : M A := fun c => (r, c, []).

Definition cursor_get (walletId : string) : M (option string) :=
  fun c => (Ok (c !! walletId), c, []).

Definition cursor_set (walletId signature : string) : M unit :=
  fun c =>
    (Ok tt, <[walletId := signature]> c, [ESetCursor walletId signature]).

Definition sleep (ms : Z) : M unit := emit (ESleep ms).

Definition console_error (message : string) : M unit := emit (EError message).

(** [for (const x of l) { body x }] *)
Fixpoint for_of {A} (l : list A) (body : A -> M unit) : M unit :=
  match l with
  | [] => ret tt
  | x :: l' => body x ;;; for_of l' body
  end.

(** [!lastSignature] for a value read from the map: undefined or the
    empty string. *)
Definition falsy (lastSignature : option string) : bool :=
  match lastSignature with
  | None => true
  | Some s => String.eqb s ""
  end.

(** [latestSignature === lastSignature] *)
Definition strict_eq (latestSignature : string) (lastSignature : option string)
    : bool :=
  match lastSignature with
  | None => false
  | Some s => String.eqb latestSignature s
  end.

(** The loop of lines 595-598: the entries before the first one whose
    signature is the cursor. *)
Fixpoint collectNew (lastSignature : option string)
    (recentSignatures : list SigInfo.t) : list SigInfo.t :=
  match recentSignatures with
  | [] => []
  | sigInfo :: rest =>
      if strict_eq (SigInfo.signature sigInfo) lastSignature then []
      else sigInfo :: collectNew lastSignature rest
  end.

(** ** The differ (lines 564-636, 712-739) *)

Section Engine.

Variable StringToNumber : string -> jsnum.
Variable env : Env.
Variable connection : Connection.

Definition sendTransactionNotification (userId : string)
    (wallet : Wallet.t) (transfer : Transfer.t) : M unit :=
  try_catch
    (await (ESendMessage userId (Wallet.name wallet) transfer)
           (sendMessage connection userId (Wallet.name wallet) transfer))
    (fun error => console_error error).

Definition processTransaction (userId : string) (wallet : Wallet.t)
    (sigInfo : SigInfo.t) : M unit :=
  try_catch
    (let* transaction :=
       await (EGetTransaction (SigInfo.signature sigInfo))
             (getParsedTransaction connection (SigInfo.signature sigInfo)) in
     match transaction with
     | None => ret tt
     | Some transaction =>
         match Tx.meta transaction with
         | None => ret tt
         | Some _ =>
             let* solTransfer :=
               lift (analyzeSolTransaction env transaction
                       (Wallet.address wallet)) in
             match solTransfer with
             | None => ret tt
             | Some solTransfer =>
                 if shouldNotify StringToNumber env solTransfer wallet
                 then sendTransactionNotification userId wallet solTransfer
                 else ret tt
             end
         end
     end)
    (fun error => console_error error).

Definition newPublicKey (address : string) : M string :=
  if validAddress connection address then ret address
  else throw "Invalid public key input".

Definition checkWalletTransactions (userId walletId : string)
    (wallet : Wallet.t) : M unit :=
  try_catch
    (let* publicKey := newPublicKey (Wallet.address wallet) in
     let* signatures :=
       await (EGetSignatures publicKey 1)
             (getSignaturesForAddress connection publicKey 1) in
     match signatures with
     | [] => ret tt
     | first :: _ =>
         let latestSignature := SigInfo.signature first in
         let* lastSignature := cursor_get walletId in
         if falsy lastSignature then
           cursor_set walletId latestSignature
         else if strict_eq latestSignature lastSignature then
           ret tt
         else
           let* recentSignatures :=
             await (EGetSignatures publicKey 5)
                   (getSignaturesForAddress connection publicKey 5) in
           let newSignatures := collectNew lastSignature recentSignatures in
           for_of (rev newSignatures)
             (fun sigInfo =>
                processTransaction userId wallet sigInfo ;;;
                sleep 100) ;;;
           cursor_set walletId latestSignature
     end)
    (fun error => console_error error).

(** *** A poll across its awaits

    [checkWalletTransactions] is an async function: at an [await] it
    leaves the thread to other code, and when it resumes its variables
    are what they were, whatever the cursor map has become.  The
    definitions below cut the function at the [await] of line 592.
    [pollUntilWindow] is lines 566-589; it ends with the values that
    [publicKey], [latestSignature] (line 573) and [lastSignature]
    (line 574) have when line 592 is reached, or with nothing when the
    function returns before.  [pollFromWindow] is lines 592-609 from
    these values.  [pollBegin] and [pollEnd] are the two under the
    [try]/[catch] of the function. *)
Record Suspended : Type := {
  publicKey : string;
  latestSignature : string;
  lastSignature : option string
}.

Definition pollUntilWindow (walletId : string) (wallet : Wallet.t)
    : M (option Suspended) :=
  let* publicKey := newPublicKey (Wallet.address wallet) in
  let* signatures :=
    await (EGetSignatures publicKey 1)
          (getSignaturesForAddress connection publicKey 1) in
  match signatures with
  | [] => ret None
  | first :: _ =>
      let latestSignature := SigInfo.signature first in
      let* lastSignature := cursor_get walletId in
      if falsy lastSignature then
        cursor_set walletId latestSignature ;;; ret None
      else if strict_eq latestSignature lastSignature then
        ret None
      else
        ret (Some {| publicKey := publicKey;
                     latestSignature := latestSignature;
                     lastSignature := lastSignature |})
  end.

Definition pollFromWindow (userId walletId : string) (wallet : Wallet.t)
    (suspended : Suspended) : M unit :=
  let* recentSignatures :=
    await (EGetSignatures (publicKey suspended) 5)
          (getSignaturesForAddress connection (publicKey suspended) 5) in
  let newSignatures :=
    collectNew (lastSignature suspended) recentSignatures in
  for_of (rev newSignatures)
    (fun sigInfo =>
       processTransaction userId wallet sigInfo ;;;
       sleep 100) ;;;
  cursor_set walletId (latestSignature suspended).

Definition pollBegin (walletId : string) (wallet : Wallet.t)
    : M (option Suspended) :=
  try_catch (pollUntilWindow walletId wallet)
    (fun error => console_error error ;;; ret None).

Definition pollEnd (userId walletId : string) (wallet : Wallet.t)
    (suspended : Suspended) : M unit :=
  try_catch (pollFromWindow userId walletId wallet suspended)
    (fun error => console_error error).

End Engine.

(** ** The scheduler (lines 517-562 and 742-751) *)

Module ActiveWallet.
Record t : Type := { userId : string; walletId : string; wallet : Wallet.t }.
End ActiveWallet.

Definition BATCH_SIZE : nat := 3.

Section Scheduler.

Variable StringToNumber : string -> jsnum.
Variable env : Env.
Variable connection : Connection.

(** Lines 523-529, over the entries of the object read by [loadWallets]. *)
Definition collectActive (wallets : list (string * list (string * Wallet.t)))
    : list ActiveWallet.t :=
  flat_map
    (fun '(userId, userWallets) =>
       flat_map
         (fun '(walletId, wallet) =>
            if ToBoolean (Wallet.active wallet)
            then [{| ActiveWallet.userId := userId;
                     ActiveWallet.walletId := walletId;
                     ActiveWallet.wallet := wallet |}]
            else [])
         userWallets)
    wallets.

(** [await Promise.all(batch.map(...))]: the members of a batch are in
    flight together, and the program does not fix the order in which
    their awaits resume.  [processBatch] is the run in which each member
    ends before the next one resumes; no member rejects.  What is proved
    of a pass counts its events or follows one member, and does not
    depend on that order. *)
Definition processBatch (batch : list ActiveWallet.t) : M unit :=
  for_of batch
    (fun w =>
       checkWalletTransactions StringToNumber env connection
         (ActiveWallet.userId w) (ActiveWallet.walletId w)
         (ActiveWallet.wallet w)).

(** The loop of lines 541-555, from index [i]; [fuel] bounds the number of
    iterations. *)
Fixpoint batchLoop (fuel : nat) (i : nat)
    (activeWallets : list ActiveWallet.t) : M unit :=
  match fuel with
  | O => ret tt
  | S fuel' =>
      if (i <? length activeWallets)%nat then
        let batch := take BATCH_SIZE (drop i activeWallets) in
        processBatch batch ;;;
        (if (i + BATCH_SIZE <? length activeWallets)%nat
         then sleep 1000 else ret tt) ;;;
        batchLoop fuel' (i + BATCH_SIZE) activeWallets
      else ret tt
  end.

Definition checkTransactions
    (wallets : list (string * list (string * Wallet.t))) : M unit :=
  try_catch
    (let activeWallets := collectActive wallets in
     if Nat.eqb (length activeWallets) 0 then ret tt
     else batchLoop (length activeWallets) 0 activeWallets)
    (fun error => console_error error).

End Scheduler.

(** The delay of [setInterval(checkTransactions, 15000)] (line 747). *)
Definition INTERVAL : Z := 15000.

(** [start] registers the interval timer: call number [k] (from 0) of
    [checkTransactions] is made [(k + 1) * 15000] ms after the
    registration, whatever the state of the earlier calls; no flag or lock
    is kept.  [start t] lists the calls made up to [t] ms after the
    registration. *)
Definition start (t : Z) : list nat := seq 0 (Z.to_nat (t / INTERVAL)).

(** The time of call number [k]. *)
Definition startedAt (k : nat) : Z := (Z.of_nat k + 1) * INTERVAL.

(** * The conversation and the wallet store (lines 28-61 and 107-515)

    Conventions.
    - A Telegram id (user, chat, message) is its decimal string, which is
      also the key of the user in the store.
    - A wallet record of the store is a JavaScript object, a [gmap] from
      field names to values; the file [wallets.json] is missing,
      unparsable, or holds a store.  [JSON.stringify] drops the fields
      that are [undefined] and writes NaN and the infinities as [null].
    - The text of a message to the user is a [Text] tag with the values
      it shows; a keyboard is the list of the [callback_data] of its
      buttons, each on a row of its own as in the source.
    - [object[key]] is the lookup of a field of the object.  A key
      that names a property every object inherits ([inherited]:
      [constructor], [toString], ...) finds that property in JavaScript
      and is outside the model, as is a process in which a property was
      added to such an inherited object.
    - [trim], [length] and [parseFloat] on the text of a message, the
      order of [Object.entries] and the clock are parameters.
    - An awaited call of the bot API may reject; the rejection of a call
      that is not awaited is not followed. *)

Module UI.

(** ** Strings *)

(** [s.startsWith(p)] *)
Definition startsWith (p s : string) : bool := String.prefix p s.

(** The character [_]. *)
Definition underscore : Ascii.ascii := Ascii.ascii_of_nat 95.

(** [s.split(sep)] for a separator of one character. *)
Fixpoint jsSplit (sep : Ascii.ascii) (s : string) : list string :=
  match s with
  | EmptyString => [EmptyString]
  | String ch rest =>
      if Ascii.eqb ch sep then EmptyString :: jsSplit sep rest
      else
        match jsSplit sep rest with
        | part :: parts => String ch part :: parts
        | [] => [String ch EmptyString]
        end
  end.

(** [s] without its first [n] characters. *)
Fixpoint dropChars (n : nat) (s : string) : string :=
  match n, s with
  | S n', String _ rest => dropChars n' rest
  | _, _ => s
  end.

(** [s.replace(pattern, '')]: the first occurrence of [pattern] in [s]
    is removed. *)
Fixpoint jsReplace (pattern s : string) : string :=
  if String.prefix pattern s then dropChars (String.length pattern) s
  else
    match s with
    | EmptyString => EmptyString
    | String ch rest => String ch (jsReplace pattern rest)
    end.

(** [`${x}`] for a value that is a string or [undefined]. *)
Definition show (x : option string) : string := default "undefined" x.

(** ** The store and the file *)

Abbreviation WalletObject := (gmap string jsval).
Abbreviation UserWallets := (gmap string WalletObject).
Abbreviation Store := (gmap string UserWallets).

(** The names of the properties every object inherits from
    [Object.prototype]. *)
Definition inherited (key : string) : bool :=
  existsb (String.eqb key)
    ["constructor"; "hasOwnProperty"; "isPrototypeOf";
     "propertyIsEnumerable"; "toLocaleString"; "toString"; "valueOf";
     "__proto__"; "__defineGetter__"; "__defineSetter__";
     "__lookupGetter__"; "__lookupSetter__"].

(** [object.field] *)
Definition get (object : WalletObject) (field : string) : jsval :=
  default JUndefined (object !! field).

(** [wallets[userId]?.[walletId]] *)
Definition findWallet (wallets : Store) (userId walletId : string)
    : option WalletObject :=
  match wallets !! userId with
  | Some userWallets => userWallets !! walletId
  | None => None
  end.

(** What [JSON.stringify] writes for a field: nothing for [undefined],
    [null] for NaN and for an infinity. *)
Definition toJSON (v : jsval) : option jsval :=
  match v with
  | JUndefined => None
  | JNum NaN | JNum (Infinity _) => Some JNull
  | _ => Some v
  end.

(** [JSON.parse(JSON.stringify(wallets, null, 2))] *)
Definition stringify (wallets : Store) : Store :=
  fmap (M := gmap string) (fmap (M := gmap string) (omap toJSON)) wallets.

Inductive File : Type :=
| Missing
| Unparsable
| Json (wallets : Store).

(** An entry of [userSessions]. *)
Record Session : Type := {
  state : string;
  walletName : option string;
  walletId : option string
}.

Record World : Type := {
  file : File;
  writable : bool;
  userSessions : gmap string Session
}.

(** ** Messages and calls *)

Inductive Text : Type :=
| TWelcome
| TAskName
| TNoWallets
| TWalletList (wallets : list (string * WalletObject))
| TNothingToRemove
| TSelectRemove
| TSettings (wallet : WalletObject)
| TWalletNotFound
| TNameTooLong
| TAskAddress (name : string)
| TInvalidAddress
| TAdded (name : option string)
| TMinTooLow
| TMinSet (minAmount : jsnum)
| TMaxTooLow
| TMaxBelowMin (maxAmount : jsnum) (minAmount : jsval)
| TMaxSet (maxAmount : jsnum)
| TAskMin
| TAskMax
| TChooseDirection
| TDirectionSet (direction : bool)
| TConfirmRemove (name : jsval)
| TRemoved (name : jsval)
| TError.

Inductive Call : Type :=
| AnswerCallbackQuery (id : string)
| EditMessageText (chatId messageId : string) (text : Text)
    (keyboard : list string)
| SendMessage (chatId : string) (text : Text) (keyboard : list string)
| ConsoleError (message : string).

Definition mainMenuKeyboard : list string :=
  ["add_wallet"; "view_wallets"; "remove_wallet"].

Definition backKeyboard : list string := ["back_to_menu"].

(** ** Effects *)

Definition U (A : Type) : Type := World -> result A * World * list Call.

Definition ret {A} (a : A) : U A := fun w => (Ok a, w, []).

Definition throw {A} (message : string) : U A :=
  fun w => (Throw message, w, []).

Definition bind {A B} (m : U A) (k : A -> U B) : U B :=
  fun w =>
    match m w with
    | (Ok a, w', t) =>
        match k a w' with
        | (r, w'', t') => (r, w'', t ++ t')
        end
    | (Throw e, w', t) => (Throw e, w', t)
    end.

Notation "'let!' x := m 'in' k" := (bind m (fun x => k))
  (at level 10, x name, m at level 100, k at level 200).
Notation "m ;;! k" := (bind m (fun _ => k))
  (at level 100, right associativity).

Definition try_catch {A} (m : U A) (h : string -> U A) : U A :=
  fun w =>
    match m w with
    | (Ok a, w', t) => (Ok a, w', t)
    | (Throw e, w', t) =>
        match h e w' with
        | (r, w'', t') => (r, w'', t ++ t')
        end
    end.

(** A call that is not awaited. *)
Definition call (c : Call) : U unit := fun w => (Ok tt, w, [c]).

Definition console_error (message : string) : U unit :=
  call (ConsoleError message).

Definition session_get (userId : string) : U (option Session) :=
  fun w => (Ok (userSessions w !! userId), w, []).

Definition session_set (userId : string) (session : Session) : U unit :=
  fun w =>
    (Ok tt,
     {| file := file w; writable := writable w;
        userSessions := <[userId := session]> (userSessions w) |},
     []).

Definition session_delete (userId : string) : U unit :=
  fun w =>
    (Ok tt,
     {| file := file w; writable := writable w;
        userSessions := delete userId (userSessions w) |},
     []).

(** Lines 36-43: an unreadable or unparsable file reads as [{}]. *)
Definition loadWallets : U Store :=
  fun w =>
    (Ok match file w with
        | Json wallets => wallets
        | Missing | Unparsable => ∅
        end,
     w, []).

(** Lines 45-47. *)
Definition saveWallets (wallets : Store) : U unit :=
  fun w =>
    if writable w then
      (Ok tt,
       {| file := Json (stringify wallets); writable := writable w;
          userSessions := userSessions w |},
       [])
    else (Throw "EACCES: permission denied", w, []).

(** Lines 28-34. *)
Definition initDataFile : U unit :=
  fun w =>
    match file w with
    | Missing => saveWallets ∅ w
    | Unparsable | Json _ => (Ok tt, w, [])
    end.

Section Handlers.

Variable StringToNumber : string -> jsnum.
Variable env : Env.
Variable connection : Connection.

(** The bot API: the outcome of an awaited call. *)
Variable bot : Call -> result unit.

(** [Object.entries(userWallets)], in the order of the engine. *)
Variable entries : UserWallets -> list (string * WalletObject).

(** [text.trim()], [text.length] and [parseFloat(text)]. *)
Variable trim : string -> string.
Variable jsLength : string -> nat.
Variable parseFloat : string -> jsnum.

Definition await (c : Call) : U unit := fun w => (bot c, w, [c]).

(** Lines 54-61. *)
Definition isValidSolanaAddress (address : string) : bool :=
  validAddress connection address.

(** Lines 168-179. *)
Definition handleAddWallet (chatId messageId userId : string) : U unit :=
  session_set userId
    {| state := "awaiting_wallet_name"; walletName := None;
       walletId := None |} ;;!
  await (EditMessageText chatId messageId TAskName backKeyboard).

(** Lines 182-219. *)
Definition handleViewWallets (chatId messageId userId : string) : U unit :=
  let! wallets := loadWallets in
  let userWallets := default ∅ (wallets !! userId) in
  if Nat.eqb (length (entries userWallets)) 0 then
    await (EditMessageText chatId messageId TNoWallets backKeyboard)
  else
    await (EditMessageText chatId messageId
             (TWalletList (entries userWallets))
             (map (fun '(walletId, _) => "edit_wallet_" +:+ walletId)
                (entries userWallets)
              ++ ["back_to_menu"])).

(** Lines 222-252. *)
Definition handleRemoveWallet (chatId messageId userId : string) : U unit :=
  let! wallets := loadWallets in
  let userWallets := default ∅ (wallets !! userId) in
  if Nat.eqb (length (entries userWallets)) 0 then
    await (EditMessageText chatId messageId TNothingToRemove backKeyboard)
  else
    await (EditMessageText chatId messageId TSelectRemove
             (map (fun '(walletId, _) => "remove_wallet_" +:+ walletId)
                (entries userWallets)
              ++ ["back_to_menu"])).

(** Line 259: [wallet.direction.charAt(0).toUpperCase() +
    wallet.direction.slice(1)] throws unless [wallet] is an object whose
    [direction] is a string. *)
Definition directionLabel (wallet : option WalletObject) : U unit :=
  match wallet with
  | None => throw "Cannot read properties of undefined (reading 'direction')"
  | Some wallet =>
      match get wallet "direction" with
      | JStr _ => ret tt
      | JUndefined | JNull =>
          throw "Cannot read properties of undefined (reading 'charAt')"
      | JBool _ | JNum _ => throw "wallet.direction.charAt is not a function"
      end
  end.

(** Lines 255-287. *)
Definition handleEditWallet (chatId messageId userId walletId : string)
    : U unit :=
  let! wallets := loadWallets in
  let wallet := findWallet wallets userId walletId in
  directionLabel wallet ;;!
  match wallet with
  | None => call (SendMessage chatId TWalletNotFound [])
  | Some wallet =>
      await (EditMessageText chatId messageId (TSettings wallet)
               ["filter_min_" +:+ walletId; "filter_max_" +:+ walletId;
                "filter_direction_" +:+ walletId;
                "filter_toggle_" +:+ walletId; "view_wallets"])
  end.

(** Lines 473-479. *)
Definition updateWalletFilter (userId walletId field : string) (value : jsval)
    : U unit :=
  let! wallets := loadWallets in
  match wallets !! userId with
  | Some userWallets =>
      match userWallets !! walletId with
      | Some wallet =>
          saveWallets
            (<[userId := <[walletId := <[field := value]> wallet]> userWallets]>
               wallets)
      | None => ret tt
      end
  | None => ret tt
  end.

(** Lines 481-500. *)
Definition handleConfirmRemove (chatId messageId userId walletId : string)
    : U unit :=
  let! wallets := loadWallets in
  match findWallet wallets userId walletId with
  | None => ret tt
  | Some wallet =>
      await (EditMessageText chatId messageId
               (TConfirmRemove (get wallet "name"))
               ["confirm_remove_" +:+ walletId; "remove_wallet"])
  end.

(** Lines 502-515. *)
Definition handleActualRemove (chatId messageId userId walletId : string)
    : U unit :=
  let! wallets := loadWallets in
  match wallets !! userId with
  | Some userWallets =>
      match userWallets !! walletId with
      | Some wallet =>
          saveWallets (<[userId := delete walletId userWallets]> wallets) ;;!
          await (EditMessageText chatId messageId
                   (TRemoved (get wallet "name")) backKeyboard)
      | None => ret tt
      end
  | None => ret tt
  end.

(** Lines 414-470. *)
Definition handleFilterSelection (chatId messageId userId data : string)
    : U unit :=
  let parts := jsSplit underscore data in
  let action := parts !! 1%nat in
  let walletId := parts !! 2%nat in
  (if decide (action = Some "min") then
     session_set userId
       {| state := "awaiting_min_amount"; walletName := None;
          walletId := walletId |} ;;!
     await (EditMessageText chatId messageId TAskMin backKeyboard)
   else if decide (action = Some "max") then
     session_set userId
       {| state := "awaiting_max_amount"; walletName := None;
          walletId := walletId |} ;;!
     await (EditMessageText chatId messageId TAskMax backKeyboard)
   else if decide (action = Some "direction") then
     await (EditMessageText chatId messageId TChooseDirection
              ["set_direction_incoming_" +:+ show walletId;
               "set_direction_outgoing_" +:+ show walletId;
               "set_direction_both_" +:+ show walletId;
               "edit_wallet_" +:+ show walletId])
   else if decide (action = Some "toggle") then
     let! wallets := loadWallets in
     match wallets !! userId with
     | Some userWallets =>
         match userWallets !! show walletId with
         | Some wallet =>
             saveWallets
               (<[userId :=
                    <[show walletId :=
                        <["active" :=
                            JBool (negb (ToBoolean (get wallet "active")))]>
                          wallet]>
                      userWallets]>
                  wallets) ;;!
             handleEditWallet chatId messageId userId (show walletId)
         | None => ret tt
         end
     | None => ret tt
     end
   else ret tt) ;;!
  if startsWith "set_direction_" data then
    let direction :=
      bool_decide (parts !! 2%nat = Some "incoming") in
    let walletId := parts !! 3%nat in
    updateWalletFilter userId (show walletId) "direction" (JBool direction) ;;!
    call (SendMessage chatId (TDirectionSet direction) [])
  else ret tt.

(** An update with a callback query. *)
Record CallbackQuery : Type := {
  queryId : string;
  data : string;
  queryChatId : string;
  queryMessageId : string;
  queryFromId : string
}.

(** [value] as stored by [object[field] = value] for a string or
    [undefined]. *)
Definition strOrUndefined (value : option string) : jsval :=
  match value with
  | Some s => JStr s
  | None => JUndefined
  end.

(** Lines 107-165. *)
Definition onCallbackQuery (q : CallbackQuery) : U unit :=
  let chatId := queryChatId q in
  let messageId := queryMessageId q in
  let userId := queryFromId q in
  let data := data q in
  try_catch
    (await (AnswerCallbackQuery (queryId q)) ;;!
     if String.eqb data "back_to_menu" then
       session_delete userId ;;!
       await (EditMessageText chatId messageId TWelcome mainMenuKeyboard)
     else if String.eqb data "add_wallet" then
       handleAddWallet chatId messageId userId
     else if String.eqb data "view_wallets" then
       handleViewWallets chatId messageId userId
     else if String.eqb data "remove_wallet" then
       handleRemoveWallet chatId messageId userId
     else if startsWith "edit_wallet_" data then
       handleEditWallet chatId messageId userId
         (jsReplace "edit_wallet_" data)
     else if startsWith "remove_wallet_" data then
       handleConfirmRemove chatId messageId userId
         (jsReplace "remove_wallet_" data)
     else if startsWith "confirm_remove_" data then
       handleActualRemove chatId messageId userId
         (jsReplace "confirm_remove_" data)
     else if startsWith "filter_" data then
       handleFilterSelection chatId messageId userId data
     else if startsWith "set_direction_" data then
       let parts := jsSplit underscore data in
       let direction := parts !! 2%nat in
       let walletId := parts !! 3%nat in
       updateWalletFilter userId (show walletId) "direction"
         (strOrUndefined direction) ;;!
       handleEditWallet chatId messageId userId (show walletId)
     else ret tt)
    (fun error =>
       console_error error ;;!
       call (SendMessage chatId TError [])).

(** An update with a message, and the clock when it is handled:
    [Date.now().toString()] and [new Date().toISOString()]. *)
Record Message : Type := {
  text : option string;
  chatId : string;
  fromId : string;
  now : string;
  nowISO : string
}.

(** The wallet record of lines 323-331. *)
Definition newWallet (name : option string) (address created : string)
    : WalletObject :=
  <["name" := strOrUndefined name]>
    (<["address" := JStr address]>
       (<["minAmount" := of_env (MINIMUM_SOL_THRESHOLD env)]>
          (<["maxAmount" := JNull]>
             (<["direction" := JStr "both"]>
                (<["active" := JBool true]>
                   (<["created" := JStr created]> ∅)))))).

(** The links under a confirmation: back to the wallet, or to the menu. *)
Definition afterKeyboard (walletId : option string) : list string :=
  ["edit_wallet_" +:+ show walletId; "back_to_menu"].

(** Lines 290-411. *)
Definition onMessage (msg : Message) : U unit :=
  match text msg with
  | None => ret tt
  | Some raw =>
      if String.eqb raw "" || startsWith "/" raw then ret tt
      else
        let chatId := chatId msg in
        let userId := fromId msg in
        let text := trim raw in
        let! session := session_get userId in
        match session with
        | None => ret tt
        | Some session =>
            try_catch
              (if String.eqb (state session) "awaiting_wallet_name" then
                 if (50 <? jsLength text)%nat then
                   call (SendMessage chatId TNameTooLong [])
                 else
                   session_set userId
                     {| state := "awaiting_wallet_address";
                        walletName := Some text;
                        walletId := walletId session |} ;;!
                   call (SendMessage chatId (TAskAddress text) [])
               else if String.eqb (state session) "awaiting_wallet_address"
               then
                 if negb (isValidSolanaAddress text) then
                   call (SendMessage chatId TInvalidAddress [])
                 else
                   let! wallets := loadWallets in
                   let userWallets := default ∅ (wallets !! userId) in
                   let walletId := now msg in
                   saveWallets
                     (<[userId :=
                          <[walletId :=
                              newWallet (walletName session) text (nowISO msg)]>
                            userWallets]>
                        wallets) ;;!
                   session_delete userId ;;!
                   call (SendMessage chatId (TAdded (walletName session))
                           (afterKeyboard (Some walletId)))
               else if String.eqb (state session) "awaiting_min_amount" then
                 let minAmount := parseFloat text in
                 if num_isNaN minAmount
                    || lt_val StringToNumber minAmount
                         (of_env (MINIMUM_SOL_THRESHOLD env))
                 then call (SendMessage chatId TMinTooLow [])
                 else
                   updateWalletFilter userId (show (walletId session))
                     "minAmount" (JNum minAmount) ;;!
                   session_delete userId ;;!
                   call (SendMessage chatId (TMinSet minAmount)
                           (afterKeyboard (walletId session)))
               else if String.eqb (state session) "awaiting_max_amount" then
                 let maxAmount := parseFloat text in
                 if num_isNaN maxAmount
                    || le_val StringToNumber maxAmount
                         (of_env (MINIMUM_SOL_THRESHOLD env))
                 then call (SendMessage chatId TMaxTooLow [])
                 else
                   let! currentWallets := loadWallets in
                   match findWallet currentWallets userId
                           (show (walletId session)) with
                   | Some currentWallet =>
                       if lt_val StringToNumber maxAmount
                            (get currentWallet "minAmount")
                       then
                         call (SendMessage chatId
                                 (TMaxBelowMin maxAmount
                                    (get currentWallet "minAmount")) [])
                       else
                         updateWalletFilter userId (show (walletId session))
                           "maxAmount" (JNum maxAmount) ;;!
                         session_delete userId ;;!
                         call (SendMessage chatId (TMaxSet maxAmount)
                                 (afterKeyboard (walletId session)))
                   | None =>
                       updateWalletFilter userId (show (walletId session))
                         "maxAmount" (JNum maxAmount) ;;!
                       session_delete userId ;;!
                       call (SendMessage chatId (TMaxSet maxAmount)
                               (afterKeyboard (walletId session)))
                   end
               else ret tt)
              (fun error =>
                 console_error error ;;!
                 call (SendMessage chatId TError []) ;;!
                 session_delete userId)
        end
  end.

End Handlers.

End UI.

(** * Vocabulary of the properties *)

(** ** Numbers *)

(** The binary64 numbers of the Standard Library ([SpecFloat], precision
    53 and maximal exponent 1024) as numbers of the embedding, and the
    binary64 that holds an integer. *)
Definition of_binary64 (f : SpecFloat.spec_float) : jsnum :=
  match f with
  | SpecFloat.S754_zero _ => Finite 0
  | SpecFloat.S754_infinity negative => Infinity negative
  | SpecFloat.S754_nan => NaN
  | SpecFloat.S754_finite negative m e =>
      Finite (Qred ((if negative then - 1 else 1)
                    * inject_Z (Zpos m) * 2 ^ e))
  end.

Definition binary64 (z : Z) : SpecFloat.spec_float :=
  SpecFloat.binary_normalize 53 1024 z 0 false.

(** ** Passes in flight *)

(** The pass started by call [k] is in flight at time [t], when it takes
    [duration k] ms to settle. *)
Definition running (duration : nat -> Z) (t : Z) (k : nat) : bool :=
  (startedAt k <=? t) && (t <? startedAt k + duration k).

(** The number of passes in flight at time [t]. *)
Definition inFlight (duration : nat -> Z) (t : Z) : nat :=
  length (List.filter (running duration t) (start t)).

(** ** The analyzer *)

(** The balance change of account [i] of a transaction as the analyzer
    computes it (lines 655, 660): a difference of doubles. *)
Definition change (meta : Tx.Meta) (i : nat) : jsnum :=
  num_sub (balance (Tx.postBalances meta) i) (balance (Tx.preBalances meta) i).

(** The same change as an integer, absent when a balance of the account
    is. *)
Definition delta (meta : Tx.Meta) (i : nat) : option Z :=
  match Tx.postBalances meta !! i, Tx.preBalances meta !! i with
  | Some post, Some pre => Some (post - pre)
  | _, _ => None
  end.

(** [r] is the key of the first account other than [w] that satisfies [P],
    and is absent when no other account does. *)
Definition first_other (keys : list string) (w : nat) (P : nat -> bool)
    (r : option string) : Prop :=
  match r with
  | Some k =>
      exists i, keys !! i = Some k /\ i <> w /\ P i = true /\
                forall j, (j < i)%nat -> j <> w -> P j = false
  | None =>
      forall i, (i < length keys)%nat -> i <> w -> P i = false
  end.

(** The balances of the account are present, and the balance rose, or
    fell. *)
Definition rose (d : option Z) : bool :=
  match d with
  | Some z => 0 <? z
  | None => false
  end.

Definition fell (d : option Z) : bool :=
  match d with
  | Some z => z <? 0
  | None => false
  end.

(** The account's balance dropped, read on the change that the program
    computes. *)
Definition dropped (d : jsnum) : bool := num_lt d (Finite 0).

(** The gain plus the watched account's change, a sum of doubles, is
    below the fee tolerance of 1000000 lamports. *)
Definition sum_within_tolerance (watchedDelta senderGain : jsnum) : bool :=
  num_lt (num_add senderGain watchedDelta) (Finite 1000000).

(** The account's balance rose, and the sum is within the tolerance. *)
Definition rose_within_tolerance (watchedDelta senderGain : jsnum) : bool :=
  num_gt senderGain (Finite 0)
  && sum_within_tolerance watchedDelta senderGain.

(** The same test with the sum of the changes as integers. *)
Definition rose_within_exact_tolerance (watchedDelta senderGain : option Z)
    : bool :=
  match watchedDelta, senderGain with
  | Some d, Some g => (0 <? g) && (g + d <? 1000000)
  | _, _ => false
  end.

(** Balances up to [2^52] lamports: their differences, and the sums of
    two differences, are doubles. *)
Definition small (balances : list Z) : Prop :=
  Forall (fun z => 0 <= z <= 2 ^ 52) balances.

(** The test the loop applies to the change [d] of another account. *)
Definition loop_test (balanceChange d : jsnum) : bool :=
  (num_gt balanceChange (Finite 0) && num_lt d (Finite 0))
  || (num_lt balanceChange (Finite 0) && num_gt d (Finite 0)
      && num_lt (num_add d balanceChange) (Finite 1000000)).

(** ** The filter *)

(** The amount in SOL that the filter compares (line 682). *)
Definition amountSOL (transfer : Transfer.t) : jsnum :=
  div_1e9 (Transfer.amount transfer).

(** The amount [a] is not below, or not above, the number [n]: what
    [a < n], or [a > n], being false says. *)
Definition notBelow (a : Q) (n : jsnum) : Prop :=
  match n with
  | NaN => True
  | Infinity negative => negative = true
  | Finite f => (f <= a)%Q
  end.

Definition notAbove (a : Q) (n : jsnum) : Prop :=
  match n with
  | NaN => True
  | Infinity negative => negative = false
  | Finite f => (a <= f)%Q
  end.

(** The amount [a] is not at most the number [n]: what [a <= n] being
    false says. *)
Definition notAtMost (a : Q) (n : jsnum) : Prop :=
  match n with
  | NaN => True
  | Infinity negative => negative = true
  | Finite f => (f < a)%Q
  end.

Section FilterVocabulary.

Variable StringToNumber : string -> jsnum.
Variable env : Env.

(** The process-wide floor as a number. *)
Definition floor : jsnum :=
  ToNumber StringToNumber (of_env (MINIMUM_SOL_THRESHOLD env)).

(** The four checks of the filter, for an amount [a] in SOL. *)
Definition floor_allows (a : Q) : Prop := notBelow a floor.

Definition min_allows (wallet : Wallet.t) (a : Q) : Prop :=
  ToBoolean (Wallet.minAmount wallet) = true ->
  notBelow a (ToNumber StringToNumber (Wallet.minAmount wallet)).

Definition max_allows (wallet : Wallet.t) (a : Q) : Prop :=
  ToBoolean (Wallet.maxAmount wallet) = true ->
  notAbove a (ToNumber StringToNumber (Wallet.maxAmount wallet)).

Definition direction_allows (wallet : Wallet.t) (transfer : Transfer.t)
    : Prop :=
  Wallet.direction wallet = JStr "both" \/
  Wallet.direction wallet = JStr (Transfer.direction transfer).

End FilterVocabulary.

(** ** Traces *)

Definition fetched (tr : list Event) : list string :=
  flat_map (fun e => match e with EGetTransaction s => [s] | _ => [] end) tr.

Definition notifications (tr : list Event) : list Event :=
  List.filter
    (fun e => match e with ESendMessage _ _ _ => true | _ => false end) tr.

Definition cursorWrites (tr : list Event) : list (string * string) :=
  flat_map (fun e => match e with ESetCursor w s => [(w, s)] | _ => [] end) tr.

Definition errors (tr : list Event) : list string :=
  flat_map (fun e => match e with EError m => [m] | _ => [] end) tr.

(** The signature whose processing emitted each notification: the argument
    of the transaction fetch that precedes it. *)
Fixpoint notifiedFrom (current : option string) (tr : list Event)
    : list string :=
  match tr with
  | [] => []
  | EGetTransaction s :: tr' => notifiedFrom (Some s) tr'
  | ESendMessage _ _ _ :: tr' =>
      match current with
      | Some s => s :: notifiedFrom current tr'
      | None => notifiedFrom current tr'
      end
  | _ :: tr' => notifiedFrom current tr'
  end.

Definition notified (tr : list Event) : list string := notifiedFrom None tr.

(** The wallet ids of the cursor writes of a trace. *)
Definition writtenIds (tr : list Event) : list string :=
  map fst (cursorWrites tr).

(** The time a trace spends in [setTimeout] sleeps. *)
Definition sleepTime (tr : list Event) : Z :=
  fold_right (fun e acc => match e with ESleep ms => ms + acc | _ => acc end)
    0 tr.

(** ** Polls *)

Section PollVocabulary.

Variable StringToNumber : string -> jsnum.
Variable env : Env.
Variable connection : Connection.
Variable userId walletId : string.
Variable wallet : Wallet.t.

(** The events of sending one notification. *)
Definition sendTrace (transfer : Transfer.t) : list Event :=
  ESendMessage userId (Wallet.name wallet) transfer ::
  match sendMessage connection userId (Wallet.name wallet) transfer with
  | Ok _ => []
  | Throw e => [EError e]
  end.

(** The events of processing one signature. *)
Definition processTrace (sigInfo : SigInfo.t) : list Event :=
  (processTransaction StringToNumber env connection userId wallet sigInfo
     ∅).2.

(** The body of the loop of lines 601-606 and the events of the loop. *)
Definition loopBody (sigInfo : SigInfo.t) : M unit :=
  processTransaction StringToNumber env connection userId wallet sigInfo ;;;
  sleep 100.

Definition loopTrace (l : list SigInfo.t) : list Event :=
  flat_map (fun sigInfo => processTrace sigInfo ++ [ESleep 100]) l.

(** One poll of the watch, from the cursor map [c]. *)
Definition poll (c : Cursors) : result unit * Cursors * list Event :=
  checkWalletTransactions StringToNumber env connection userId walletId
    wallet c.

Definition outcome (c : Cursors) : result unit := (poll c).1.1.
Definition cursorsAfter (c : Cursors) : Cursors := (poll c).1.2.
Definition traceOf (c : Cursors) : list Event := (poll c).2.

(** The paths through [checkWalletTransactions]: the cursor map and the
    trace each one ends with. *)
Inductive Path (c : Cursors) : Cursors -> list Event -> Prop :=
| PathInvalidAddress :
    validAddress connection (Wallet.address wallet) = false ->
    Path c c [EError "Invalid public key input"]
| PathLatestThrows e :
    validAddress connection (Wallet.address wallet) = true ->
    getSignaturesForAddress connection (Wallet.address wallet) 1 = Throw e ->
    Path c c [EGetSignatures (Wallet.address wallet) 1; EError e]
| PathNoSignatures :
    validAddress connection (Wallet.address wallet) = true ->
    getSignaturesForAddress connection (Wallet.address wallet) 1 = Ok [] ->
    Path c c [EGetSignatures (Wallet.address wallet) 1]
| PathColdStart first rest :
    validAddress connection (Wallet.address wallet) = true ->
    getSignaturesForAddress connection (Wallet.address wallet) 1
      = Ok (first :: rest) ->
    falsy (c !! walletId) = true ->
    Path c (<[walletId := SigInfo.signature first]> c)
      [EGetSignatures (Wallet.address wallet) 1;
       ESetCursor walletId (SigInfo.signature first)]
| PathUnchanged first rest :
    validAddress connection (Wallet.address wallet) = true ->
    getSignaturesForAddress connection (Wallet.address wallet) 1
      = Ok (first :: rest) ->
    falsy (c !! walletId) = false ->
    strict_eq (SigInfo.signature first) (c !! walletId) = true ->
    Path c c [EGetSignatures (Wallet.address wallet) 1]
| PathRecentThrows first rest e :
    validAddress connection (Wallet.address wallet) = true ->
    getSignaturesForAddress connection (Wallet.address wallet) 1
      = Ok (first :: rest) ->
    falsy (c !! walletId) = false ->
    strict_eq (SigInfo.signature first) (c !! walletId) = false ->
    getSignaturesForAddress connection (Wallet.address wallet) 5 = Throw e ->
    Path c c [EGetSignatures (Wallet.address wallet) 1;
              EGetSignatures (Wallet.address wallet) 5; EError e]
| PathProcessed first rest recent :
    validAddress connection (Wallet.address wallet) = true ->
    getSignaturesForAddress connection (Wallet.address wallet) 1
      = Ok (first :: rest) ->
    falsy (c !! walletId) = false ->
    strict_eq (SigInfo.signature first) (c !! walletId) = false ->
    getSignaturesForAddress connection (Wallet.address wallet) 5
      = Ok recent ->
    Path c (<[walletId := SigInfo.signature first]> c)
      ([EGetSignatures (Wallet.address wallet) 1;
        EGetSignatures (Wallet.address wallet) 5]
       ++ loopTrace (rev (collectNew (c !! walletId) recent))
       ++ [ESetCursor walletId (SigInfo.signature first)]).

End PollVocabulary.

(** ** Polls run one after the other *)

(** The latest signature a chain state answers to the fetch with limit 1
    for the address of a wallet, if it answers one. *)
Definition latestAt (connection : Connection) (wallet : Wallet.t)
    : option string :=
  match getSignaturesForAddress connection (Wallet.address wallet) 1 with
  | Ok (first :: _) => Some (SigInfo.signature first)
  | _ => None
  end.

Section PollsInTurn.

Variable StringToNumber : string -> jsnum.
Variable env : Env.

(** The cursor maps after each poll of a list, a poll being a watch and
    the chain state that answers it, when every poll runs from its start
    to its end before the next one begins. *)
Fixpoint pollsInTurn (polls : list (Connection * ActiveWallet.t))
    (c : Cursors) : list Cursors :=
  match polls with
  | [] => []
  | (connection, w) :: rest =>
      let c' :=
        cursorsAfter StringToNumber env connection (ActiveWallet.userId w)
          (ActiveWallet.walletId w) (ActiveWallet.wallet w) c in
      c' :: pollsInTurn rest c'
  end.

Variable walletId : string.
Variable rank : string -> Z.

(** The latest signature that a poll fetches, when the poll is made under
    the id [walletId]. *)
Definition latestUnder (poll : Connection * ActiveWallet.t)
    : option string :=
  if String.eqb (ActiveWallet.walletId poll.2) walletId
  then latestAt poll.1 (ActiveWallet.wallet poll.2)
  else None.

(** No poll of the list fetches, under the id, a latest signature older
    than [a]. *)
Definition neverOlder (a : string)
    (polls : list (Connection * ActiveWallet.t)) : Prop :=
  Forall (fun poll => forall b, latestUnder poll = Some b -> rank a <= rank b)
    polls.

(** The latest signature fetched under the id never gets older from one
    poll to a later one. *)
Fixpoint Growing (polls : list (Connection * ActiveWallet.t)) : Prop :=
  match polls with
  | [] => True
  | poll :: rest =>
      (forall a, latestUnder poll = Some a -> neverOlder a rest)
      /\ Growing rest
  end.

(** The cursor under the id never gets older along a list of cursor
    maps, and is never removed. *)
Definition neverRewound (maps : list Cursors) : Prop :=
  forall i j ci cj a,
    (i <= j)%nat -> maps !! i = Some ci -> maps !! j = Some cj ->
    ci !! walletId = Some a ->
    exists b, cj !! walletId = Some b /\ rank a <= rank b.

End PollsInTurn.

(** ** Polls in flight together *)

Section Overlap.

Variable StringToNumber : string -> jsnum.
Variable env : Env.

(** Two polls of one watch in flight together: the poll made by one pass
    is at the [await] of line 592 while the poll made by a later pass runs
    from its start to its end; then the first one resumes.  [before] is
    the chain state that answers the first poll up to line 592, [after]
    the one that answers from then on.  The cursor maps are listed as they
    are when the first poll is suspended, when the second one has ended
    and when the first one has. *)
Definition overlappingPolls (before after : Connection)
    (userId walletId : string) (wallet : Wallet.t) (c : Cursors)
    : list Cursors :=
  match pollBegin before walletId wallet c with
  | (Ok (Some suspended), c1, _) =>
      let c2 :=
        cursorsAfter StringToNumber env after userId walletId wallet c1 in
      let c3 :=
        (pollEnd StringToNumber env after userId walletId wallet suspended
           c2).1.2 in
      [c1; c2; c3]
  | (_, c1, _) => [c1]
  end.

End Overlap.

(** * A concrete configuration, chain and wallets *)

Definition env0 : Env :=
  {| POLL_INTERVAL := None; MAX_SIGNATURES_PER_CHECK := None;
     MINIMUM_SOL_THRESHOLD := Some "0.1"; DUST_THRESHOLD := Some "5000" |}.

(** A conversion that knows the one configured string. *)
Definition parseConfigured (s : string) : jsnum :=
  if String.eqb s "0.1" then round (1 # 10) else NaN.

(** A transaction in which the watched wallet receives 2000000 lamports
    from the first account; the third account pays nothing. *)
Definition tx_incoming : Tx.t :=
  {| Tx.meta := Some {| Tx.preBalances := [10000000; 5000000; 1];
                        Tx.postBalances := [7995000; 7000000; 1] |};
     Tx.accountKeys := ["Sender"; "Watched"; "Program"];
     Tx.signatures := ["sig1"];
     Tx.blockTime := Some 1700000000 |}.

(** A transaction that changes the balance of "Watched" by [d]. *)
Definition tx_change (d : Z) : Tx.t :=
  {| Tx.meta := Some {| Tx.preBalances := [5000000; 0];
                        Tx.postBalances := [5000000 - d; d] |};
     Tx.accountKeys := ["Sender"; "Watched"];
     Tx.signatures := ["sig2"];
     Tx.blockTime := None |}.

(** A transaction in which "Watched", holding [2^53 + 2] lamports, pays
    [2^53 + 1] of them to "Receiver"; "Payer" adds 999999 lamports and
    pays the fee of 5000. *)
Definition meta_whale : Tx.Meta :=
  {| Tx.preBalances := [2 ^ 53 + 2; 0; 2000000];
     Tx.postBalances := [1; 2 ^ 53 + 1000000; 995001] |}.

Definition tx_whale : Tx.t :=
  {| Tx.meta := Some meta_whale;
     Tx.accountKeys := ["Watched"; "Receiver"; "Payer"];
     Tx.signatures := ["sig3"];
     Tx.blockTime := Some 1700000000 |}.

Definition transferOf (lamports : Z) (direction : string) : Transfer.t :=
  {| Transfer.signature := Some "sig";
     Transfer.amount := of_Z lamports;
     Transfer.direction := direction;
     Transfer.timestamp := Finite 0;
     Transfer.receiver_sender := None |}.

(** A wallet that notifies between 0.5 and 2 SOL, and one whose stored
    minimum, 0.01 SOL, is below the floor of 0.1 SOL. *)
Definition walletHalfToTwo : Wallet.t :=
  {| Wallet.name := "main"; Wallet.address := "Watched";
     Wallet.minAmount := JNum (Finite (1 # 2));
     Wallet.maxAmount := JNum (Finite 2);
     Wallet.direction := JStr "both"; Wallet.active := JBool true |}.

(** A wallet that notifies up to 8615591.833155717 SOL. *)
Definition walletUpTo : Wallet.t :=
  {| Wallet.name := "whale"; Wallet.address := "Watched";
     Wallet.minAmount := JNull;
     Wallet.maxAmount := JNum (round (8615591833155717 # 1000000000));
     Wallet.direction := JStr "both"; Wallet.active := JBool true |}.

Definition walletLowMin : Wallet.t :=
  {| Wallet.name := "stale"; Wallet.address := "Watched";
     Wallet.minAmount := JNum (round (1 # 100));
     Wallet.maxAmount := JNull;
     Wallet.direction := JStr "both"; Wallet.active := JBool true |}.

Definition sigOf (s : string) : SigInfo.t := {| SigInfo.signature := s |}.

(** The signatures of the address "Watched", newest first. *)
Definition history : list SigInfo.t :=
  [sigOf "S3"; sigOf "S2"; sigOf "S1"; sigOf "C0"; sigOf "H1"; sigOf "H2"].

(** A transaction that moves [lamports] from "Sender" to "Watched". *)
Definition txReceive (signature : string) (lamports : Z) : Tx.t :=
  {| Tx.meta := Some {| Tx.preBalances := [9000000000; 0];
                        Tx.postBalances := [9000000000 - lamports - 5000;
                                            lamports] |};
     Tx.accountKeys := ["Sender"; "Watched"];
     Tx.signatures := [signature];
     Tx.blockTime := Some 1700000000 |}.

(** Every transaction carries 1 SOL; the fetch of S2 is rejected. *)
Definition chain : Connection :=
  {| validAddress := fun _ => true;
     getSignaturesForAddress := fun _ limit => Ok (take limit history);
     getParsedTransaction := fun s =>
       if String.eqb s "S2" then Throw "fetch failed"
       else Ok (Some (txReceive s 1000000000));
     sendMessage := fun _ _ _ => Ok tt |}.

(** The same chain behind a rate limit: the fetch of the window of recent
    signatures is rejected. *)
Definition chainRateLimited : Connection :=
  {| validAddress := fun _ => true;
     getSignaturesForAddress := fun _ limit =>
       if Nat.eqb limit 1 then Ok (take limit history)
       else Throw "429 Too Many Requests";
     getParsedTransaction := getParsedTransaction chain;
     sendMessage := fun _ _ _ => Ok tt |}.

Definition transferReceived (signature : string) : Transfer.t :=
  {| Transfer.signature := Some signature;
     Transfer.amount := of_Z 1000000000;
     Transfer.direction := "incoming";
     Transfer.timestamp := of_Z 1700000000000;
     Transfer.receiver_sender := Some "Sender" |}.

(** The age of a signature in a history: its distance from the end of
    the history. *)
Definition rankIn (history : list SigInfo.t) (s : string) : Z :=
  match findWalletIndex s 0 (map SigInfo.signature history) with
  | Some i => Z.of_nat (length history) - Z.of_nat i
  | None => 0
  end.

(** The concrete chain after one more transaction, S4, of the address. *)
Definition historyLater : list SigInfo.t := sigOf "S4" :: history.

Definition chainLater : Connection :=
  {| validAddress := fun _ => true;
     getSignaturesForAddress := fun _ limit => Ok (take limit historyLater);
     getParsedTransaction := getParsedTransaction chain;
     sendMessage := fun _ _ _ => Ok tt |}.

(** A chain with a second address, "Elsewhere", whose one signature is
    T1, and a wallet of another user on that address. *)
Definition chainTwoAddresses : Connection :=
  {| validAddress := fun _ => true;
     getSignaturesForAddress := fun address limit =>
       if String.eqb address "Elsewhere" then Ok (take limit [sigOf "T1"])
       else Ok (take limit history);
     getParsedTransaction := getParsedTransaction chain;
     sendMessage := fun _ _ _ => Ok tt |}.

Definition walletElsewhere : Wallet.t :=
  {| Wallet.name := "twin"; Wallet.address := "Elsewhere";
     Wallet.minAmount := JNull; Wallet.maxAmount := JNull;
     Wallet.direction := JStr "both"; Wallet.active := JBool true |}.

Definition watch (userId walletId : string) (wallet : Wallet.t)
    : ActiveWallet.t :=
  {| ActiveWallet.userId := userId; ActiveWallet.walletId := walletId;
     ActiveWallet.wallet := wallet |}.

(** 49 active wallets of one user, on an address without signatures. *)
Definition walletNumber (i : nat) : string * Wallet.t :=
  (String (Ascii.ascii_of_nat (48 + i)) "",
   {| Wallet.name := "w"; Wallet.address := "Quiet";
      Wallet.minAmount := JStr "0.1"; Wallet.maxAmount := JNull;
      Wallet.direction := JStr "both"; Wallet.active := JBool true |}).

Definition manyWallets : list (string * list (string * Wallet.t)) :=
  [("user", map walletNumber (seq 0 49))].

Definition quietChain : Connection :=
  {| validAddress := fun _ => true;
     getSignaturesForAddress := fun _ _ => Ok [];
     getParsedTransaction := fun _ => Ok None;
     sendMessage := fun _ _ _ => Ok tt |}.

(** The sleeps of one pass over the 49 wallets: 16 pauses between the 17
    batches. *)
Definition passSleep : Z :=
  sleepTime
    (checkTransactions parseConfigured env0 quietChain manyWallets ∅).2.

(** * Vocabulary of the further properties *)

(** ** Transactions that yield no event *)

(** The transaction behind [signature] is unavailable, has no [meta], does
    not list the wallet address, or changes the wallet's balance by less
    than 1000 lamports. *)
Inductive Irrelevant (connection : Connection) (walletAddress : string)
    (signature : string) : Prop :=
| IrrelevantUnavailable :
    getParsedTransaction connection signature = Ok None ->
    Irrelevant connection walletAddress signature
| IrrelevantNoMeta transaction :
    getParsedTransaction connection signature = Ok (Some transaction) ->
    Tx.meta transaction = None ->
    Irrelevant connection walletAddress signature
| IrrelevantUnknownAddress transaction meta :
    getParsedTransaction connection signature = Ok (Some transaction) ->
    Tx.meta transaction = Some meta ->
    (forall i, Tx.accountKeys transaction !! i <> Some walletAddress) ->
    Irrelevant connection walletAddress signature
| IrrelevantDust transaction meta w d :
    getParsedTransaction connection signature = Ok (Some transaction) ->
    Tx.meta transaction = Some meta ->
    Tx.accountKeys transaction !! w = Some walletAddress ->
    (forall j, (j < w)%nat ->
               Tx.accountKeys transaction !! j <> Some walletAddress) ->
    delta meta w = Some d ->
    Z.abs d < 1000 ->
    Irrelevant connection walletAddress signature.

(** ** The pauses of a pass *)

(** The pause between two batches (line 553). *)
Definition isPause (e : Event) : bool :=
  match e with
  | ESleep ms => ms =? 1000
  | _ => false
  end.

(** A trace without the pauses between batches. *)
Definition withoutPauses (tr : list Event) : list Event :=
  List.filter (fun e => negb (isPause e)) tr.

(** The number of pauses between batches in a trace. *)
Definition pauseCount (tr : list Event) : nat :=
  length (List.filter isPause tr).

(** ** The polls of a pass *)

(** The addresses whose latest signature a trace fetches (line 569). *)
Definition latestFetches (tr : list Event) : list string :=
  flat_map (fun e => match e with
                     | EGetSignatures address limit =>
                         if Nat.eqb limit 1 then [address] else []
                     | _ => []
                     end) tr.

(** The addresses of the watches of a list that [new PublicKey]
    accepts. *)
Definition validAddresses (connection : Connection)
    (l : list ActiveWallet.t) : list string :=
  List.filter (validAddress connection)
    (map (fun w => Wallet.address (ActiveWallet.wallet w)) l).

(** ** Further concrete wallets and chains *)

Definition walletIncomingOnly : Wallet.t :=
  {| Wallet.name := "main"; Wallet.address := "Watched";
     Wallet.minAmount := JNum (Finite (1 # 2));
     Wallet.maxAmount := JNum (Finite 2);
     Wallet.direction := JStr "incoming"; Wallet.active := JBool true |}.

Definition envUnset : Env :=
  {| POLL_INTERVAL := None; MAX_SIGNATURES_PER_CHECK := None;
     MINIMUM_SOL_THRESHOLD := None; DUST_THRESHOLD := None |}.

(** The wallet record created while the threshold is unset: its
    [minAmount] is undefined. *)
Definition walletCreatedUnset : Wallet.t :=
  {| Wallet.name := "new"; Wallet.address := "Watched";
     Wallet.minAmount := JUndefined; Wallet.maxAmount := JNull;
     Wallet.direction := JStr "both"; Wallet.active := JBool true |}.

Definition walletMinAboveMax : Wallet.t :=
  {| Wallet.name := "main"; Wallet.address := "Watched";
     Wallet.minAmount := JNum (Finite 5);
     Wallet.maxAmount := JNum (Finite 2);
     Wallet.direction := JStr "both"; Wallet.active := JBool true |}.

(** The concrete chain with every transaction fetch and every delivery
    rejected. *)
Definition chainDeaf : Connection :=
  {| validAddress := validAddress chain;
     getSignaturesForAddress := getSignaturesForAddress chain;
     getParsedTransaction := fun _ => Throw "timeout";
     sendMessage := fun _ _ _ => Throw "blocked by the user" |}.

(** A paused wallet, and a store with it between two active ones. *)
Definition walletPaused : Wallet.t :=
  {| Wallet.name := "paused"; Wallet.address := "Watched";
     Wallet.minAmount := JNull; Wallet.maxAmount := JNull;
     Wallet.direction := JStr "both"; Wallet.active := JBool false |}.

Definition storeOfThree : list (string * list (string * Wallet.t)) :=
  [("user", [("w1", walletHalfToTwo); ("w2", walletPaused)]);
   ("other", [("w3", walletIncomingOnly)])].

(** The store without the wallets whose [active] is falsy. *)
Definition activeOnly (wallets : list (string * list (string * Wallet.t)))
    : list (string * list (string * Wallet.t)) :=
  map (fun '(userId, userWallets) =>
         (userId,
          List.filter (fun '(_, wallet) => ToBoolean (Wallet.active wallet))
            userWallets))
    wallets.

(** ** The conversation *)

(** [s] contains the character [c]. *)
Fixpoint hasChar (c : Ascii.ascii) (s : string) : bool :=
  match s with
  | EmptyString => false
  | String ch rest => Ascii.eqb ch c || hasChar c rest
  end.

Section RouterVocabulary.

Variable bot : UI.Call -> result unit.

(** The wrapper of the callback router around the handler it chooses:
    the query is answered first; an exception is logged and reported to
    the chat. *)
Definition routed (q : UI.CallbackQuery) (handler : UI.U unit) : UI.U unit :=
  UI.try_catch
    (UI.bind (UI.await bot (UI.AnswerCallbackQuery (UI.queryId q)))
       (fun _ => handler))
    (fun error =>
       UI.bind (UI.console_error error)
         (fun _ => UI.call (UI.SendMessage (UI.queryChatId q) UI.TError []))).

End RouterVocabulary.

(** The world with another file or other sessions. *)
Definition withFile (w : UI.World) (f : UI.File) : UI.World :=
  {| UI.file := f; UI.writable := UI.writable w;
     UI.userSessions := UI.userSessions w |}.

Definition withSessions (w : UI.World) (s : gmap string UI.Session)
    : UI.World :=
  {| UI.file := UI.file w; UI.writable := UI.writable w;
     UI.userSessions := s |}.

(** What [loadWallets] reads in a world. *)
Definition storeOf (w : UI.World) : UI.Store :=
  match UI.file w with
  | UI.Json wallets => wallets
  | UI.Missing | UI.Unparsable => ∅
  end.

(** ** Runs of the handlers *)

(** A wallet object as [JSON.stringify] writes it. *)
Definition asWritten (wallet : UI.WalletObject) : UI.WalletObject :=
  omap UI.toJSON wallet.

(** The world after a run, its result and its calls. *)
Definition worldAfter {A} (run : result A * UI.World * list UI.Call)
    : UI.World := snd (fst run).
Definition resultOf {A} (run : result A * UI.World * list UI.Call)
    : result A := fst (fst run).
Definition callsOf {A} (run : result A * UI.World * list UI.Call)
    : list UI.Call := snd run.

(** The two replies that the handlers hold but cannot reach. *)
Definition deadReply (c : UI.Call) : bool :=
  match c with
  | UI.SendMessage _ UI.TWalletNotFound _ => true
  | UI.SendMessage _ (UI.TDirectionSet _) _ => true
  | _ => false
  end.

(** No call of [m] is one of the two replies. *)
Definition silent {A} (m : UI.U A) : Prop :=
  forall w, Forall (fun c => deadReply c = false) (callsOf (m w)).

(** A text that the message handler does not skip. *)
Definition accepted (raw : string) : bool :=
  negb (String.eqb raw "" || UI.startsWith "/" raw).

(** ** A concrete conversation *)

(** A bot API that accepts every call. *)
Definition botAccepting : UI.Call -> result unit := fun _ => Ok tt.

(** The entries of an object in the order of their keys. *)
Definition entriesByKey (userWallets : UI.UserWallets)
    : list (string * UI.WalletObject) :=
  map_to_list userWallets.

(** A [parseFloat] that knows two texts. *)
Definition parseAmount (s : string) : jsnum :=
  if String.eqb s "1.5" then Finite (3 # 2)
  else if String.eqb s "Infinity" then Infinity false
  else NaN.

Definition walletStored : UI.WalletObject :=
  UI.newWallet env0 (Some "main") "Watched" "2026-01-01T00:00:00.000Z".

(** User 7 tracks one wallet and has no conversation open. *)
Definition worldOne : UI.World :=
  {| UI.file := UI.Json {["7" := {["1700000000000" := walletStored]}]};
     UI.writable := true;
     UI.userSessions := ∅ |}.

(** The same with a file that cannot be written, while user 7 is asked
    for an address. *)
Definition worldReadOnly : UI.World :=
  {| UI.file := UI.file worldOne;
     UI.writable := false;
     UI.userSessions :=
       {["7" := {| UI.state := "awaiting_wallet_address";
                   UI.walletName := Some "second";
                   UI.walletId := None |}]} |}.

(** User 7 is asked for an amount for the stored wallet. *)
Definition worldAsked (state : string) : UI.World :=
  {| UI.file := UI.file worldOne;
     UI.writable := true;
     UI.userSessions :=
       {["7" := {| UI.state := state; UI.walletName := None;
                   UI.walletId := Some "1700000000000" |}]} |}.

(** User 7 presses a button, or sends a text. *)
Definition pressed (data : string) : UI.CallbackQuery :=
  {| UI.queryId := "q1"; UI.data := data; UI.queryChatId := "7";
     UI.queryMessageId := "40"; UI.queryFromId := "7" |}.

Definition said (text : string) : UI.Message :=
  {| UI.text := Some text; UI.chatId := "7"; UI.fromId := "7";
     UI.now := "1700000000001"; UI.nowISO := "2026-01-02T00:00:00.000Z" |}.

(** * Properties *)

(** ** Numbers *)

Section Rounding.

Local Open Scope Q_scope.

Lemma pow2_pos (e : Z) : 0 < 2 ^ e.
Proof. apply Qpower_0_lt. reflexivity. Qed.

Lemma pow2_nonzero (e : Z) : ~ 2 ^ e == 0.
Proof. intros H. pose proof (pow2_pos e) as Hp. rewrite H in Hp. discriminate. Qed.

Lemma pow2_Z (a : Z) : (0 <= a)%Z -> 2 ^ a == inject_Z (2 ^ a).
Proof. intros H. rewrite Zpower_Qpower by exact H. reflexivity. Qed.

Lemma pow2_add (a b : Z) : 2 ^ (a + b) == 2 ^ a * 2 ^ b.
Proof. apply Qpower_plus. discriminate. Qed.

Lemma pow2_sub (a b : Z) : 2 ^ (a - b) == 2 ^ a / 2 ^ b.
Proof. apply Qpower_minus. discriminate. Qed.

Lemma pow2_le (a b : Z) : (a <= b)%Z -> 2 ^ a <= 2 ^ b.
Proof.
  intros H. apply Qpower_le_compat_l; [exact H|discriminate].
Qed.

Lemma pow2_lt (a b : Z) : (a < b)%Z -> 2 ^ a < 2 ^ b.
Proof.
  intros H. apply Qpower_lt_compat_l; [exact H|reflexivity].
Qed.

Lemma pow2_lt_inv (a b : Z) : 2 ^ a < 2 ^ b -> (a < b)%Z.
Proof.
  intros H. destruct (Z_lt_le_dec a b) as [Hlt|Hle]; [exact Hlt|].
  apply pow2_le in Hle. apply Qle_not_lt in Hle. contradiction.
Qed.

Lemma ilog2_spec (q : Q) :
  0 < q -> 2 ^ ilog2 q <= q /\ q < 2 ^ (ilog2 q + 1).
Proof.
  intros Hq. unfold ilog2.
  set (a := Z.log2 (Qnum q)). set (b := Z.log2 (Zpos (Qden q))).
  assert (Hn : (0 < Qnum q)%Z).
  { destruct q as [n d]. unfold Qlt in Hq. simpl in *. lia. }
  pose proof (Z.log2_spec (Qnum q) Hn) as Ha. fold a in Ha.
  pose proof (Z.log2_spec (Zpos (Qden q)) eq_refl) as Hb. fold b in Hb.
  pose proof (Z.log2_nonneg (Qnum q)) as Ha0. fold a in Ha0.
  pose proof (Z.log2_nonneg (Zpos (Qden q))) as Hb0. fold b in Hb0.
  assert (Hqd : q == inject_Z (Qnum q) / inject_Z (Zpos (Qden q))).
  { destruct q as [n d]. simpl. apply Qmake_Qdiv. }
  assert (Hd : 0 < inject_Z (Zpos (Qden q))) by reflexivity.
  assert (Hlow : 2 ^ (a - b - 1) < q).
  { replace (a - b - 1)%Z with (a - (b + 1))%Z by lia.
    rewrite pow2_sub, (pow2_Z a), (pow2_Z (b + 1)), Hqd by lia.
    apply Qlt_shift_div_l; [exact Hd|].
    unfold Qdiv. rewrite <- Qmult_assoc, (Qmult_comm (/ _)), Qmult_assoc.
    apply Qlt_shift_div_r.
    - change 0 with (inject_Z 0). rewrite <- Zlt_Qlt.
      apply Z.pow_pos_nonneg; lia.
    - rewrite <- !inject_Z_mult, <- Zlt_Qlt.
      replace (Z.succ b) with (b + 1)%Z in Hb by lia. nia. }
  assert (Hhigh : q < 2 ^ (a - b + 1)).
  { replace (a - b + 1)%Z with (a + 1 - b)%Z by lia.
    rewrite pow2_sub, (pow2_Z (a + 1)), (pow2_Z b), Hqd by lia.
    apply Qlt_shift_div_r; [exact Hd|].
    unfold Qdiv. rewrite <- Qmult_assoc, (Qmult_comm (/ _)), Qmult_assoc.
    apply Qlt_shift_div_l.
    - change 0 with (inject_Z 0). rewrite <- Zlt_Qlt.
      apply Z.pow_pos_nonneg; lia.
    - rewrite <- !inject_Z_mult, <- Zlt_Qlt.
      replace (Z.succ a) with (a + 1)%Z in Ha by lia. nia. }
  destruct (Qle_bool (2 ^ (a - b)) q) eqn:Htest.
  - split; [apply Qle_bool_iff; exact Htest|exact Hhigh].
  - split; [apply Qlt_le_weak; exact Hlow|].
    replace (a - b - 1 + 1)%Z with (a - b)%Z by lia.
    apply Qnot_le_lt. intros H. apply Qle_bool_iff in H. congruence.
Qed.

Lemma nearestEven_spec (x : Q) :
  Qabs (inject_Z (nearestEven x) - x) <= 1 # 2 /\
  (Qfloor x <= nearestEven x <= Qfloor x + 1)%Z.
Proof.
  unfold nearestEven. pose proof (Qfloor_le x) as Hlo.
  pose proof (Qlt_floor x) as Hhi. rewrite inject_Z_plus in Hhi.
  change (inject_Z 1) with 1 in Hhi.
  assert (Hup : Qabs (inject_Z (Qfloor x + 1) - x) <= 1 # 2 ->
                Qabs (inject_Z (Qfloor x + 1) - x) <= 1 # 2 /\
                (Qfloor x <= Qfloor x + 1 <= Qfloor x + 1)%Z)
    by (intros H; split; [exact H|lia]).
  assert (Hdown : Qabs (inject_Z (Qfloor x) - x) <= 1 # 2 ->
                  Qabs (inject_Z (Qfloor x) - x) <= 1 # 2 /\
                  (Qfloor x <= Qfloor x <= Qfloor x + 1)%Z)
    by (intros H; split; [exact H|lia]).
  destruct (Qcompare_spec (x - inject_Z (Qfloor x)) (1 # 2)) as [H|H|H].
  - destruct (Z.even (Qfloor x)).
    + apply Hdown. apply Qabs_Qle_condition. split; lra.
    + apply Hup. apply Qabs_Qle_condition. rewrite inject_Z_plus.
      change (inject_Z 1) with 1. split; lra.
  - apply Hdown. apply Qabs_Qle_condition. split; lra.
  - apply Hup. apply Qabs_Qle_condition. rewrite inject_Z_plus.
    change (inject_Z 1) with 1. split; lra.
Qed.

Lemma nearestEven_Z (z : Z) : nearestEven (inject_Z z) = z.
Proof.
  unfold nearestEven. rewrite Qfloor_Z.
  destruct (Qcompare_spec (inject_Z z - inject_Z z) (1 # 2)) as [H|H|H];
    [exfalso; lra|reflexivity|exfalso; lra].
Qed.

Lemma nearestEven_comp (x y : Q) : x == y -> nearestEven x = nearestEven y.
Proof.
  intros H. unfold nearestEven. rewrite (Qfloor_comp x y H).
  assert (Hc : (x - inject_Z (Qfloor y) ?= 1 # 2)
               = (y - inject_Z (Qfloor y) ?= 1 # 2))
    by (apply Qcompare_comp; [rewrite H|]; reflexivity).
  rewrite Hc. reflexivity.
Qed.

Lemma magnitude_error (q : Q) :
  Qabs (magnitude q - Qabs q) <= 2 ^ grid q * (1 # 2).
Proof.
  unfold magnitude. set (e := grid q).
  pose proof (pow2_pos e) as He.
  destruct (nearestEven_spec (Qabs q / 2 ^ e)) as (Herr & _).
  set (m := inject_Z (nearestEven (Qabs q / 2 ^ e))) in *.
  assert (Hfactor : m * 2 ^ e - Qabs q == (m - Qabs q / 2 ^ e) * 2 ^ e)
    by (field; apply pow2_nonzero).
  rewrite Hfactor, Qabs_Qmult, (Qabs_pos (2 ^ e)) by lra.
  rewrite (Qmult_comm (2 ^ e)). apply Qmult_le_compat_r; lra.
Qed.

Lemma magnitude_nonneg (q : Q) : 0 <= magnitude q.
Proof.
  unfold magnitude. set (e := grid q). pose proof (pow2_pos e) as He.
  apply Qmult_le_0_compat; [|lra].
  destruct (nearestEven_spec (Qabs q / 2 ^ e)) as (_ & Hfl & _).
  change 0 with (inject_Z 0). rewrite <- Zle_Qle.
  assert (0 <= Qfloor (Qabs q / 2 ^ e))%Z; [|lia].
  change 0%Z with (Qfloor 0). apply Qfloor_resp_le.
  apply Qle_shift_div_l; [exact He|]. rewrite Qmult_0_l. apply Qabs_nonneg.
Qed.

Lemma ilog2_le (q : Q) (k : Z) : 0 < q -> q < 2 ^ (k + 1) -> (ilog2 q <= k)%Z.
Proof.
  intros Hq Hlt. destruct (ilog2_spec q Hq) as (Hlo & _).
  assert (H : 2 ^ ilog2 q < 2 ^ (k + 1)) by lra.
  apply pow2_lt_inv in H. lia.
Qed.

Lemma ilog2_ge (q : Q) (k : Z) : 0 < q -> 2 ^ k <= q -> (k <= ilog2 q)%Z.
Proof.
  intros Hq Hle. destruct (ilog2_spec q Hq) as (_ & Hhi).
  assert (H : 2 ^ k < 2 ^ (ilog2 q + 1)) by lra.
  apply pow2_lt_inv in H. lia.
Qed.

Lemma Qabs_pos_iff (q : Q) : ~ q == 0 -> 0 < Qabs q.
Proof.
  intros H. pose proof (Qabs_nonneg q) as Hn.
  destruct (Qlt_le_dec 0 (Qabs q)) as [Hlt|Hle]; [exact Hlt|].
  exfalso. apply H. apply Qabs_Qle_condition in Hle. lra.
Qed.

(** The sign of [q] put on a magnitude. *)
Lemma signed_error (q r : Q) :
  0 <= r ->
  Qabs ((if Qle_bool 0 q then r else - r) - q) == Qabs (r - Qabs q).
Proof.
  intros Hr. destruct (Qle_bool 0 q) eqn:Hs.
  - apply Qle_bool_iff in Hs. rewrite (Qabs_pos q Hs). reflexivity.
  - assert (Hneg : q < 0).
    { apply Qnot_le_lt. intros H. apply Qle_bool_iff in H. congruence. }
    rewrite (Qabs_neg q) by lra.
    assert (He : - r - q == - (r - - q)) by ring.
    rewrite He, Qabs_opp. reflexivity.
Qed.

(** Below [2^(k+1)], with [k] in the normal range, the double nearest to
    [q] is finite and within half a step of the grid [2^(k-52)]. *)
Lemma round_near (q : Q) (k : Z) :
  (-1022 <= k < 1023)%Z -> Qabs q < 2 ^ (k + 1) ->
  exists r, round q = Finite r /\ Qabs (r - q) <= 2 ^ (k - 53).
Proof.
  intros Hk Hq. unfold round.
  destruct (Qeq_bool q 0) eqn:Hz.
  - apply Qeq_bool_iff in Hz. exists 0. split; [reflexivity|].
    rewrite Hz. change (Qabs (0 - 0)) with 0.
    apply Qlt_le_weak, pow2_pos.
  - assert (Hnz : ~ q == 0).
    { intros H. apply Qeq_bool_iff in H. congruence. }
    pose proof (Qabs_pos_iff q Hnz) as Hpos.
    pose proof (ilog2_le (Qabs q) k Hpos Hq) as Hlog.
    assert (Hgrid : (grid q <= k - 52)%Z) by (unfold grid; lia).
    pose proof (magnitude_error q) as Herr.
    pose proof (magnitude_nonneg q) as Hnn.
    assert (Hstep : 2 ^ grid q * (1 # 2) <= 2 ^ (k - 53)).
    { replace (k - 53)%Z with (k - 52 + -1)%Z by lia.
      rewrite (pow2_add (k - 52) (-1)). change (2 ^ (-1)) with (1 # 2).
      apply Qmult_le_compat_r; [apply pow2_le; exact Hgrid|discriminate]. }
    assert (Hsmall : magnitude q < 2 ^ 1024).
    { apply Qabs_Qle_condition in Herr.
      assert (H1 : 2 ^ (k - 53) < 2 ^ (k + 1)) by (apply pow2_lt; lia).
      assert (H2 : 2 ^ (k + 1) + 2 ^ (k + 1) == 2 ^ (k + 2)).
      { replace (k + 2)%Z with (k + 1 + 1)%Z by lia.
        rewrite (pow2_add (k + 1) 1).
        change (2 ^ 1) with 2. ring. }
      assert (H3 : 2 ^ (k + 2) <= 2 ^ 1024) by (apply pow2_le; lia).
      lra. }
    assert (Hno : Qle_bool (2 ^ 1024) (magnitude q) = false).
    { apply not_true_iff_false. intros H. apply Qle_bool_iff in H. lra. }
    rewrite Hno. eexists. split; [reflexivity|].
    rewrite Qred_correct, (signed_error q _ Hnn). lra.
Qed.

Lemma Qred_inject_Z (z : Z) : Qred (inject_Z z) = inject_Z z.
Proof.
  unfold Qred, inject_Z.
  pose proof (Z.ggcd_gcd z 1) as Hg.
  pose proof (Z.ggcd_correct_divisors z 1) as Hd.
  destruct (Z.ggcd z 1) as [g [aa bb]]. simpl in Hg, Hd.
  rewrite Z.gcd_1_r in Hg. subst g. destruct Hd as (Ha & Hb).
  rewrite Z.mul_1_l in Ha, Hb. subst. reflexivity.
Qed.

Lemma Qabs_inject_Z (z : Z) : Qabs (inject_Z z) = inject_Z (Z.abs z).
Proof. reflexivity. Qed.

Lemma magnitude_integer (z : Z) :
  (Z.abs z <= 2 ^ 53)%Z -> magnitude (inject_Z z) == inject_Z (Z.abs z).
Proof.
  intros Hz. destruct (Z.eq_dec z 0%Z) as [->|Hnz]; [reflexivity|].
  unfold magnitude, grid. rewrite Qabs_inject_Z.
  set (a := inject_Z (Z.abs z)).
  assert (Hone : 1 <= a).
  { change 1 with (inject_Z 1). unfold a. rewrite <- Zle_Qle. lia. }
  assert (Hmax : a <= 2 ^ 53).
  { rewrite (pow2_Z 53) by lia. unfold a. rewrite <- Zle_Qle. exact Hz. }
  assert (Hpos : 0 < a) by lra.
  assert (Hlo : (0 <= ilog2 a)%Z) by (apply ilog2_ge; [exact Hpos|exact Hone]).
  assert (Hhi : (ilog2 a <= 53)%Z).
  { apply ilog2_le; [exact Hpos|].
    assert (2 ^ 53 < 2 ^ (53 + 1)) by (apply pow2_lt; lia). lra. }
  destruct (ilog2_spec a Hpos) as (Hlow & _).
  remember (ilog2 a) as L eqn:HL. clear HL.
  replace (Z.max (L - 52) (-1074)) with (L - 52)%Z by lia.
  assert (Hint : exists N, a / 2 ^ (L - 52) == inject_Z N).
  { destruct (Z_le_gt_dec L 52) as [Hle|Hgt].
    - exists (Z.abs z * 2 ^ (52 - L))%Z.
      rewrite inject_Z_mult, <- (pow2_Z (52 - L)) by lia.
      fold a. replace (52 - L)%Z with (- (L - 52))%Z by lia.
      rewrite Qpower_opp. reflexivity.
    - assert (L = 53%Z) by lia. subst L. exists (2 ^ 52)%Z.
      assert (Ha : a == 2 ^ 53) by lra.
      rewrite Ha. reflexivity. }
  destruct Hint as (N & HN).
  rewrite (nearestEven_comp _ _ HN), nearestEven_Z, <- HN.
  field. apply pow2_nonzero.
Qed.

(** An integer of magnitude at most [2^53] is a double. *)
Lemma round_integer (z : Z) :
  (Z.abs z <= 2 ^ 53)%Z -> round (inject_Z z) = Finite (inject_Z z).
Proof.
  intros Hz. unfold round.
  destruct (Qeq_bool (inject_Z z) 0) eqn:Hzero.
  - apply Qeq_bool_iff in Hzero. unfold Qeq in Hzero. simpl in Hzero.
    assert (z = 0%Z) by lia. subst. reflexivity.
  - pose proof (magnitude_integer z Hz) as Hmag.
    assert (Hno : Qle_bool (2 ^ 1024) (magnitude (inject_Z z)) = false).
    { apply not_true_iff_false. intros H. apply Qle_bool_iff in H.
      rewrite Hmag in H.
      assert (H53 : inject_Z (Z.abs z) <= 2 ^ 53)
        by (rewrite (pow2_Z 53) by lia; rewrite <- Zle_Qle; exact Hz).
      assert (2 ^ 53 < 2 ^ 1024) by (apply pow2_lt; lia). lra. }
    rewrite Hno. f_equal. etransitivity; [|apply Qred_inject_Z].
    apply Qred_complete.
    destruct (Qle_bool 0 (inject_Z z)) eqn:Hs; rewrite Hmag.
    + apply Qle_bool_iff in Hs. change 0 with (inject_Z 0) in Hs.
      rewrite <- Zle_Qle in Hs. rewrite Z.abs_eq by exact Hs. reflexivity.
    + assert (Hneg : (z < 0)%Z).
      { apply Z.lt_nge. intros H. rewrite Zle_Qle in H.
        apply Qle_bool_iff in H. change (inject_Z 0) with 0 in H.
        congruence. }
      rewrite Z.abs_neq by lia. rewrite inject_Z_opp. ring.
Qed.

(** From [2^k] on, in the normal range, so is the nearest double. *)
Lemma magnitude_lower (q : Q) (k : Z) :
  (-1022 <= k)%Z -> 2 ^ k <= Qabs q -> 2 ^ k <= magnitude q.
Proof.
  intros Hk Hq. pose proof (pow2_pos k) as Hpk.
  assert (Hpos : 0 < Qabs q) by lra.
  pose proof (ilog2_ge (Qabs q) k Hpos Hq) as HL.
  destruct (ilog2_spec (Qabs q) Hpos) as (Hlow & _).
  unfold magnitude, grid. set (L := ilog2 (Qabs q)) in *.
  replace (Z.max (L - 52) (-1074)) with (L - 52)%Z by lia.
  pose proof (pow2_pos (L - 52)) as He.
  destruct (nearestEven_spec (Qabs q / 2 ^ (L - 52))) as (_ & Hfl & _).
  assert (Hx : inject_Z (2 ^ 52) <= Qabs q / 2 ^ (L - 52)).
  { rewrite <- (pow2_Z 52) by lia. apply Qle_shift_div_l; [exact He|].
    rewrite <- pow2_add. replace (52 + (L - 52))%Z with L by lia.
    exact Hlow. }
  apply Qfloor_resp_le in Hx. rewrite Qfloor_Z in Hx.
  assert (Hm : inject_Z (2 ^ 52)
               <= inject_Z (nearestEven (Qabs q / 2 ^ (L - 52))))
    by (rewrite <- Zle_Qle; lia).
  rewrite <- (pow2_Z 52) in Hm by lia.
  apply Qle_trans with (2 ^ L); [apply pow2_le; exact HL|].
  replace L with (52 + (L - 52))%Z at 1 by lia. rewrite pow2_add.
  apply Qmult_le_compat_r; lra.
Qed.

Lemma ilog2_comp (p q : Q) : 0 < p -> p == q -> ilog2 p = ilog2 q.
Proof.
  intros Hp Heq. assert (Hq : 0 < q) by lra.
  destruct (ilog2_spec p Hp) as (Hlo & Hhi).
  destruct (ilog2_spec q Hq) as (Hlo' & Hhi').
  assert (H1 : 2 ^ ilog2 p < 2 ^ (ilog2 q + 1)) by lra.
  assert (H2 : 2 ^ ilog2 q < 2 ^ (ilog2 p + 1)) by lra.
  apply pow2_lt_inv in H1, H2. lia.
Qed.

Lemma grid_comp (p q : Q) : ~ p == 0 -> p == q -> grid p = grid q.
Proof.
  intros Hp Heq. unfold grid.
  rewrite (ilog2_comp (Qabs p) (Qabs q)); [reflexivity| |].
  - apply Qabs_pos_iff. exact Hp.
  - rewrite Heq. reflexivity.
Qed.

Lemma magnitude_comp (p q : Q) :
  ~ p == 0 -> p == q -> magnitude p == magnitude q.
Proof.
  intros Hp Heq. unfold magnitude. rewrite (grid_comp p q Hp Heq).
  assert (Hx : Qabs p / 2 ^ grid q == Qabs q / 2 ^ grid q)
    by (rewrite Heq; reflexivity).
  rewrite (nearestEven_comp _ _ Hx). reflexivity.
Qed.

Lemma Qle_bool_comp (a b c d : Q) :
  a == c -> b == d -> Qle_bool a b = Qle_bool c d.
Proof.
  intros Hac Hbd. apply eq_true_iff_eq.
  rewrite !Qle_bool_iff, Hac, Hbd. reflexivity.
Qed.

(** The nearest double depends on the number, not on the fraction that
    gives it. *)
Lemma round_comp (p q : Q) : p == q -> round p = round q.
Proof.
  intros Heq. unfold round.
  assert (Hz : Qeq_bool p 0 = Qeq_bool q 0).
  { apply eq_true_iff_eq. rewrite !Qeq_bool_iff, Heq. reflexivity. }
  rewrite <- Hz. destruct (Qeq_bool p 0) eqn:Hp; [reflexivity|].
  assert (Hnz : ~ p == 0).
  { intros H. apply Qeq_bool_iff in H. congruence. }
  pose proof (magnitude_comp p q Hnz Heq) as Hm.
  rewrite (Qle_bool_comp (2 ^ 1024) (magnitude p) (2 ^ 1024) (magnitude q))
    by (reflexivity || exact Hm).
  rewrite (Qle_bool_comp 0 p 0 q) by (reflexivity || exact Heq).
  destruct (Qle_bool (2 ^ 1024) (magnitude q)); [reflexivity|].
  f_equal. apply Qred_complete.
  destruct (Qle_bool 0 q); rewrite Hm; reflexivity.
Qed.

Lemma Qltb_lt (x y : Q) : Qltb x y = true <-> x < y.
Proof.
  unfold Qltb. rewrite negb_true_iff. split.
  - intros H. apply Qnot_le_lt. intros Hle. apply Qle_bool_iff in Hle.
    congruence.
  - intros H. apply not_true_iff_false. intros Hle.
    apply Qle_bool_iff in Hle. lra.
Qed.

Lemma Qltb_ge (x y : Q) : Qltb x y = false <-> y <= x.
Proof.
  unfold Qltb. rewrite negb_false_iff. apply Qle_bool_iff.
Qed.

(** The difference of two integers as the program computes it. *)
Lemma num_sub_of_Z (y x : Z) :
  num_sub (of_Z y) (of_Z x) = round (inject_Z (y - x)).
Proof.
  cbn [num_sub of_Z]. apply round_comp.
  unfold Z.sub. rewrite inject_Z_plus, inject_Z_opp. reflexivity.
Qed.

Lemma num_add_of_Z (y x : Z) :
  num_add (of_Z y) (of_Z x) = round (inject_Z (y + x)).
Proof.
  cbn [num_add of_Z]. apply round_comp.
  rewrite inject_Z_plus. reflexivity.
Qed.

(** The nearest double of a number of magnitude [2^k] or more, if finite,
    has magnitude [2^k] or more. *)
Lemma round_lower (q : Q) (k : Z) :
  (-1022 <= k)%Z -> 2 ^ k <= Qabs q ->
  match round q with
  | NaN => False
  | Infinity _ => True
  | Finite r => 2 ^ k <= Qabs r
  end.
Proof.
  intros Hk Hq. pose proof (pow2_pos k) as Hpk.
  pose proof (magnitude_lower q k Hk Hq) as Hm.
  unfold round. destruct (Qeq_bool q 0) eqn:Hz.
  - apply Qeq_bool_iff in Hz. rewrite Hz in Hq.
    change (Qabs 0) with 0 in Hq. lra.
  - destruct (Qle_bool (2 ^ 1024) (magnitude q)); [exact I|].
    rewrite Qred_correct.
    destruct (Qle_bool 0 q).
    + rewrite Qabs_pos; lra.
    + rewrite Qabs_opp, Qabs_pos; lra.
Qed.

(** The nearest double of a number of magnitude [2^k] or more, in the
    normal range, has the sign of the number. *)
Lemma round_sign (q : Q) (k : Z) :
  (-1022 <= k)%Z -> 2 ^ k <= Qabs q ->
  num_gt (round q) (Finite 0) = Qltb 0 q /\
  num_lt (round q) (Finite 0) = Qltb q 0.
Proof.
  intros Hk Hq. pose proof (pow2_pos k) as Hpk.
  pose proof (magnitude_lower q k Hk Hq) as Hm.
  assert (Hnz : ~ q == 0).
  { intros H. rewrite H in Hq. change (Qabs 0) with 0 in Hq. lra. }
  unfold round.
  destruct (Qeq_bool q 0) eqn:Hz;
    [apply Qeq_bool_iff in Hz; contradiction|].
  destruct (Qle_bool 0 q) eqn:Hs.
  - apply Qle_bool_iff in Hs.
    assert (Hpos : 0 < q).
    { destruct (Qlt_le_dec 0 q) as [H|H]; [exact H|].
      exfalso. apply Hnz. lra. }
    assert (H1 : Qltb 0 q = true) by (apply Qltb_lt; exact Hpos).
    assert (H2 : Qltb q 0 = false) by (apply Qltb_ge; lra).
    rewrite H1, H2.
    destruct (Qle_bool (2 ^ 1024) (magnitude q)); cbn [negb num_gt num_lt].
    + split; reflexivity.
    + split; [apply Qltb_lt|apply Qltb_ge]; rewrite Qred_correct; lra.
  - assert (Hneg : q < 0).
    { apply Qnot_le_lt. intros H. apply Qle_bool_iff in H. congruence. }
    assert (H1 : Qltb 0 q = false) by (apply Qltb_ge; lra).
    assert (H2 : Qltb q 0 = true) by (apply Qltb_lt; exact Hneg).
    rewrite H1, H2.
    destruct (Qle_bool (2 ^ 1024) (magnitude q)); cbn [negb num_gt num_lt].
    + split; reflexivity.
    + split; [apply Qltb_ge|apply Qltb_lt]; rewrite Qred_correct; lra.
Qed.

Lemma round_sign_Z (d : Z) :
  num_gt (round (inject_Z d)) (Finite 0) = (0 <? d)%Z /\
  num_lt (round (inject_Z d)) (Finite 0) = (d <? 0)%Z.
Proof.
  destruct (Z.eq_dec d 0%Z) as [->|Hnz]; [split; reflexivity|].
  assert (Hq : 2 ^ 0 <= Qabs (inject_Z d)).
  { rewrite Qabs_inject_Z. change (2 ^ 0) with (inject_Z 1).
    rewrite <- Zle_Qle. lia. }
  destruct (round_sign (inject_Z d) 0 ltac:(lia) Hq) as (-> & ->).
  split; apply eq_true_iff_eq; rewrite Qltb_lt, Z.ltb_lt;
    change 0 with (inject_Z 0); rewrite <- Zlt_Qlt; reflexivity.
Qed.

(** The dust test on the difference of two integers decides whether the
    difference is below 1000 in magnitude. *)
Lemma dust_of_Z (y x : Z) :
  num_lt (num_abs (num_sub (of_Z y) (of_Z x))) (Finite 1000)
  = (Z.abs (y - x) <? 1000)%Z.
Proof.
  rewrite num_sub_of_Z.
  destruct (Z_le_gt_dec (Z.abs (y - x)) (2 ^ 53)) as [Hle|Hgt].
  - rewrite (round_integer _ Hle). cbn [num_abs num_lt].
    rewrite Qabs_inject_Z. apply eq_true_iff_eq.
    rewrite Qltb_lt, Z.ltb_lt. change 1000 with (inject_Z 1000).
    rewrite <- Zlt_Qlt. reflexivity.
  - assert (Hbig : 2 ^ 53 <= Qabs (inject_Z (y - x))).
    { rewrite Qabs_inject_Z, (pow2_Z 53) by lia. rewrite <- Zle_Qle. lia. }
    pose proof (round_lower _ 53 ltac:(lia) Hbig) as Hr.
    assert (Hf : (Z.abs (y - x) <? 1000)%Z = false).
    { apply Z.ltb_ge. assert (1000 < 2 ^ 53)%Z by reflexivity. lia. }
    rewrite Hf.
    destruct (round (inject_Z (y - x))) as [|s|r]; [destruct Hr| |].
    + reflexivity.
    + cbn [num_abs num_lt]. apply Qltb_ge.
      assert (H : (1000 : Q) <= 2 ^ 53).
      { rewrite (pow2_Z 53) by lia. change 1000 with (inject_Z 1000).
        rewrite <- Zle_Qle. discriminate. }
      lra.
Qed.

(** Below [2^23] SOL, amounts that differ by a lamport differ in SOL as
    the program computes them. *)
Lemma div_1e9_separates (L : Z) :
  (0 <= L)%Z -> (L + 1 < 2 ^ 23 * 1000000000)%Z ->
  exists a b, div_1e9 (of_Z L) = Finite a /\
              div_1e9 (of_Z (L + 1)) = Finite b /\ a < b.
Proof.
  intros H0 Hmax. cbn [div_1e9 of_Z].
  set (e := inject_Z 1000000000).
  assert (He : 0 < e) by reflexivity.
  assert (Hbound : forall z, (0 <= z)%Z -> (z < 2 ^ 23 * 1000000000)%Z ->
                             Qabs (inject_Z z / e) < 2 ^ (22 + 1)).
  { intros z Hz Hlt. rewrite Qabs_pos.
    - apply Qlt_shift_div_r; [exact He|].
      change (2 ^ (22 + 1) * e) with (inject_Z (2 ^ 23 * 1000000000)).
      rewrite <- Zlt_Qlt. exact Hlt.
    - apply Qle_shift_div_l; [exact He|]. rewrite Qmult_0_l.
      change 0 with (inject_Z 0). rewrite <- Zle_Qle. exact Hz. }
  destruct (round_near (inject_Z L / e) 22 ltac:(lia)
              (Hbound L H0 ltac:(lia))) as (a & Ha & Hea).
  destruct (round_near (inject_Z (L + 1) / e) 22 ltac:(lia)
              (Hbound (L + 1)%Z ltac:(lia) Hmax)) as (b & Hb & Heb).
  exists a, b. split; [exact Ha|]. split; [exact Hb|].
  apply Qabs_Qle_condition in Hea, Heb.
  assert (Hstep : inject_Z (L + 1) / e == inject_Z L / e + 1 / e).
  { rewrite inject_Z_plus. field. discriminate. }
  assert (Hgap : 2 ^ (22 - 53) + 2 ^ (22 - 53) < 1 / e) by reflexivity.
  lra.
Qed.

End Rounding.

(** The operations agree with the binary64 division, subtraction and
    addition of the Standard Library on the amounts and the balances of
    the examples below. *)
Example div_1e9_agrees_with_binary64 :
  Forall (fun lamports =>
            div_1e9 (of_Z lamports)
            = of_binary64
                (SpecFloat.SFdiv 53 1024 (binary64 lamports)
                   (binary64 1000000000)))
    [8615591833155717; 8615591833155718; 50000000; 500000000; 2000000001;
     1; 999; 2 ^ 60].
Proof. repeat (constructor; [vm_compute; reflexivity|]). constructor. Qed.

Example num_sub_agrees_with_binary64 :
  Forall (fun '(post, pre) =>
            num_sub (of_Z post) (of_Z pre)
            = of_binary64
                (SpecFloat.SFsub 53 1024 (binary64 post) (binary64 pre)))
    [(1, 2 ^ 53 + 2); (2 ^ 53 + 1000000, 0); (7000000, 5000000);
     (2 ^ 60, 2 ^ 53 + 2); (0, 2 ^ 62 + 2 ^ 10)].
Proof. repeat (constructor; [vm_compute; reflexivity|]). constructor. Qed.

Example num_add_agrees_with_binary64 :
  num_add (of_Z (2 ^ 53 + 1000000)) (of_Z (- 2 ^ 53))
  = of_binary64
      (SpecFloat.SFadd 53 1024 (binary64 (2 ^ 53 + 1000000))
         (binary64 (- 2 ^ 53))) /\
  num_add (of_Z (2 ^ 53)) (of_Z 1)
  = of_binary64 (SpecFloat.SFadd 53 1024 (binary64 (2 ^ 53)) (binary64 1)) /\
  num_add (of_Z (2 ^ 53 + 2)) (of_Z 1)
  = of_binary64
      (SpecFloat.SFadd 53 1024 (binary64 (2 ^ 53 + 2)) (binary64 1)).
Proof. repeat split; vm_compute; reflexivity. Qed.

(** ** The analyzer *)

Lemma first_other_ext keys w P P' r :
  (forall i, P i = P' i) -> first_other keys w P r -> first_other keys w P' r.
Proof.
  intros HP. destruct r as [k|]; simpl.
  - intros (i & Hk & Hw & Hi & Hlt). exists i. repeat split; auto.
    + rewrite <- HP. exact Hi.
    + intros j Hj Hjw. rewrite <- HP. auto.
  - intros H i Hi Hw. rewrite <- HP. auto.
Qed.

(** [first_other] determines the counterparty. *)
Lemma first_other_functional keys w P r r' :
  first_other keys w P r -> first_other keys w P r' -> r = r'.
Proof.
  destruct r as [k|], r' as [k'|]; simpl; auto.
  - intros (i & Hk & Hw & Hi & Hlt) (i' & Hk' & Hw' & Hi' & Hlt').
    destruct (Nat.lt_trichotomy i i') as [H|[H|H]].
    + rewrite (Hlt' i H Hw) in Hi. discriminate.
    + subst i'. congruence.
    + rewrite (Hlt i' H Hw') in Hi'. discriminate.
  - intros (i & Hk & Hw & Hi & _) H.
    rewrite H in Hi; [discriminate| |exact Hw].
    apply lookup_lt_Some in Hk. exact Hk.
  - intros H (i & Hk & Hw & Hi & _).
    rewrite H in Hi; [discriminate| |exact Hw].
    apply lookup_lt_Some in Hk. exact Hk.
Qed.

(** The loop, started at index [i] on the keys from [i] on, finds the
    first other account at or after [i] that passes the test. *)
Lemma findCounterparty_from meta w bc keys : forall i,
  match findCounterparty (Tx.preBalances meta) (Tx.postBalances meta)
          w bc i keys with
  | Some k =>
      exists j, (i <= j)%nat /\ keys !! (j - i)%nat = Some k /\ j <> w /\
                loop_test bc (change meta j) = true /\
                forall j', (i <= j')%nat -> (j' < j)%nat -> j' <> w ->
                           loop_test bc (change meta j') = false
  | None =>
      forall j, (i <= j)%nat -> (j < i + length keys)%nat -> j <> w ->
                loop_test bc (change meta j) = false
  end.
Proof.
  induction keys as [|k keys IH]; intros i; cbn [findCounterparty].
  - simpl. intros j Hij Hj. lia.
  - rewrite length_cons.
    destruct (Nat.eqb_spec i w) as [Heq|Hne]; cbn [negb].
    + specialize (IH (S i)).
      destruct (findCounterparty _ _ w bc (S i) keys) as [k'|].
      * destruct IH as (j & Hij & Hk & Hw & Hj & Hlt).
        exists j. repeat split; auto; try lia.
        -- replace (j - i)%nat with (S (j - S i)) by lia. exact Hk.
        -- intros j' H1 H2 H3. apply Hlt; auto. lia.
      * intros j H1 H2 H3. apply IH; auto; lia.
    + fold (change meta i).
      destruct (num_gt bc (Finite 0) && num_lt (change meta i) (Finite 0))
        eqn:E1.
      { exists i. repeat split; auto.
        - replace (i - i)%nat with 0%nat by lia. reflexivity.
        - unfold loop_test. rewrite E1. reflexivity.
        - intros; lia. }
      destruct (num_lt bc (Finite 0) && num_gt (change meta i) (Finite 0)
                && num_lt (num_add (change meta i) bc) (Finite 1000000))
        eqn:E2.
      { exists i. repeat split; auto.
        - replace (i - i)%nat with 0%nat by lia. reflexivity.
        - unfold loop_test. rewrite E1, E2. reflexivity.
        - intros; lia. }
      assert (Hi : loop_test bc (change meta i) = false)
        by (unfold loop_test; rewrite E1, E2; reflexivity).
      specialize (IH (S i)).
      destruct (findCounterparty _ _ w bc (S i) keys) as [k'|].
      * destruct IH as (j & Hij & Hk & Hw & Hj & Hlt).
        exists j. repeat split; auto; try lia.
        -- replace (j - i)%nat with (S (j - S i)) by lia. exact Hk.
        -- intros j' H1 H2 H3.
           destruct (Nat.eq_dec j' i) as [->|]; auto. apply Hlt; auto. lia.
      * intros j H1 H2 H3.
        destruct (Nat.eq_dec j i) as [->|]; auto. apply IH; auto; lia.
Qed.

Lemma findCounterparty_first_other meta w bc keys :
  first_other keys w (fun i => loop_test bc (change meta i))
    (findCounterparty (Tx.preBalances meta) (Tx.postBalances meta)
       w bc 0 keys).
Proof.
  pose proof (findCounterparty_from meta w bc keys 0%nat) as H.
  destruct (findCounterparty _ _ w bc 0 keys) as [k|]; simpl.
  - destruct H as (j & _ & Hk & Hw & Hj & Hlt).
    exists j. rewrite Nat.sub_0_r in Hk. repeat split; auto.
    intros j' H1 H2. apply Hlt; auto. lia.
  - intros i Hi Hw. apply H; auto. lia.
Qed.

(** A number is not both above and below zero. *)
Lemma num_gt_not_lt (a : jsnum) :
  num_gt a (Finite 0) = true -> num_lt a (Finite 0) = false.
Proof.
  destruct a as [|s|q]; cbn [num_gt num_lt]; try discriminate.
  - destruct s; [discriminate|reflexivity].
  - rewrite Qltb_lt, Qltb_ge. apply Qlt_le_weak.
Qed.

Lemma num_lt_not_gt (a : jsnum) :
  num_lt a (Finite 0) = true -> num_gt a (Finite 0) = false.
Proof.
  intros H. destruct (num_gt a (Finite 0)) eqn:Hgt; [|reflexivity].
  apply num_gt_not_lt in Hgt. congruence.
Qed.

Lemma loop_test_gain bc d :
  num_gt bc (Finite 0) = true -> loop_test bc d = dropped d.
Proof.
  unfold loop_test, dropped. intros H.
  rewrite H, (num_gt_not_lt bc H). simpl.
  destruct (num_lt d (Finite 0)); reflexivity.
Qed.

Lemma loop_test_loss bc d :
  num_lt bc (Finite 0) = true -> loop_test bc d = rose_within_tolerance bc d.
Proof.
  unfold loop_test, rose_within_tolerance, sum_within_tolerance. intros H.
  rewrite H, (num_lt_not_gt bc H). reflexivity.
Qed.

Lemma loop_test_neither bc d :
  num_gt bc (Finite 0) = false -> num_lt bc (Finite 0) = false ->
  loop_test bc d = false.
Proof.
  unfold loop_test. intros -> ->. reflexivity.
Qed.

(** The change of an account whose balances are present is the double
    nearest to their difference; it is NaN when one is absent. *)
Lemma change_of_delta meta i d :
  delta meta i = Some d -> change meta i = round (inject_Z d).
Proof.
  unfold delta, change, balance.
  destruct (Tx.postBalances meta !! i) as [post|]; [|discriminate].
  destruct (Tx.preBalances meta !! i) as [pre|]; [|discriminate].
  intros [= <-]. apply num_sub_of_Z.
Qed.

Lemma change_absent meta i : delta meta i = None -> change meta i = NaN.
Proof.
  unfold delta, change, balance.
  destruct (Tx.postBalances meta !! i) as [post|];
    destruct (Tx.preBalances meta !! i) as [pre|];
    try discriminate; reflexivity.
Qed.

(** The dust test decides whether the change is below 1000 lamports. *)
Lemma dust_exact meta w d :
  delta meta w = Some d ->
  num_lt (num_abs (change meta w)) (Finite 1000) = (Z.abs d <? 1000).
Proof.
  unfold delta, change, balance.
  destruct (Tx.postBalances meta !! w) as [post|]; [|discriminate].
  destruct (Tx.preBalances meta !! w) as [pre|]; [|discriminate].
  intros [= <-]. apply dust_of_Z.
Qed.

Lemma small_delta meta i d :
  small (Tx.preBalances meta) -> small (Tx.postBalances meta) ->
  delta meta i = Some d -> Z.abs d <= 2 ^ 52.
Proof.
  unfold small, delta. intros Hpre Hpost.
  destruct (Tx.postBalances meta !! i) as [post|] eqn:Ey; [|discriminate].
  destruct (Tx.preBalances meta !! i) as [pre|] eqn:Ex; [|discriminate].
  intros [= <-].
  rewrite List.Forall_forall in Hpre, Hpost.
  apply list_elem_of_lookup_2, list_elem_of_In in Ey, Ex.
  specialize (Hpre _ Ex). specialize (Hpost _ Ey). lia.
Qed.

Lemma tolerance_exact meta w i :
  small (Tx.preBalances meta) -> small (Tx.postBalances meta) ->
  rose_within_tolerance (change meta w) (change meta i)
  = rose_within_exact_tolerance (delta meta w) (delta meta i).
Proof.
  intros Hpre Hpost.
  unfold rose_within_tolerance, sum_within_tolerance,
    rose_within_exact_tolerance.
  destruct (delta meta w) as [d|] eqn:Hd.
  - destruct (delta meta i) as [g|] eqn:Hg.
    + pose proof (small_delta meta w d Hpre Hpost Hd) as Hsd.
      pose proof (small_delta meta i g Hpre Hpost Hg) as Hsg.
      assert (H53 : (2 ^ 53 = 2 * 2 ^ 52)%Z) by reflexivity.
      rewrite (change_of_delta meta w d Hd), (change_of_delta meta i g Hg).
      rewrite !round_integer by lia.
      fold (of_Z g). fold (of_Z d). rewrite num_add_of_Z.
      rewrite round_integer by lia.
      cbn [num_gt num_lt of_Z]. f_equal.
      * apply eq_true_iff_eq. rewrite Qltb_lt, Z.ltb_lt.
        change 0%Q with (inject_Z 0). rewrite <- Zlt_Qlt. reflexivity.
      * apply eq_true_iff_eq. rewrite Qltb_lt, Z.ltb_lt.
        change 1000000%Q with (inject_Z 1000000). rewrite <- Zlt_Qlt.
        reflexivity.
    + rewrite (change_absent meta i Hg). reflexivity.
  - rewrite (change_absent meta w Hd).
    destruct (change meta i) as [|s|q]; cbn [num_gt num_lt num_add];
      rewrite ?andb_false_r; reflexivity.
Qed.

(** [findWalletIndex] returns the first position of the address. *)
Lemma findWalletIndex_from walletAddress keys : forall i w,
  findWalletIndex walletAddress i keys = Some w <->
  (i <= w)%nat /\ keys !! (w - i)%nat = Some walletAddress /\
  forall j, (j < w - i)%nat -> keys !! j <> Some walletAddress.
Proof.
  induction keys as [|k keys IH]; intros i w; cbn [findWalletIndex].
  - split; [discriminate|]. intros (_ & H & _). discriminate.
  - destruct (String.eqb_spec k walletAddress) as [->|Hne].
    + split.
      * intros [= <-]. rewrite Nat.sub_diag. repeat split; auto; intros; lia.
      * intros (Hle & Hk & Hlt).
        destruct (w - i)%nat as [|n] eqn:E; [f_equal; lia|].
        exfalso. apply (Hlt 0%nat); [lia|reflexivity].
    + rewrite IH. split.
      * intros (Hle & Hk & Hlt). split; [lia|].
        replace (w - i)%nat with (S (w - S i)) by lia. split; [exact Hk|].
        intros [|j] Hj; simpl; [congruence|]. apply Hlt. lia.
      * intros (Hle & Hk & Hlt).
        destruct (w - i)%nat as [|n] eqn:E; [simpl in Hk; congruence|].
        split; [lia|]. replace (w - S i)%nat with n by lia.
        split; [exact Hk|]. intros j Hj. apply (Hlt (S j)). lia.
Qed.

Lemma findWalletIndex_first walletAddress keys w :
  findWalletIndex walletAddress 0 keys = Some w <->
  keys !! w = Some walletAddress /\
  forall j, (j < w)%nat -> keys !! j <> Some walletAddress.
Proof.
  rewrite findWalletIndex_from, Nat.sub_0_r. split.
  - intros (_ & H1 & H2). auto.
  - intros (H1 & H2). split; [lia|auto].
Qed.

(** The sign of a change is the sign of the difference of the balances. *)
Lemma sign_of_change meta i :
  num_gt (change meta i) (Finite 0) = rose (delta meta i) /\
  num_lt (change meta i) (Finite 0) = fell (delta meta i).
Proof.
  destruct (delta meta i) as [d|] eqn:Hd.
  - rewrite (change_of_delta meta i d Hd). apply round_sign_Z.
  - rewrite (change_absent meta i Hd). split; reflexivity.
Qed.

Lemma not_dust meta w :
  (forall d, delta meta w = Some d -> 1000 <= Z.abs d) ->
  num_lt (num_abs (change meta w)) (Finite 1000) = false.
Proof.
  intros H. destruct (delta meta w) as [d|] eqn:Hd.
  - rewrite (dust_exact meta w d Hd). apply Z.ltb_ge. apply H. reflexivity.
  - rewrite (change_absent meta w Hd). reflexivity.
Qed.

(** The counterparty, read on the changes that the program computes. *)
Lemma counterparty_on_doubles
    (env : Env) (transaction : Tx.t) (walletAddress : string)
    (meta : Tx.Meta) (w : nat) :
  Tx.meta transaction = Some meta ->
  Tx.accountKeys transaction !! w = Some walletAddress ->
  (forall j, (j < w)%nat ->
             Tx.accountKeys transaction !! j <> Some walletAddress) ->
  num_lt (num_abs (change meta w)) (Finite 1000) = false ->
  exists transfer,
    analyzeSolTransaction env transaction walletAddress = Ok (Some transfer) /\
    (num_gt (change meta w) (Finite 0) = true ->
     first_other (Tx.accountKeys transaction) w
       (fun i => dropped (change meta i))
       (Transfer.receiver_sender transfer)) /\
    (num_lt (change meta w) (Finite 0) = true ->
     first_other (Tx.accountKeys transaction) w
       (fun i => rose_within_tolerance (change meta w) (change meta i))
       (Transfer.receiver_sender transfer)) /\
    (num_gt (change meta w) (Finite 0) = false ->
     num_lt (change meta w) (Finite 0) = false ->
     Transfer.receiver_sender transfer = None).
Proof.
  intros Hmeta Hw Hfirst Hdust.
  assert (Hidx : findWalletIndex walletAddress 0 (Tx.accountKeys transaction)
                 = Some w) by (apply findWalletIndex_first; auto).
  unfold analyzeSolTransaction. rewrite Hmeta, Hidx.
  fold (change meta w). rewrite Hdust.
  eexists. split; [reflexivity|]. cbn [Transfer.receiver_sender].
  pose proof (findCounterparty_first_other meta w (change meta w)
                (Tx.accountKeys transaction)) as Hfo.
  split; [|split].
  - intros Hpos. eapply first_other_ext; [|exact Hfo].
    intros i. apply loop_test_gain. exact Hpos.
  - intros Hneg. eapply first_other_ext; [|exact Hfo].
    intros i. apply loop_test_loss. exact Hneg.
  - intros Hnp Hnn.
    destruct (findCounterparty _ _ w (change meta w) 0 _) as [k|]; auto.
    destruct Hfo as (i & _ & _ & Hi & _).
    rewrite loop_test_neither in Hi; auto. discriminate.
Qed.

(** C7. When the watched address appears in the transaction (first at
    index [w]) and its balance change is not dust, the analyzer produces a
    transfer whose counterparty is: when the watched balance rose, the
    first other account whose balance fell; when it fell, the first other
    account whose balance rose with (gain + watched change) < 1000000,
    the sum being the sum of doubles that the program computes; absent
    when no other account matches (and when the watched balance neither
    rose nor fell).  While no balance of the transaction exceeds [2^52]
    lamports the sum is exact, and the test is the one on the integers. *)
Theorem analyzeSolTransaction_counterparty
    (env : Env) (transaction : Tx.t) (walletAddress : string)
    (meta : Tx.Meta) (w : nat) :
  Tx.meta transaction = Some meta ->
  Tx.accountKeys transaction !! w = Some walletAddress ->
  (forall j, (j < w)%nat ->
             Tx.accountKeys transaction !! j <> Some walletAddress) ->
  (forall d, delta meta w = Some d -> 1000 <= Z.abs d) ->
  exists transfer,
    analyzeSolTransaction env transaction walletAddress = Ok (Some transfer) /\
    (rose (delta meta w) = true ->
     first_other (Tx.accountKeys transaction) w
       (fun i => fell (delta meta i))
       (Transfer.receiver_sender transfer)) /\
    (fell (delta meta w) = true ->
     first_other (Tx.accountKeys transaction) w
       (fun i => rose (delta meta i)
                 && sum_within_tolerance (change meta w) (change meta i))
       (Transfer.receiver_sender transfer)) /\
    (rose (delta meta w) = false -> fell (delta meta w) = false ->
     Transfer.receiver_sender transfer = None) /\
    (small (Tx.preBalances meta) -> small (Tx.postBalances meta) ->
     fell (delta meta w) = true ->
     first_other (Tx.accountKeys transaction) w
       (fun i => rose_within_exact_tolerance (delta meta w) (delta meta i))
       (Transfer.receiver_sender transfer)).
Proof.
  intros Hmeta Hw Hfirst Hdust.
  destruct (counterparty_on_doubles env transaction walletAddress meta w
              Hmeta Hw Hfirst (not_dust meta w Hdust))
    as (transfer & Hrun & Hgain & Hloss & Hnone).
  destruct (sign_of_change meta w) as (Hgt & Hlt).
  rewrite Hgt in Hgain, Hnone. rewrite Hlt in Hloss, Hnone.
  exists transfer. split; [exact Hrun|].
  split; [|split; [|split; [exact Hnone|]]].
  - intros Hrose. refine (first_other_ext _ _ _ _ _ _ (Hgain Hrose)).
    intros i. apply sign_of_change.
  - intros Hfell. refine (first_other_ext _ _ _ _ _ _ (Hloss Hfell)).
    intros i. unfold rose_within_tolerance.
    rewrite (proj1 (sign_of_change meta i)). reflexivity.
  - intros Hpre Hpost Hfell.
    refine (first_other_ext _ _ _ _ _ _ (Hloss Hfell)).
    intros i. apply tolerance_exact; assumption.
Qed.

Lemma analyzeSolTransaction_counterparty_witness :
  exists transfer,
    analyzeSolTransaction env0 tx_incoming "Watched" = Ok (Some transfer) /\
    Transfer.receiver_sender transfer = Some "Sender".
Proof.
  destruct (analyzeSolTransaction_counterparty env0 tx_incoming "Watched"
              {| Tx.preBalances := [10000000; 5000000; 1];
                 Tx.postBalances := [7995000; 7000000; 1] |} 1%nat)
    as (transfer & Hrun & Hgain & _ & _).
  - reflexivity.
  - reflexivity.
  - intros [|j] Hj; [simpl; discriminate|lia].
  - intros d [= <-]. lia.
  - exists transfer. split; [exact Hrun|].
    eapply first_other_functional; [apply Hgain; reflexivity|].
    exists 0%nat. repeat split; [discriminate|].
    intros j Hj. lia.
Defined.

(** The sum of the tolerance test is a sum of doubles.  "Watched" pays
    [2^53 + 1] lamports and "Receiver" gains [2^53 + 1000000]: the gain
    plus the watched change is 999999, below the tolerance, and
    "Receiver" is the first other account whose balance rose; the program
    computes 1000000 for the sum and leaves the counterparty absent. *)
Lemma tolerance_sum_is_rounded :
  let meta := {| Tx.preBalances := Tx.preBalances meta_whale;
                 Tx.postBalances := Tx.postBalances meta_whale |} in
  Tx.meta tx_whale = Some meta /\
  Tx.accountKeys tx_whale !! 0%nat = Some "Watched" /\
  delta meta 0 = Some (- (2 ^ 53 + 1)) /\
  delta meta 1 = Some (2 ^ 53 + 1000000) /\
  (2 ^ 53 + 1000000) + - (2 ^ 53 + 1) < 1000000 /\
  first_other (Tx.accountKeys tx_whale) 0
    (fun i => rose_within_exact_tolerance (delta meta 0) (delta meta i))
    (Some "Receiver") /\
  change meta 0 = of_Z (- 2 ^ 53) /\
  num_add (change meta 1) (change meta 0) = of_Z 1000000 /\
  exists transfer,
    analyzeSolTransaction env0 tx_whale "Watched" = Ok (Some transfer) /\
    Transfer.receiver_sender transfer = None.
Proof.
  cbv zeta. split; [reflexivity|]. split; [reflexivity|].
  split; [reflexivity|]. split; [reflexivity|]. split; [reflexivity|].
  split; [|split; [|split]].
  - exists 1%nat. split; [reflexivity|]. split; [discriminate|].
    split; [reflexivity|]. intros j Hj Hne. lia.
  - vm_compute. reflexivity.
  - vm_compute. reflexivity.
  - eexists. split; [vm_compute; reflexivity|]. reflexivity.
Qed.

Example analyzeSolTransaction_incoming :
  analyzeSolTransaction env0 tx_incoming "Watched" =
  Ok (Some {| Transfer.signature := Some "sig1";
              Transfer.amount := of_Z 2000000;
              Transfer.direction := "incoming";
              Transfer.timestamp := of_Z 1700000000000;
              Transfer.receiver_sender := Some "Sender" |}).
Proof. vm_compute. reflexivity. Qed.

(** C10. The analyzer's result does not depend on the configured
    DUST_THRESHOLD: any two values give the same result; the cutoff it
    applies to the watched account's balance change [d] is the constant
    1000, whatever the configured value. *)
Theorem analyzeSolTransaction_independent_of_DUST_THRESHOLD
    (env : Env) (v1 v2 : option string) (transaction : Tx.t)
    (walletAddress : string) :
  analyzeSolTransaction (with_DUST_THRESHOLD env v1) transaction walletAddress
  = analyzeSolTransaction (with_DUST_THRESHOLD env v2) transaction walletAddress
  /\
  forall meta w d,
    Tx.meta transaction = Some meta ->
    findWalletIndex walletAddress 0 (Tx.accountKeys transaction) = Some w ->
    delta meta w = Some d ->
    (analyzeSolTransaction (with_DUST_THRESHOLD env v1) transaction
       walletAddress = Ok None <-> Z.abs d < 1000).
Proof.
  split; [reflexivity|].
  intros meta w d Hmeta Hidx Hd.
  unfold analyzeSolTransaction. rewrite Hmeta, Hidx.
  fold (change meta w). rewrite (dust_exact meta w d Hd).
  destruct (Z.ltb_spec (Z.abs d) 1000) as [Hlt|Hge].
  - split; auto.
  - split; [discriminate|lia].
Qed.

(** A change of 999 lamports is dropped and one of 1000 is reported,
    under a configured DUST_THRESHOLD of 5000 and under none. *)
Lemma analyzeSolTransaction_independent_of_DUST_THRESHOLD_witness :
  analyzeSolTransaction (with_DUST_THRESHOLD env0 (Some "5000"))
    (tx_change 999) "Watched" = Ok None /\
  analyzeSolTransaction (with_DUST_THRESHOLD env0 None)
    (tx_change 999) "Watched" = Ok None /\
  analyzeSolTransaction (with_DUST_THRESHOLD env0 (Some "5000"))
    (tx_change 1000) "Watched" <> Ok None.
Proof.
  destruct (analyzeSolTransaction_independent_of_DUST_THRESHOLD env0
              (Some "5000") None (tx_change 999) "Watched") as [Heq Hcut].
  destruct (analyzeSolTransaction_independent_of_DUST_THRESHOLD env0
              (Some "5000") None (tx_change 1000) "Watched") as [_ Hcut'].
  assert (H999 : analyzeSolTransaction (with_DUST_THRESHOLD env0 (Some "5000"))
                   (tx_change 999) "Watched" = Ok None).
  { apply (Hcut {| Tx.preBalances := [5000000; 0];
                   Tx.postBalances := [5000000 - 999; 999] |} 1%nat 999);
      [reflexivity|reflexivity|reflexivity|lia]. }
  split; [exact H999|]. split; [rewrite <- Heq; exact H999|].
  intros H.
  apply (Hcut' {| Tx.preBalances := [5000000; 0];
                  Tx.postBalances := [5000000 - 1000; 1000] |} 1%nat 1000)
    in H; [lia|reflexivity|reflexivity|reflexivity].
Defined.

(** ** The filter *)

Lemma guarded_false (b c : bool) :
  b && c = false <-> (b = true -> c = false).
Proof. destruct b, c; simpl; intuition discriminate. Qed.

Lemma direction_check_false (d : jsval) (s : string) :
  strict_ne_str d "both" && strict_ne_str d s = false <->
  d = JStr "both" \/ d = JStr s.
Proof.
  destruct d as [| |b|n|s']; simpl;
    try (split; [discriminate|intros [H|H]; discriminate]).
  destruct (String.eqb_spec s' "both") as [->|Hb]; simpl.
  - split; auto.
  - destruct (String.eqb_spec s' s) as [->|Hs]; simpl.
    + split; auto.
    + split; [discriminate|]. intros [[= H]|[= H]]; contradiction.
Qed.

Lemma num_lt_false a n : num_lt (Finite a) n = false <-> notBelow a n.
Proof.
  destruct n as [|negative|f]; cbn [num_lt notBelow].
  - split; auto.
  - apply negb_false_iff.
  - apply Qltb_ge.
Qed.

Lemma num_gt_false a n : num_gt (Finite a) n = false <-> notAbove a n.
Proof.
  destruct n as [|negative|f]; cbn [num_gt num_lt notAbove].
  - split; auto.
  - reflexivity.
  - apply Qltb_ge.
Qed.

Section FilterProperties.

Variable StringToNumber : string -> jsnum.
Variable env : Env.

Lemma lt_val_false a v :
  lt_val StringToNumber (Finite a) v = false <->
  notBelow a (ToNumber StringToNumber v).
Proof. apply num_lt_false. Qed.

Lemma gt_val_false a v :
  gt_val StringToNumber (Finite a) v = false <->
  notAbove a (ToNumber StringToNumber v).
Proof. apply num_gt_false. Qed.

(** The filter notifies exactly when the four checks allow the amount. *)
Lemma shouldNotify_true_iff transfer wallet a :
  amountSOL transfer = Finite a ->
  shouldNotify StringToNumber env transfer wallet = true <->
  floor_allows StringToNumber env a /\
  min_allows StringToNumber wallet a /\
  max_allows StringToNumber wallet a /\
  direction_allows wallet transfer.
Proof.
  intros Ha. unfold shouldNotify. fold (amountSOL transfer). rewrite Ha.
  unfold floor_allows, min_allows, max_allows, direction_allows, floor.
  rewrite <- lt_val_false, <- direction_check_false.
  rewrite <- (lt_val_false a (Wallet.minAmount wallet)).
  rewrite <- (gt_val_false a (Wallet.maxAmount wallet)).
  rewrite <- !guarded_false.
  destruct (lt_val StringToNumber (Finite a) (of_env _));
    [intuition discriminate|].
  destruct (ToBoolean (Wallet.minAmount wallet) && lt_val _ _ _);
    [intuition discriminate|].
  destruct (ToBoolean (Wallet.maxAmount wallet) && gt_val _ _ _);
    [intuition discriminate|].
  destruct (strict_ne_str _ "both" && strict_ne_str _ _);
    intuition discriminate.
Qed.

Lemma shouldNotify_below_floor transfer wallet a f :
  amountSOL transfer = Finite a -> floor StringToNumber env = Finite f ->
  (a < f)%Q ->
  shouldNotify StringToNumber env transfer wallet = false.
Proof.
  intros Ha Hf Hlt. apply not_true_iff_false. intros H.
  apply (shouldNotify_true_iff _ _ a Ha) in H. destruct H as (Hfl & _).
  unfold floor_allows in Hfl. rewrite Hf in Hfl.
  apply Qle_not_lt in Hfl. contradiction.
Qed.

Lemma shouldNotify_above_max transfer wallet a M :
  amountSOL transfer = Finite a ->
  ToBoolean (Wallet.maxAmount wallet) = true ->
  ToNumber StringToNumber (Wallet.maxAmount wallet) = Finite M ->
  (M < a)%Q ->
  shouldNotify StringToNumber env transfer wallet = false.
Proof.
  intros Ha Hset HM Hlt. apply not_true_iff_false. intros H.
  apply (shouldNotify_true_iff _ _ a Ha) in H.
  destruct H as (_ & _ & Hmax & _).
  specialize (Hmax Hset). rewrite HM in Hmax.
  apply Qle_not_lt in Hmax. contradiction.
Qed.

End FilterProperties.

(** C3. Filter boundaries.  (1) A transfer of exactly [minAmount] passes
    and (2) a transfer of exactly [maxAmount] passes, the other checks
    allowing the amount; (3) a transfer one lamport above a set
    [maxAmount], the amount of a transfer of [lamports], is suppressed
    while it is below [2^23] SOL; (4) a transfer below the process-wide
    floor is suppressed for every wallet record, whatever its
    [minAmount].  The amounts compared are the doubles that the filter
    computes. *)
Theorem shouldNotify_boundaries
    (StringToNumber : string -> jsnum) (env : Env) :
  (forall transfer wallet a m,
     amountSOL transfer = Finite a ->
     ToNumber StringToNumber (Wallet.minAmount wallet) = Finite m ->
     (a == m)%Q ->
     floor_allows StringToNumber env a ->
     max_allows StringToNumber wallet a ->
     direction_allows wallet transfer ->
     shouldNotify StringToNumber env transfer wallet = true) /\
  (forall transfer wallet a M,
     amountSOL transfer = Finite a ->
     ToNumber StringToNumber (Wallet.maxAmount wallet) = Finite M ->
     (a == M)%Q ->
     floor_allows StringToNumber env a ->
     min_allows StringToNumber wallet a ->
     direction_allows wallet transfer ->
     shouldNotify StringToNumber env transfer wallet = true) /\
  (forall transfer above wallet lamports a M,
     0 <= lamports -> lamports + 1 < 2 ^ 23 * 1000000000 ->
     Transfer.amount transfer = of_Z lamports ->
     Transfer.amount above = of_Z (lamports + 1) ->
     amountSOL transfer = Finite a ->
     ToBoolean (Wallet.maxAmount wallet) = true ->
     ToNumber StringToNumber (Wallet.maxAmount wallet) = Finite M ->
     (a == M)%Q ->
     shouldNotify StringToNumber env above wallet = false) /\
  (forall transfer wallet a f,
     amountSOL transfer = Finite a ->
     floor StringToNumber env = Finite f ->
     (a < f)%Q ->
     shouldNotify StringToNumber env transfer wallet = false).
Proof.
  repeat split.
  - intros transfer wallet a m Ha Hm Heq Hfl Hmax Hdir.
    apply (shouldNotify_true_iff _ _ _ _ a Ha). repeat split; auto.
    intros _. rewrite Hm. cbn [notBelow]. rewrite Heq. apply Qle_refl.
  - intros transfer wallet a M Ha HM Heq Hfl Hmin Hdir.
    apply (shouldNotify_true_iff _ _ _ _ a Ha). repeat split; auto.
    intros _. rewrite HM. cbn [notAbove]. rewrite Heq. apply Qle_refl.
  - intros transfer above wallet lamports a M H0 Hbound Hamount Habove Ha
      Hset HM Heq.
    destruct (div_1e9_separates lamports H0 Hbound)
      as (a' & b & Ha' & Hb & Hlt).
    unfold amountSOL in Ha. rewrite Hamount, Ha' in Ha. injection Ha as ->.
    apply (shouldNotify_above_max _ _ _ _ b M); auto.
    + unfold amountSOL. rewrite Habove. exact Hb.
    + rewrite <- Heq. exact Hlt.
  - intros transfer wallet a f Ha Hf Hlt.
    apply (shouldNotify_below_floor _ _ _ _ a f); auto.
Qed.

Lemma shouldNotify_boundaries_witness :
  shouldNotify parseConfigured env0 (transferOf 500000000 "incoming")
    walletHalfToTwo = true /\
  shouldNotify parseConfigured env0 (transferOf 2000000000 "outgoing")
    walletHalfToTwo = true /\
  shouldNotify parseConfigured env0 (transferOf 2000000001 "outgoing")
    walletHalfToTwo = false /\
  shouldNotify parseConfigured env0 (transferOf 50000000 "incoming")
    walletLowMin = false.
Proof.
  destruct (shouldNotify_boundaries parseConfigured env0)
    as (Hmin & Hmax & Habove & Hfloor).
  split; [|split; [|split]].
  - apply (Hmin _ _ (1 # 2)%Q (1 # 2)%Q).
    + vm_compute. reflexivity.
    + reflexivity.
    + reflexivity.
    + vm_compute. discriminate.
    + intros _. vm_compute. discriminate.
    + left. reflexivity.
  - apply (Hmax _ _ 2%Q 2%Q).
    + vm_compute. reflexivity.
    + reflexivity.
    + reflexivity.
    + vm_compute. discriminate.
    + intros _. vm_compute. discriminate.
    + left. reflexivity.
  - apply (Habove (transferOf 2000000000 "outgoing") _ _ 2000000000 2%Q 2%Q).
    + lia.
    + reflexivity.
    + reflexivity.
    + reflexivity.
    + vm_compute. reflexivity.
    + reflexivity.
    + reflexivity.
    + reflexivity.
  - eapply Hfloor.
    + vm_compute. reflexivity.
    + vm_compute. reflexivity.
    + reflexivity.
Defined.

(** From [2^23] SOL on, amounts a lamport apart are the same double.  The
    maximum of the wallet is 8615591.833155717 SOL; a transfer of
    8615591833155717 lamports is exactly that, and a transfer of one
    lamport more is notified as well. *)
Lemma one_lamport_above_max_is_notified :
  ToBoolean (Wallet.maxAmount walletUpTo) = true /\
  amountSOL (transferOf 8615591833155717 "incoming")
  = ToNumber parseConfigured (Wallet.maxAmount walletUpTo) /\
  shouldNotify parseConfigured env0 (transferOf 8615591833155717 "incoming")
    walletUpTo = true /\
  shouldNotify parseConfigured env0
    (transferOf (8615591833155717 + 1) "incoming") walletUpTo = true.
Proof.
  split; [reflexivity|]. split; [vm_compute; reflexivity|].
  split; vm_compute; reflexivity.
Qed.

(** ** The differ *)

Lemma fetched_app t1 t2 : fetched (t1 ++ t2) = fetched t1 ++ fetched t2.
Proof. apply flat_map_app. Qed.

Lemma cursorWrites_app t1 t2 :
  cursorWrites (t1 ++ t2) = cursorWrites t1 ++ cursorWrites t2.
Proof. apply flat_map_app. Qed.

Lemma errors_app t1 t2 : errors (t1 ++ t2) = errors t1 ++ errors t2.
Proof. apply flat_map_app. Qed.

Lemma notifiedFrom_app cur t1 t2 :
  fetched t1 = [] ->
  notifiedFrom cur (t1 ++ t2) = notifiedFrom cur t1 ++ notifiedFrom cur t2.
Proof.
  induction t1 as [|e t1 IH]; intros Hf; [reflexivity|].
  destruct e; simpl in *; try discriminate; auto.
  destruct cur; simpl; rewrite IH; auto.
Qed.

Lemma strict_eq_false s last : strict_eq s (Some last) = false <-> s <> last.
Proof.
  simpl. destruct (String.eqb_spec s last); split; congruence.
Qed.

Lemma falsy_Some_false last : falsy (Some last) = false <-> last <> "".
Proof.
  simpl. destruct (String.eqb_spec last ""); split; congruence.
Qed.

(** The scan keeps the entries before the cursor... *)
Lemma collectNew_until last news cursorInfo older :
  Forall (fun s => SigInfo.signature s <> last) news ->
  SigInfo.signature cursorInfo = last ->
  collectNew (Some last) (news ++ cursorInfo :: older) = news.
Proof.
  intros Hnews Hc. induction Hnews as [|s news Hs _ IH]; simpl.
  - rewrite Hc, String.eqb_refl. reflexivity.
  - apply String.eqb_neq in Hs. rewrite Hs, IH. reflexivity.
Qed.

(** ... and the whole window when the cursor is not in it. *)
Lemma collectNew_all last recent :
  Forall (fun s => SigInfo.signature s <> last) recent ->
  collectNew (Some last) recent = recent.
Proof.
  intros H. induction H as [|s recent Hs _ IH]; simpl; [reflexivity|].
  apply String.eqb_neq in Hs. rewrite Hs, IH. reflexivity.
Qed.

Ltac run_monad :=
  unfold try_catch, bind, await, lift, ret, throw, emit, console_error,
    sleep, cursor_get, cursor_set.

Section DifferProperties.

Variable StringToNumber : string -> jsnum.
Variable env : Env.
Variable connection : Connection.
Variable userId walletId : string.
Variable wallet : Wallet.t.

Local Abbreviation process :=
  (processTransaction StringToNumber env connection userId wallet).
Local Abbreviation processed :=
  (processTrace StringToNumber env connection userId wallet).
Local Abbreviation body :=
  (loopBody StringToNumber env connection userId wallet).
Local Abbreviation looped :=
  (loopTrace StringToNumber env connection userId wallet).
Local Abbreviation polled :=
  (poll StringToNumber env connection userId walletId wallet).
Local Abbreviation path :=
  (Path StringToNumber env connection userId walletId wallet).
Local Abbreviation trace :=
  (traceOf StringToNumber env connection userId walletId wallet).
Local Abbreviation after :=
  (cursorsAfter StringToNumber env connection userId walletId wallet).
Local Abbreviation addr := (Wallet.address wallet).

Lemma sendTransactionNotification_run transfer c :
  sendTransactionNotification connection userId wallet transfer c
  = (Ok tt, c, sendTrace connection userId wallet transfer).
Proof.
  unfold sendTransactionNotification, sendTrace. run_monad.
  destruct (sendMessage connection userId (Wallet.name wallet) transfer)
    as [[]|e]; reflexivity.
Qed.

(** Processing a signature never throws and leaves the cursors alone. *)
Lemma processTransaction_run sigInfo c :
  process sigInfo c = (Ok tt, c, processed sigInfo).
Proof.
  unfold processTrace, processTransaction. run_monad.
  destruct (getParsedTransaction connection (SigInfo.signature sigInfo))
    as [[transaction|]|e]; try reflexivity.
  destruct (Tx.meta transaction) as [meta|] eqn:Hmeta; try reflexivity.
  destruct (analyzeSolTransaction env transaction (Wallet.address wallet))
    as [[transfer|]|e]; try reflexivity.
  destruct (shouldNotify StringToNumber env transfer wallet);
    try reflexivity.
  rewrite !sendTransactionNotification_run. reflexivity.
Qed.

(** The shape of the events of processing one signature: the fetch, then
    at most one notification, and console errors. *)
Lemma processTrace_shape sigInfo :
  exists rest,
    processed sigInfo = EGetTransaction (SigInfo.signature sigInfo) :: rest
    /\ fetched rest = [] /\ cursorWrites rest = []
    /\ (notifiedFrom (Some (SigInfo.signature sigInfo)) rest = []
        \/ notifiedFrom (Some (SigInfo.signature sigInfo)) rest
           = [SigInfo.signature sigInfo]).
Proof.
  unfold processTrace, processTransaction. run_monad.
  destruct (getParsedTransaction connection (SigInfo.signature sigInfo))
    as [[transaction|]|e];
    try (eexists; split; [reflexivity|]; simpl; solve [auto]).
  destruct (Tx.meta transaction) as [meta|] eqn:Hmeta;
    try (eexists; split; [reflexivity|]; simpl; solve [auto]).
  destruct (analyzeSolTransaction env transaction (Wallet.address wallet))
    as [[transfer|]|e];
    try (eexists; split; [reflexivity|]; simpl; solve [auto]).
  destruct (shouldNotify StringToNumber env transfer wallet);
    try (eexists; split; [reflexivity|]; simpl; solve [auto]).
  rewrite sendTransactionNotification_run. unfold sendTrace.
  destruct (sendMessage connection userId (Wallet.name wallet) transfer)
    as [[]|e]; eexists; (split; [reflexivity|]); simpl; auto.
Qed.

(** A rejected transaction fetch is logged. *)
Lemma processTrace_throw sigInfo e :
  getParsedTransaction connection (SigInfo.signature sigInfo) = Throw e ->
  processed sigInfo = [EGetTransaction (SigInfo.signature sigInfo); EError e].
Proof.
  intros Hthrow. unfold processTrace, processTransaction. run_monad.
  rewrite Hthrow. reflexivity.
Qed.

Lemma for_of_loopBody_run l : forall c,
  for_of l body c = (Ok tt, c, looped l).
Proof.
  induction l as [|sigInfo l IH]; intros c; [reflexivity|].
  cbn [for_of loopTrace flat_map]. unfold bind at 1.
  unfold loopBody at 1. unfold bind at 1.
  rewrite processTransaction_run. unfold sleep, emit.
  rewrite IH. reflexivity.
Qed.

Lemma fetched_loopTrace l : fetched (looped l) = map SigInfo.signature l.
Proof.
  induction l as [|sigInfo l IH]; [reflexivity|].
  cbn [loopTrace flat_map map]. rewrite !fetched_app.
  fold (looped l). rewrite IH.
  destruct (processTrace_shape sigInfo) as (rest & -> & Hf & _).
  cbn [fetched flat_map]. fold (fetched rest). rewrite Hf. reflexivity.
Qed.

Lemma cursorWrites_loopTrace l : cursorWrites (looped l) = [].
Proof.
  induction l as [|sigInfo l IH]; [reflexivity|].
  cbn [loopTrace flat_map]. rewrite !cursorWrites_app.
  fold (looped l). rewrite IH.
  destruct (processTrace_shape sigInfo) as (rest & -> & _ & Hc & _).
  cbn [cursorWrites flat_map]. fold (cursorWrites rest). rewrite Hc.
  reflexivity.
Qed.

(** The error of a rejected transaction fetch is logged by the loop. *)
Lemma errors_loopTrace l sigInfo e :
  In sigInfo l ->
  getParsedTransaction connection (SigInfo.signature sigInfo) = Throw e ->
  In e (errors (looped l)).
Proof.
  intros Hin Hthrow. induction l as [|s l IH]; [destruct Hin|].
  cbn [loopTrace flat_map]. rewrite !errors_app. apply in_or_app.
  destruct Hin as [->|Hin].
  - left. apply in_or_app. left.
    rewrite (processTrace_throw sigInfo e Hthrow). simpl. auto.
  - right. apply IH. exact Hin.
Qed.

Lemma notifiedFrom_loopTrace cur l :
  notifiedFrom cur (looped l) = notified (looped l).
Proof.
  destruct l as [|s l]; [reflexivity|].
  unfold notified. cbn [loopTrace flat_map].
  destruct (processTrace_shape s) as (rest & -> & _).
  reflexivity.
Qed.

(** The notifications of the loop come from the processed signatures, in
    the order in which they are processed. *)
Lemma notified_loopTrace_sublist l :
  sublist (notified (looped l)) (map SigInfo.signature l).
Proof.
  induction l as [|s l IH]; [constructor|].
  unfold notified. cbn [loopTrace flat_map map].
  destruct (processTrace_shape s) as (rest & -> & Hf & _ & Hn).
  cbn [app notifiedFrom]. rewrite <- app_assoc.
  rewrite notifiedFrom_app by exact Hf.
  cbn [app notifiedFrom]. fold (looped l).
  rewrite notifiedFrom_loopTrace.
  destruct Hn as [-> | ->]; simpl.
  - apply sublist_cons. exact IH.
  - apply sublist_skip. exact IH.
Qed.

Lemma notified_processed_trace a l w s :
  notified ([EGetSignatures a 1; EGetSignatures a 5]
            ++ looped l ++ [ESetCursor w s])
  = notified (looped l).
Proof.
  unfold notified. cbn [app notifiedFrom].
  generalize (@None string).
  induction (looped l) as [|e t IH]; intros cur; [reflexivity|].
  destruct e; simpl; auto. destruct cur; simpl; rewrite IH; auto.
Qed.

Lemma fetched_processed_trace a l w s :
  fetched ([EGetSignatures a 1; EGetSignatures a 5]
           ++ looped l ++ [ESetCursor w s])
  = map SigInfo.signature l.
Proof.
  rewrite !fetched_app, fetched_loopTrace. simpl. apply app_nil_r.
Qed.

Lemma cursorWrites_processed_trace a l w s :
  cursorWrites ([EGetSignatures a 1; EGetSignatures a 5]
                ++ looped l ++ [ESetCursor w s])
  = [(w, s)].
Proof.
  rewrite !cursorWrites_app, cursorWrites_loopTrace. reflexivity.
Qed.

(** A poll never throws, and follows one of the paths. *)
Lemma poll_path c :
  exists c' tr, polled c = (Ok tt, c', tr) /\ path c c' tr.
Proof.
  unfold poll, checkWalletTransactions, newPublicKey.
  destruct (validAddress connection addr) eqn:Hvalid.
  2:{ eexists _, _. split; [reflexivity|].
      eapply PathInvalidAddress; eassumption. }
  unfold try_catch, bind at 1 2, ret at 1, await at 1.
  destruct (getSignaturesForAddress connection addr 1)
    as [[|first rest]|e] eqn:Hlatest.
  3:{ eexists _, _. split; [reflexivity|].
      eapply PathLatestThrows; eassumption. }
  1:{ eexists _, _. split; [reflexivity|].
      eapply PathNoSignatures; eassumption. }
  unfold bind at 1, cursor_get.
  destruct (falsy (c !! walletId)) eqn:Hfalsy.
  1:{ eexists _, _. split; [reflexivity|].
      eapply PathColdStart; eassumption. }
  destruct (strict_eq (SigInfo.signature first) (c !! walletId)) eqn:Heq.
  1:{ eexists _, _. split; [reflexivity|].
      eapply PathUnchanged; eassumption. }
  unfold bind at 1, await.
  destruct (getSignaturesForAddress connection addr 5)
    as [recent|e] eqn:Hrecent.
  2:{ eexists _, _. split; [reflexivity|].
      eapply PathRecentThrows; eassumption. }
  unfold bind at 1.
  change (for_of ?l _) with (for_of l body).
  rewrite for_of_loopBody_run. unfold cursor_set.
  eexists _, _. split; [reflexivity|]. eapply PathProcessed; eassumption.
Qed.

Ltac pick_path c :=
  let c' := fresh "c'" in
  let tr := fresh "tr" in
  let Hrun := fresh "Hrun" in
  let Hpath := fresh "Hpath" in
  destruct (poll_path c) as (c' & tr & Hrun & Hpath);
  rewrite Hrun; destruct Hpath; try congruence;
  simplify_eq; try reflexivity; try congruence.

Lemma poll_cold_start c first rest :
  validAddress connection addr = true ->
  getSignaturesForAddress connection addr 1 = Ok (first :: rest) ->
  falsy (c !! walletId) = true ->
  polled c = (Ok tt, <[walletId := SigInfo.signature first]> c,
              [EGetSignatures addr 1;
               ESetCursor walletId (SigInfo.signature first)]).
Proof.
  intros Hvalid Hlatest Hfalsy. pick_path c.
Qed.

Lemma poll_latest_throws c e :
  validAddress connection addr = true ->
  getSignaturesForAddress connection addr 1 = Throw e ->
  polled c = (Ok tt, c, [EGetSignatures addr 1; EError e]).
Proof.
  intros Hvalid Hlatest. pick_path c.
Qed.

Lemma poll_recent_throws c first rest e :
  validAddress connection addr = true ->
  getSignaturesForAddress connection addr 1 = Ok (first :: rest) ->
  falsy (c !! walletId) = false ->
  strict_eq (SigInfo.signature first) (c !! walletId) = false ->
  getSignaturesForAddress connection addr 5 = Throw e ->
  polled c = (Ok tt, c, [EGetSignatures addr 1; EGetSignatures addr 5;
                         EError e]).
Proof.
  intros Hvalid Hlatest Hfalsy Heq Hrecent. pick_path c.
Qed.

Lemma poll_processed c first rest recent :
  validAddress connection addr = true ->
  getSignaturesForAddress connection addr 1 = Ok (first :: rest) ->
  falsy (c !! walletId) = false ->
  strict_eq (SigInfo.signature first) (c !! walletId) = false ->
  getSignaturesForAddress connection addr 5 = Ok recent ->
  polled c = (Ok tt, <[walletId := SigInfo.signature first]> c,
              [EGetSignatures addr 1; EGetSignatures addr 5]
              ++ looped (rev (collectNew (c !! walletId) recent))
              ++ [ESetCursor walletId (SigInfo.signature first)]).
Proof.
  intros Hvalid Hlatest Hfalsy Heq Hrecent. pick_path c.
Qed.

(** What a poll does to the cursor map: nothing, or one write of the
    latest signature it fetched, under [walletId]. *)
Lemma poll_cursor_cases c :
  (after c = c /\ cursorWrites (trace c) = []) \/
  (exists first rest,
     getSignaturesForAddress connection addr 1 = Ok (first :: rest) /\
     after c = <[walletId := SigInfo.signature first]> c /\
     cursorWrites (trace c) = [(walletId, SigInfo.signature first)]).
Proof.
  unfold cursorsAfter, traceOf.
  destruct (poll_path c) as (c' & tr & -> & Hpath).
  cbn [fst snd].
  destruct Hpath; try (left; split; reflexivity).
  - right. exists first, rest. repeat split; auto.
  - right. exists first, rest. repeat split; auto.
    apply cursorWrites_processed_trace.
Qed.

End DifferProperties.

(** ** One pass *)

Section PassProperties.

Variable StringToNumber : string -> jsnum.
Variable env : Env.
Variable connection : Connection.

Local Abbreviation batch_run :=
  (processBatch StringToNumber env connection).
Local Abbreviation loop_run :=
  (batchLoop StringToNumber env connection).

Lemma writtenIds_app t1 t2 :
  writtenIds (t1 ++ t2) = writtenIds t1 ++ writtenIds t2.
Proof. unfold writtenIds. rewrite cursorWrites_app. apply map_app. Qed.

(** A poll returns, with at most one cursor write, under its wallet id. *)
Lemma poll_returns userId walletId wallet c :
  exists c' tr,
    checkWalletTransactions StringToNumber env connection userId walletId
      wallet c = (Ok tt, c', tr) /\
    sublist (writtenIds tr) [walletId].
Proof.
  destruct (poll_path StringToNumber env connection userId walletId wallet c)
    as (c' & tr & Hrun & _).
  exists c', tr. split; [exact Hrun|].
  pose proof (poll_cursor_cases StringToNumber env connection userId walletId
                wallet c) as Hcases.
  unfold traceOf, cursorsAfter in Hcases. unfold poll in Hrun, Hcases.
  rewrite Hrun in Hcases. cbn [fst snd] in Hcases. unfold writtenIds.
  destruct Hcases as [(_ & ->) | (first & rest & _ & _ & ->)]; simpl.
  - apply sublist_nil_l.
  - reflexivity.
Qed.

(** A batch polls each of its members once. *)
Lemma processBatch_returns batch : forall c,
  exists c' tr,
    batch_run batch c = (Ok tt, c', tr) /\
    sublist (writtenIds tr) (map ActiveWallet.walletId batch).
Proof.
  induction batch as [|w batch IH]; intros c.
  - exists c, []. split; [reflexivity|constructor].
  - unfold processBatch. cbn [for_of]. unfold bind at 1.
    destruct (poll_returns (ActiveWallet.userId w) (ActiveWallet.walletId w)
                (ActiveWallet.wallet w) c) as (c1 & t1 & -> & Hs1).
    destruct (IH c1) as (c2 & t2 & Hrun2 & Hs2).
    unfold processBatch in Hrun2. rewrite Hrun2.
    exists c2, (t1 ++ t2). split; [reflexivity|].
    rewrite writtenIds_app. cbn [map].
    apply (sublist_app _ [ActiveWallet.walletId w] _ _ Hs1 Hs2).
Qed.

(** The loop polls each active wallet from index [i] on at most once, in
    the order of the list, whatever the fuel. *)
Lemma batchLoop_returns activeWallets : forall fuel i c,
  exists c' tr,
    loop_run fuel i activeWallets c = (Ok tt, c', tr) /\
    sublist (writtenIds tr)
      (map ActiveWallet.walletId (drop i activeWallets)).
Proof.
  induction fuel as [|fuel IH]; intros i c.
  - exists c, []. split; [reflexivity|apply sublist_nil_l].
  - cbn [batchLoop].
    destruct (i <? length activeWallets)%nat;
      [|exists c, []; split; [reflexivity|apply sublist_nil_l]].
    unfold bind at 1.
    destruct (processBatch_returns (take BATCH_SIZE (drop i activeWallets)) c)
      as (c1 & t1 & -> & Hs1).
    unfold bind at 1.
    destruct (IH (i + BATCH_SIZE)%nat c1) as (c2 & t2 & Hrun2 & Hs2).
    assert (Hsplit : drop i activeWallets
                     = take BATCH_SIZE (drop i activeWallets)
                       ++ drop (i + BATCH_SIZE) activeWallets).
    { rewrite <- drop_drop. symmetry. apply take_drop. }
    destruct (i + BATCH_SIZE <? length activeWallets)%nat.
    + unfold sleep, emit. rewrite Hrun2.
      exists c2, (t1 ++ [ESleep 1000] ++ t2). split; [reflexivity|].
      rewrite !writtenIds_app. cbn [writtenIds cursorWrites flat_map map app].
      rewrite Hsplit, map_app. apply sublist_app; assumption.
    + unfold ret at 1. rewrite Hrun2.
      exists c2, (t1 ++ [] ++ t2). split; [reflexivity|].
      rewrite !writtenIds_app. cbn [writtenIds cursorWrites flat_map map app].
      rewrite Hsplit, map_app. apply sublist_app; assumption.
Qed.

(** Enough fuel: once the fuel covers the batches that remain, more fuel
    changes nothing.  [checkTransactions] gives the loop one unit of fuel
    for each active wallet. *)
Lemma batchLoop_fuel activeWallets k : forall fuel i c,
  (length activeWallets <= i + BATCH_SIZE * fuel)%nat ->
  loop_run (fuel + k) i activeWallets c = loop_run fuel i activeWallets c.
Proof.
  induction fuel as [|fuel IH]; intros i c Hfuel.
  - destruct k as [|k]; [reflexivity|]. cbn [Nat.add batchLoop].
    assert ((i <? length activeWallets)%nat = false) as ->
      by (apply Nat.ltb_ge; lia).
    reflexivity.
  - cbn [Nat.add batchLoop].
    destruct (i <? length activeWallets)%nat; [|reflexivity].
    unfold bind.
    destruct (batch_run (take BATCH_SIZE (drop i activeWallets)) c)
      as [[[[]|e] c1] t1]; [|reflexivity].
    destruct ((if (i + BATCH_SIZE <? length activeWallets)%nat
               then sleep 1000 else ret ()) c1) as [[[[]|e] c2] t2];
      [|reflexivity].
    rewrite IH by (unfold BATCH_SIZE in *; lia). reflexivity.
Qed.

(** A pass returns, and writes the cursor of each active wallet at most
    once, in the order in which the wallets are collected. *)
Lemma checkTransactions_returns wallets c :
  exists c' tr,
    checkTransactions StringToNumber env connection wallets c
      = (Ok tt, c', tr) /\
    sublist (writtenIds tr)
      (map ActiveWallet.walletId (collectActive wallets)).
Proof.
  unfold checkTransactions, try_catch.
  destruct (Nat.eqb (length (collectActive wallets)) 0).
  - exists c, []. split; [reflexivity|apply sublist_nil_l].
  - destruct (batchLoop_returns (collectActive wallets)
                (length (collectActive wallets)) 0%nat c)
      as (c' & tr & -> & Hs).
    exists c', tr. split; [reflexivity|exact Hs].
Qed.

End PassProperties.

(** ** Polls run one after the other *)

Section PollsInTurnProperties.

Variable StringToNumber : string -> jsnum.
Variable env : Env.
Variable walletId : string.
Variable rank : string -> Z.

Local Abbreviation inTurn := (pollsInTurn StringToNumber env).
Local Abbreviation never_older := (neverOlder walletId rank).
Local Abbreviation growing := (Growing walletId rank).
Local Abbreviation never_rewound := (neverRewound walletId rank).

(** One poll under the id: the cursor stays or becomes the latest
    signature of the chain state. *)
Lemma poll_cursor_step connection userId wallet c :
  let c' :=
    cursorsAfter StringToNumber env connection userId walletId wallet c in
  c' !! walletId = c !! walletId \/
  exists latest, latestAt connection wallet = Some latest /\
                 c' !! walletId = Some latest.
Proof.
  intros c'. subst c'.
  destruct (poll_cursor_cases StringToNumber env connection userId walletId
              wallet c)
    as [(-> & _) | (first & rest & Hlatest & -> & _)].
  - left. reflexivity.
  - right. exists (SigInfo.signature first). unfold latestAt.
    rewrite Hlatest, lookup_insert_eq. auto.
Qed.

(** A poll under another id leaves the cursor. *)
Lemma poll_cursor_other connection userId w wallet c :
  w <> walletId ->
  cursorsAfter StringToNumber env connection userId w wallet c !! walletId
  = c !! walletId.
Proof.
  intros Hw.
  destruct (poll_cursor_cases StringToNumber env connection userId w
              wallet c)
    as [(-> & _) | (first & rest' & _ & -> & _)]; [reflexivity|].
  apply lookup_insert_ne. exact Hw.
Qed.

Lemma poll_cursor_under connection w c :
  let c' :=
    cursorsAfter StringToNumber env connection (ActiveWallet.userId w)
      (ActiveWallet.walletId w) (ActiveWallet.wallet w) c in
  c' !! walletId = c !! walletId \/
  exists latest, latestUnder walletId (connection, w) = Some latest /\
                 c' !! walletId = Some latest.
Proof.
  intros c'. subst c'. unfold latestUnder. cbn [fst snd].
  destruct (String.eqb_spec (ActiveWallet.walletId w) walletId) as [->|Hne].
  - apply poll_cursor_step.
  - left. apply poll_cursor_other. exact Hne.
Qed.

Lemma neverRewound_inTurn polls : forall c,
  growing polls ->
  (forall a, c !! walletId = Some a -> never_older a polls) ->
  never_rewound (c :: inTurn polls c).
Proof.
  induction polls as [|[connection w] rest IH]; intros c Hgrow Hbound.
  - intros [|i] [|j] ci cj a Hij Hi Hj Ha; simpl in *; try discriminate.
    exists a. split; [congruence|lia].
  - destruct Hgrow as (Hhead & Hrest). cbn [pollsInTurn].
    set (c' := cursorsAfter StringToNumber env connection
                 (ActiveWallet.userId w) (ActiveWallet.walletId w)
                 (ActiveWallet.wallet w) c).
    assert (Hbound' : forall a, c' !! walletId = Some a ->
                                never_older a rest).
    { intros a Ha.
      destruct (poll_cursor_under connection w c) as [Heq | (l & Hl & Hc')];
        fold c' in Heq || fold c' in Hc'.
      - rewrite Heq in Ha. specialize (Hbound a Ha).
        apply Forall_cons in Hbound. tauto.
      - assert (a = l) as -> by congruence. apply Hhead. exact Hl. }
    assert (Hstep : forall a, c !! walletId = Some a ->
                              exists b, c' !! walletId = Some b /\
                                        rank a <= rank b).
    { intros a Ha.
      destruct (poll_cursor_under connection w c) as [Heq | (l & Hl & Hc')];
        fold c' in Heq || fold c' in Hc'.
      - exists a. split; [congruence|lia].
      - exists l. split; [exact Hc'|].
        specialize (Hbound a Ha). apply Forall_cons in Hbound.
        destruct Hbound as (Hb & _). apply Hb. exact Hl. }
    specialize (IH c' Hrest Hbound').
    intros [|i] [|j] ci cj a Hij Hi Hj Ha; simpl in Hi, Hj.
    + exists a. split; [congruence|lia].
    + assert (ci = c) as -> by congruence.
      destruct (Hstep a Ha) as (a' & Ha' & Hle).
      destruct (IH 0%nat j c' cj a') as (b & Hb & Hle');
        [lia|reflexivity|exact Hj|exact Ha'|].
      exists b. split; [exact Hb|lia].
    + lia.
    + apply (IH i j ci cj a); [lia|exact Hi|exact Hj|exact Ha].
Qed.

End PollsInTurnProperties.

(** ** Claims about the differ *)

(** C5. Cold start: a watch with no stored cursor whose address has at
    least one signature gets its cursor set to the latest signature; no
    transaction is fetched and no notification is sent in that poll,
    whatever the history of the address. *)
Theorem cold_start_seeds_cursor
    (StringToNumber : string -> jsnum) (env : Env) (connection : Connection)
    (userId walletId : string) (wallet : Wallet.t) (c : Cursors)
    (first : SigInfo.t) (rest : list SigInfo.t) :
  validAddress connection (Wallet.address wallet) = true ->
  getSignaturesForAddress connection (Wallet.address wallet) 1
    = Ok (first :: rest) ->
  c !! walletId = None ->
  cursorsAfter StringToNumber env connection userId walletId wallet c
    !! walletId = Some (SigInfo.signature first) /\
  notifications
    (traceOf StringToNumber env connection userId walletId wallet c) = [] /\
  fetched
    (traceOf StringToNumber env connection userId walletId wallet c) = [].
Proof.
  intros Hvalid Hlatest Hnone.
  unfold cursorsAfter, traceOf.
  rewrite (poll_cold_start _ _ _ _ _ _ c first rest Hvalid Hlatest)
    by (rewrite Hnone; reflexivity).
  cbn [fst snd]. rewrite lookup_insert_eq. auto.
Qed.

(** C8. When the latest signature fetched equals the stored cursor, the
    poll fetches no transaction, sends no notification and leaves the
    cursor map as it is. *)
Theorem unchanged_latest_is_noop
    (StringToNumber : string -> jsnum) (env : Env) (connection : Connection)
    (userId walletId : string) (wallet : Wallet.t) (c : Cursors)
    (first : SigInfo.t) (rest : list SigInfo.t) :
  getSignaturesForAddress connection (Wallet.address wallet) 1
    = Ok (first :: rest) ->
  c !! walletId = Some (SigInfo.signature first) ->
  fetched
    (traceOf StringToNumber env connection userId walletId wallet c) = [] /\
  notifications
    (traceOf StringToNumber env connection userId walletId wallet c) = [] /\
  cursorsAfter StringToNumber env connection userId walletId wallet c = c.
Proof.
  intros Hlatest Hcursor.
  unfold cursorsAfter, traceOf.
  destruct (poll_path StringToNumber env connection userId walletId wallet c)
    as (c' & tr & -> & Hpath).
  cbn [fst snd].
  destruct Hpath; try (repeat split; reflexivity).
  - repeat split. apply insert_id. congruence.
  - exfalso.
    assert (first0 = first) as -> by congruence.
    rewrite Hcursor in *. simpl in *.
    rewrite String.eqb_refl in *. discriminate.
Qed.

(** C4. Chronological delivery: when the window of recent signatures is
    [news] (newest first) followed by the cursor, the transactions are
    fetched and processed in the order of [rev news], oldest first, and
    the notifications come from them in that order.  For
    [news = S3; S2; S1] that order is S1, S2, S3. *)
Theorem new_signatures_oldest_first
    (StringToNumber : string -> jsnum) (env : Env) (connection : Connection)
    (userId walletId : string) (wallet : Wallet.t) (c : Cursors)
    (first : SigInfo.t) (rest : list SigInfo.t) (last : string)
    (news : list SigInfo.t) (cursorInfo : SigInfo.t)
    (older : list SigInfo.t) :
  validAddress connection (Wallet.address wallet) = true ->
  getSignaturesForAddress connection (Wallet.address wallet) 1
    = Ok (first :: rest) ->
  c !! walletId = Some last ->
  last <> "" ->
  SigInfo.signature first <> last ->
  getSignaturesForAddress connection (Wallet.address wallet) 5
    = Ok (news ++ cursorInfo :: older) ->
  SigInfo.signature cursorInfo = last ->
  Forall (fun s => SigInfo.signature s <> last) news ->
  fetched (traceOf StringToNumber env connection userId walletId wallet c)
    = map SigInfo.signature (rev news) /\
  sublist
    (notified (traceOf StringToNumber env connection userId walletId wallet c))
    (map SigInfo.signature (rev news)).
Proof.
  intros Hvalid Hlatest Hcursor Hlast Hnew Hrecent Hc Hnews.
  unfold traceOf.
  rewrite (poll_processed _ _ _ _ _ _ c first rest
             (news ++ cursorInfo :: older) Hvalid Hlatest);
    [ | rewrite Hcursor; apply falsy_Some_false; exact Hlast
      | rewrite Hcursor; apply strict_eq_false; exact Hnew
      | exact Hrecent ].
  cbn [snd]. rewrite Hcursor, collectNew_until by assumption.
  rewrite fetched_processed_trace, notified_processed_trace.
  split; [reflexivity|]. apply notified_loopTrace_sublist.
Qed.

(** C6. Gap handling: when the stored cursor does not occur in the window
    fetched with limit 5, the poll does not throw and its catch handler
    does not run; exactly the transactions of the window are processed,
    oldest first, and the cursor is then set to the latest signature. *)
Theorem cursor_outside_window
    (StringToNumber : string -> jsnum) (env : Env) (connection : Connection)
    (userId walletId : string) (wallet : Wallet.t) (c : Cursors)
    (first : SigInfo.t) (rest : list SigInfo.t) (last : string)
    (recent : list SigInfo.t) :
  validAddress connection (Wallet.address wallet) = true ->
  getSignaturesForAddress connection (Wallet.address wallet) 1
    = Ok (first :: rest) ->
  c !! walletId = Some last ->
  last <> "" ->
  SigInfo.signature first <> last ->
  getSignaturesForAddress connection (Wallet.address wallet) 5 = Ok recent ->
  Forall (fun s => SigInfo.signature s <> last) recent ->
  outcome StringToNumber env connection userId walletId wallet c = Ok tt /\
  traceOf StringToNumber env connection userId walletId wallet c
    = [EGetSignatures (Wallet.address wallet) 1;
       EGetSignatures (Wallet.address wallet) 5]
      ++ loopTrace StringToNumber env connection userId wallet (rev recent)
      ++ [ESetCursor walletId (SigInfo.signature first)] /\
  fetched (traceOf StringToNumber env connection userId walletId wallet c)
    = map SigInfo.signature (rev recent) /\
  cursorsAfter StringToNumber env connection userId walletId wallet c
    !! walletId = Some (SigInfo.signature first).
Proof.
  intros Hvalid Hlatest Hcursor Hlast Hnew Hrecent Hout.
  unfold outcome, traceOf, cursorsAfter.
  rewrite (poll_processed _ _ _ _ _ _ c first rest recent Hvalid Hlatest);
    [ | rewrite Hcursor; apply falsy_Some_false; exact Hlast
      | rewrite Hcursor; apply strict_eq_false; exact Hnew
      | exact Hrecent ].
  cbn [fst snd]. rewrite Hcursor, collectNew_all by assumption.
  rewrite fetched_processed_trace, lookup_insert_eq. auto.
Qed.

Example poll_from_C0 :
  traceOf parseConfigured env0 chain "user" "w1" walletHalfToTwo
    {["w1" := "C0"]}
  = [EGetSignatures "Watched" 1; EGetSignatures "Watched" 5;
     EGetTransaction "S1"; ESendMessage "user" "main" (transferReceived "S1");
     ESleep 100;
     EGetTransaction "S2"; EError "fetch failed"; ESleep 100;
     EGetTransaction "S3"; ESendMessage "user" "main" (transferReceived "S3");
     ESleep 100;
     ESetCursor "w1" "S3"].
Proof. vm_compute. reflexivity. Qed.

Lemma cold_start_seeds_cursor_witness :
  cursorsAfter parseConfigured env0 chain "user" "w1" walletHalfToTwo ∅
    !! "w1" = Some "S3" /\
  notifications
    (traceOf parseConfigured env0 chain "user" "w1" walletHalfToTwo ∅) = [] /\
  fetched
    (traceOf parseConfigured env0 chain "user" "w1" walletHalfToTwo ∅) = [].
Proof.
  apply (cold_start_seeds_cursor parseConfigured env0 chain "user" "w1"
           walletHalfToTwo ∅ (sigOf "S3") []).
  - reflexivity.
  - reflexivity.
  - reflexivity.
Defined.

Lemma unchanged_latest_is_noop_witness :
  fetched (traceOf parseConfigured env0 chain "user" "w1" walletHalfToTwo
             {["w1" := "S3"]}) = [] /\
  notifications (traceOf parseConfigured env0 chain "user" "w1"
                   walletHalfToTwo {["w1" := "S3"]}) = [] /\
  cursorsAfter parseConfigured env0 chain "user" "w1" walletHalfToTwo
    {["w1" := "S3"]} = {["w1" := "S3"]}.
Proof.
  apply (unchanged_latest_is_noop parseConfigured env0 chain "user" "w1"
           walletHalfToTwo {["w1" := "S3"]} (sigOf "S3") []).
  - reflexivity.
  - reflexivity.
Defined.

Lemma new_signatures_oldest_first_witness :
  fetched (traceOf parseConfigured env0 chain "user" "w1" walletHalfToTwo
             {["w1" := "C0"]}) = ["S1"; "S2"; "S3"] /\
  sublist
    (notified (traceOf parseConfigured env0 chain "user" "w1" walletHalfToTwo
                 {["w1" := "C0"]}))
    ["S1"; "S2"; "S3"].
Proof.
  apply (new_signatures_oldest_first parseConfigured env0 chain "user" "w1"
           walletHalfToTwo {["w1" := "C0"]} (sigOf "S3") [] "C0"
           [sigOf "S3"; sigOf "S2"; sigOf "S1"] (sigOf "C0") [sigOf "H1"]).
  - reflexivity.
  - reflexivity.
  - reflexivity.
  - discriminate.
  - discriminate.
  - reflexivity.
  - reflexivity.
  - repeat constructor; discriminate.
Defined.

Example notified_from_C0 :
  notified (traceOf parseConfigured env0 chain "user" "w1" walletHalfToTwo
              {["w1" := "C0"]}) = ["S1"; "S3"].
Proof. vm_compute. reflexivity. Qed.

Lemma cursor_outside_window_witness :
  outcome parseConfigured env0 chain "user" "w1" walletHalfToTwo
    {["w1" := "Gone"]} = Ok tt /\
  traceOf parseConfigured env0 chain "user" "w1" walletHalfToTwo
    {["w1" := "Gone"]}
  = [EGetSignatures "Watched" 1; EGetSignatures "Watched" 5]
    ++ loopTrace parseConfigured env0 chain "user" walletHalfToTwo
         [sigOf "H1"; sigOf "C0"; sigOf "S1"; sigOf "S2"; sigOf "S3"]
    ++ [ESetCursor "w1" "S3"] /\
  fetched (traceOf parseConfigured env0 chain "user" "w1" walletHalfToTwo
             {["w1" := "Gone"]}) = ["H1"; "C0"; "S1"; "S2"; "S3"] /\
  cursorsAfter parseConfigured env0 chain "user" "w1" walletHalfToTwo
    {["w1" := "Gone"]} !! "w1" = Some "S3".
Proof.
  apply (cursor_outside_window parseConfigured env0 chain "user" "w1"
           walletHalfToTwo {["w1" := "Gone"]} (sigOf "S3") [] "Gone"
           (take 5 history)).
  - reflexivity.
  - reflexivity.
  - reflexivity.
  - discriminate.
  - discriminate.
  - reflexivity.
  - repeat constructor; discriminate.
Defined.

(** ** The cursor *)

(** The function is its two halves, one after the other. *)
Lemma checkWalletTransactions_split
    (StringToNumber : string -> jsnum) (env : Env) (connection : Connection)
    (userId walletId : string) (wallet : Wallet.t) (c : Cursors) :
  checkWalletTransactions StringToNumber env connection userId walletId
    wallet c
  = (let* suspended := pollBegin connection walletId wallet in
     match suspended with
     | None => ret tt
     | Some suspended =>
         pollEnd StringToNumber env connection userId walletId wallet
           suspended
     end) c.
Proof.
  unfold checkWalletTransactions, pollBegin, pollEnd, pollUntilWindow,
    pollFromWindow, newPublicKey.
  destruct (validAddress connection (Wallet.address wallet));
    [|reflexivity].
  run_monad.
  destruct (getSignaturesForAddress connection (Wallet.address wallet) 1)
    as [[|first rest]|e]; try reflexivity.
  destruct (falsy (c !! walletId)); [reflexivity|].
  destruct (strict_eq (SigInfo.signature first) (c !! walletId));
    [reflexivity|].
  cbn [publicKey latestSignature lastSignature].
  destruct (getSignaturesForAddress connection (Wallet.address wallet) 5)
    as [recent|e]; [|reflexivity].
  destruct (for_of _ _ c) as [[[[]|e] c'] t]; reflexivity.
Qed.

(** C9. Every write of the cursor by a poll of a watch, from any cursor
    map and against any chain state, is a write, under the watch's id, of
    the signature fetched as the latest in that poll: a poll keeps the
    cursor of the watch or makes it that signature, and a poll under
    another id leaves it.  Along polls that run one after the other, the
    latest signature fetched under the id never getting older from one
    poll to a later one (by [rank]), the cursor under the id is never
    removed and never gets an older value. *)
Theorem cursor_only_advances_to_latest
    (StringToNumber : string -> jsnum) (env : Env)
    (walletId : string) (rank : string -> Z)
    (polls : list (Connection * ActiveWallet.t)) (c : Cursors) :
  Growing walletId rank polls ->
  (forall a, c !! walletId = Some a -> neverOlder walletId rank a polls) ->
  (forall connection userId wallet ci w s,
     In (w, s)
        (cursorWrites
           (traceOf StringToNumber env connection userId walletId wallet ci))
     ->
     w = walletId /\ latestAt connection wallet = Some s) /\
  (forall connection userId wallet ci,
     cursorsAfter StringToNumber env connection userId walletId wallet ci
       !! walletId = ci !! walletId \/
     exists latest,
       latestAt connection wallet = Some latest /\
       cursorsAfter StringToNumber env connection userId walletId wallet ci
         !! walletId = Some latest) /\
  (forall connection userId w wallet ci,
     w <> walletId ->
     cursorsAfter StringToNumber env connection userId w wallet ci
       !! walletId = ci !! walletId) /\
  neverRewound walletId rank (c :: pollsInTurn StringToNumber env polls c).
Proof.
  intros Hgrow Hbound. split; [|split; [|split]].
  - intros connection userId wallet ci w s Hin.
    destruct (poll_cursor_cases StringToNumber env connection userId walletId
                wallet ci)
      as [(_ & Hwrites) | (first & rest & Hlatest & _ & Hwrites)];
      rewrite Hwrites in Hin.
    + destruct Hin.
    + destruct Hin as [[= <- <-]|[]]. split; [reflexivity|].
      unfold latestAt. rewrite Hlatest. reflexivity.
  - intros connection userId wallet ci.
    apply (poll_cursor_step StringToNumber env walletId connection userId
             wallet ci).
  - intros connection userId w wallet ci Hw.
    apply poll_cursor_other. exact Hw.
  - apply neverRewound_inTurn; assumption.
Qed.

(** A poll of the watch from the cursor C0, a poll of another watch, and
    a poll of the watch after S4 has landed. *)
Lemma cursor_only_advances_to_latest_witness :
  neverRewound "w1" (rankIn historyLater)
    ({["w1" := "C0"]}
     :: pollsInTurn parseConfigured env0
          [(chain, watch "user" "w1" walletHalfToTwo);
           (chainTwoAddresses, watch "other" "w2" walletElsewhere);
           (chainLater, watch "user" "w1" walletHalfToTwo)]
          {["w1" := "C0"]}).
Proof.
  apply (cursor_only_advances_to_latest parseConfigured env0 "w1"
           (rankIn historyLater)
           [(chain, watch "user" "w1" walletHalfToTwo);
            (chainTwoAddresses, watch "other" "w2" walletElsewhere);
            (chainLater, watch "user" "w1" walletHalfToTwo)]
           {["w1" := "C0"]}).
  - cbn [Growing]. split; [|split; [|split; [|exact I]]].
    + intros a [= <-]. constructor; [intros b [=]|].
      constructor; [|constructor].
      intros b [= <-]. vm_compute. discriminate.
    + intros a [=].
    + intros a _. constructor.
  - intros a [= <-]. constructor; [|constructor; [|constructor; [|constructor]]].
    + intros b [= <-]. vm_compute. discriminate.
    + intros b [=].
    + intros b [= <-]. vm_compute. discriminate.
Defined.

Example cursors_of_three_polls :
  map (fun c : Cursors => c !! "w1")
    (pollsInTurn parseConfigured env0
       [(chain, watch "user" "w1" walletHalfToTwo);
        (chainTwoAddresses, watch "other" "w2" walletElsewhere);
        (chainLater, watch "user" "w1" walletHalfToTwo)]
       {["w1" := "C0"]})
  = [Some "S3"; Some "S3"; Some "S4"].
Proof. vm_compute. reflexivity. Qed.

(** C9 (as stated) fails.  The poll made by one pass fetches S3 as the
    latest signature and is at the [await] of line 592 when the next pass
    polls the watch; S4 has landed, that poll ends with the cursor at S4,
    and the first poll, on resuming, writes the S3 that it holds: the
    cursor goes from S4 back to S3.  And of two watches that share the id
    w1, on two addresses, each poll of one writes over the cursor of the
    other: from S3 the cursor goes to T1, and the next poll of the first
    watch finds no cursor in its window and fetches the five transactions
    of the window again. *)
Lemma overlapping_polls_rewind_cursor :
  latestAt chain walletHalfToTwo = Some "S3" /\
  latestAt chainLater walletHalfToTwo = Some "S4" /\
  rankIn historyLater "S3" < rankIn historyLater "S4" /\
  map (fun c : Cursors => c !! "w1")
    (overlappingPolls parseConfigured env0 chain chainLater "user" "w1"
       walletHalfToTwo {["w1" := "C0"]})
  = [Some "C0"; Some "S4"; Some "S3"] /\
  map (fun c : Cursors => c !! "w1")
    (pollsInTurn parseConfigured env0
       [(chainTwoAddresses, watch "user" "w1" walletHalfToTwo);
        (chainTwoAddresses, watch "other" "w1" walletElsewhere);
        (chainTwoAddresses, watch "user" "w1" walletHalfToTwo)]
       {["w1" := "S3"]})
  = [Some "S3"; Some "T1"; Some "S3"] /\
  fetched (traceOf parseConfigured env0 chainTwoAddresses "user" "w1"
             walletHalfToTwo {["w1" := "T1"]})
  = ["H1"; "C0"; "S1"; "S2"; "S3"].
Proof.
  split; [reflexivity|]. split; [reflexivity|]. split; [reflexivity|].
  split; [vm_compute; reflexivity|]. split; vm_compute; reflexivity.
Qed.

(** ** Errors during a poll *)

(** C1 (as stated) fails: behind the rate limit the fetch of the window
    is rejected with a 429, the error is logged, and the cursor stays at
    C0 although the latest signature fetched is S3. *)
Lemma rejected_window_fetch_keeps_cursor :
  getSignaturesForAddress chainRateLimited "Watched" 1 = Ok [sigOf "S3"] /\
  getSignaturesForAddress chainRateLimited "Watched" 5
    = Throw "429 Too Many Requests" /\
  traceOf parseConfigured env0 chainRateLimited "user" "w1" walletHalfToTwo
    {["w1" := "C0"]}
  = [EGetSignatures "Watched" 1; EGetSignatures "Watched" 5;
     EError "429 Too Many Requests"] /\
  cursorsAfter parseConfigured env0 chainRateLimited "user" "w1"
    walletHalfToTwo {["w1" := "C0"]} !! "w1" = Some "C0" /\
  cursorsAfter parseConfigured env0 chainRateLimited "user" "w1"
    walletHalfToTwo {["w1" := "C0"]} !! "w1" <> Some "S3".
Proof.
  assert (H : cursorsAfter parseConfigured env0 chainRateLimited "user" "w1"
                walletHalfToTwo {["w1" := "C0"]} !! "w1" = Some "C0")
    by (vm_compute; reflexivity).
  repeat split; try exact H; try (vm_compute; reflexivity).
  rewrite H. discriminate.
Qed.

(** C1 (amended). (1) When the two signature fetches succeed, every
    transaction of the window is fetched; the error of each rejected
    transaction fetch is logged, and the cursor is written once, to the
    latest signature fetched.  (2, 3) When a signature fetch is rejected,
    the error is logged and the cursor map is left as it was.  (4) A poll
    writes the cursor at most once, and (5) a pass writes the cursor of
    each active watch at most once. *)
Theorem cursor_advance_under_fetch_errors
    (StringToNumber : string -> jsnum) (env : Env) (connection : Connection)
    (userId walletId : string) (wallet : Wallet.t) (c : Cursors) :
  (forall first rest last recent,
     validAddress connection (Wallet.address wallet) = true ->
     getSignaturesForAddress connection (Wallet.address wallet) 1
       = Ok (first :: rest) ->
     c !! walletId = Some last -> last <> "" ->
     SigInfo.signature first <> last ->
     getSignaturesForAddress connection (Wallet.address wallet) 5
       = Ok recent ->
     (forall sigInfo e,
        In sigInfo (collectNew (Some last) recent) ->
        getParsedTransaction connection (SigInfo.signature sigInfo)
          = Throw e ->
        In e (errors (traceOf StringToNumber env connection userId walletId
                        wallet c))) /\
     fetched (traceOf StringToNumber env connection userId walletId wallet c)
       = map SigInfo.signature (rev (collectNew (Some last) recent)) /\
     cursorWrites
       (traceOf StringToNumber env connection userId walletId wallet c)
       = [(walletId, SigInfo.signature first)] /\
     cursorsAfter StringToNumber env connection userId walletId wallet c
       = <[walletId := SigInfo.signature first]> c) /\
  (forall e,
     validAddress connection (Wallet.address wallet) = true ->
     getSignaturesForAddress connection (Wallet.address wallet) 1
       = Throw e ->
     errors (traceOf StringToNumber env connection userId walletId wallet c)
       = [e] /\
     cursorsAfter StringToNumber env connection userId walletId wallet c
       = c) /\
  (forall first rest last e,
     validAddress connection (Wallet.address wallet) = true ->
     getSignaturesForAddress connection (Wallet.address wallet) 1
       = Ok (first :: rest) ->
     c !! walletId = Some last -> last <> "" ->
     SigInfo.signature first <> last ->
     getSignaturesForAddress connection (Wallet.address wallet) 5
       = Throw e ->
     errors (traceOf StringToNumber env connection userId walletId wallet c)
       = [e] /\
     cursorsAfter StringToNumber env connection userId walletId wallet c
       = c) /\
  (length (cursorWrites
             (traceOf StringToNumber env connection userId walletId wallet c))
   <= 1)%nat /\
  (forall wallets,
     sublist
       (writtenIds
          (checkTransactions StringToNumber env connection wallets c).2)
       (map ActiveWallet.walletId (collectActive wallets))).
Proof.
  split; [|split; [|split; [|split]]].
  - intros first rest last recent Hvalid Hlatest Hcursor Hlast Hnew Hrecent.
    unfold traceOf, cursorsAfter.
    rewrite (poll_processed _ _ _ _ _ _ c first rest recent Hvalid Hlatest);
      [ | rewrite Hcursor; apply falsy_Some_false; exact Hlast
        | rewrite Hcursor; apply strict_eq_false; exact Hnew
        | exact Hrecent ].
    cbn [fst snd]. rewrite Hcursor.
    rewrite fetched_processed_trace, cursorWrites_processed_trace.
    split; [|auto].
    intros sigInfo e Hin Hthrow.
    rewrite !errors_app. apply in_or_app. right. apply in_or_app. left.
    apply (errors_loopTrace _ _ _ _ _ _ sigInfo); [|exact Hthrow].
    apply in_rev in Hin. exact Hin.
  - intros e Hvalid Hlatest. unfold traceOf, cursorsAfter.
    rewrite (poll_latest_throws _ _ _ _ _ _ c e Hvalid Hlatest). auto.
  - intros first rest last e Hvalid Hlatest Hcursor Hlast Hnew Hrecent.
    unfold traceOf, cursorsAfter.
    rewrite (poll_recent_throws _ _ _ _ _ _ c first rest e Hvalid Hlatest);
      [ auto
      | rewrite Hcursor; apply falsy_Some_false; exact Hlast
      | rewrite Hcursor; apply strict_eq_false; exact Hnew
      | exact Hrecent ].
  - destruct (poll_cursor_cases StringToNumber env connection userId walletId
                wallet c)
      as [(_ & ->) | (first & rest & _ & _ & ->)]; simpl; lia.
  - intros wallets.
    destruct (checkTransactions_returns StringToNumber env connection
                wallets c) as (c' & tr & -> & Hs).
    exact Hs.
Qed.

Lemma cursor_advance_under_fetch_errors_witness :
  In "fetch failed"
    (errors (traceOf parseConfigured env0 chain "user" "w1" walletHalfToTwo
               {["w1" := "C0"]})) /\
  cursorWrites (traceOf parseConfigured env0 chain "user" "w1"
                  walletHalfToTwo {["w1" := "C0"]}) = [("w1", "S3")] /\
  cursorsAfter parseConfigured env0 chainRateLimited "user" "w1"
    walletHalfToTwo {["w1" := "C0"]} = {["w1" := "C0"]}.
Proof.
  destruct (cursor_advance_under_fetch_errors parseConfigured env0 chain
              "user" "w1" walletHalfToTwo {["w1" := "C0"]})
    as (Htx & _ & _ & _ & _).
  destruct (cursor_advance_under_fetch_errors parseConfigured env0
              chainRateLimited "user" "w1" walletHalfToTwo {["w1" := "C0"]})
    as (_ & _ & Hwindow & _ & _).
  destruct (Htx (sigOf "S3") [] "C0" (take 5 history))
    as (Hlogged & _ & Hwrites & _);
    [reflexivity|reflexivity|reflexivity|discriminate|discriminate
    |reflexivity|].
  destruct (Hwindow (sigOf "S3") [] "C0" "429 Too Many Requests")
    as (_ & Hkept);
    [reflexivity|reflexivity|reflexivity|discriminate|discriminate
    |reflexivity|].
  split; [|split].
  - apply (Hlogged (sigOf "S2")); [|reflexivity].
    right. left. reflexivity.
  - exact Hwrites.
  - exact Hkept.
Defined.

(** ** Overlapping passes *)

Example passSleep_value : passSleep = 16000.
Proof. vm_compute. reflexivity. Qed.

Lemma running_true duration t k :
  running duration t k = true <->
  startedAt k <= t /\ t < startedAt k + duration k.
Proof.
  unfold running. rewrite andb_true_iff, Z.leb_le, Z.ltb_lt. reflexivity.
Qed.

Lemma filter_none {A} (f : A -> bool) (l : list A) :
  (forall x, In x l -> f x = false) -> List.filter f l = [].
Proof.
  induction l as [|x l IH]; intros H; [reflexivity|].
  simpl. rewrite (H x) by (left; reflexivity).
  apply IH. intros y Hy. apply H. right. exact Hy.
Qed.

Lemma filter_at_most_one {A} (f : A -> bool) (a : A) (l : list A) :
  List.NoDup l ->
  (forall x, In x l -> f x = true -> x = a) ->
  (length (List.filter f l) <= 1)%nat.
Proof.
  induction 1 as [|x l Hx Hnd IH]; intros Hall; [simpl; lia|].
  simpl. destruct (f x) eqn:Hfx.
  - rewrite filter_none; [simpl; lia|].
    intros y Hy. destruct (f y) eqn:Hfy; [|reflexivity].
    exfalso. apply Hx.
    rewrite (Hall x) by (auto; left; reflexivity).
    rewrite <- (Hall y); auto. right. exact Hy.
  - apply IH. intros y Hy. apply Hall. right. exact Hy.
Qed.

(** C2 (as stated) fails: a pass over 49 active wallets sleeps 16 s
    between its batches, longer than the interval of 15 s; 30 s after
    [start] the pass of the first tick is still in flight when the second
    tick starts another one. *)
Lemma second_pass_overlaps :
  INTERVAL < passSleep /\ inFlight (fun _ => passSleep) 30000 = 2%nat.
Proof.
  split; vm_compute; reflexivity.
Qed.

(** C2 (amended). The interval timer starts a pass at every tick without
    looking at the earlier ones: at most one pass is in flight at any time
    exactly when every pass settles within the interval of 15000 ms. *)
Theorem single_pass_iff_within_interval (duration : nat -> Z) :
  (forall k, 0 < duration k) ->
  (forall t, (inFlight duration t <= 1)%nat) <->
  (forall k, duration k <= INTERVAL).
Proof.
  intros Hpos. split.
  - intros Hone k.
    destruct (Z_le_gt_dec (duration k) INTERVAL) as [Hle|Hgt]; [exact Hle|].
    exfalso. specialize (Hone (startedAt (S k))).
    unfold inFlight, start in Hone.
    replace (Z.to_nat (startedAt (S k) / INTERVAL)) with (k + 2)%nat in Hone.
    2:{ unfold startedAt. rewrite Z.div_mul by (unfold INTERVAL; lia). lia. }
    rewrite seq_app, List.filter_app, length_app in Hone.
    cbn [seq List.filter Nat.add] in Hone.
    assert (Hk : running duration (startedAt (S k)) k = true).
    { apply running_true. unfold startedAt, INTERVAL in *. lia. }
    assert (HSk : running duration (startedAt (S k)) (S k) = true).
    { apply running_true. specialize (Hpos (S k)). lia. }
    rewrite Hk, HSk in Hone. simpl in Hone. lia.
  - intros Hle t. unfold inFlight, start.
    apply (filter_at_most_one _ (Z.to_nat (t / INTERVAL) - 1)%nat).
    + apply List.seq_NoDup.
    + intros k _ Hk. apply running_true in Hk.
      specialize (Hle k). unfold startedAt, INTERVAL in *.
      assert (t / 15000 = Z.of_nat k + 1); [|lia].
      symmetry. apply (Z.div_unique t 15000 _ (t - 15000 * (Z.of_nat k + 1)));
        lia.
Qed.

Lemma single_pass_iff_within_interval_witness :
  (forall t, (inFlight (fun _ => 2000%Z) t <= 1)%nat) <->
  (forall k : nat, 2000 <= INTERVAL).
Proof.
  apply (single_pass_iff_within_interval (fun _ => 2000)).
  intros k. reflexivity.
Defined.

(** * Further properties *)

(** ** The analyzer and the filter *)

Lemma findWalletIndex_none walletAddress keys : forall i,
  findWalletIndex walletAddress i keys = None <->
  forall j, keys !! j <> Some walletAddress.
Proof.
  induction keys as [|k keys IH]; intros i; cbn [findWalletIndex].
  - split; [intros _ j; discriminate|reflexivity].
  - destruct (String.eqb_spec k walletAddress) as [->|Hne].
    + split; [discriminate|]. intros H. destruct (H 0%nat). reflexivity.
    + rewrite IH. split.
      * intros H [|j]; simpl; [congruence|apply H].
      * intros H j. apply (H (S j)).
Qed.

(** X1. Data-shape cases are not failures: when the transaction behind a
    signature is unavailable, has no [meta], does not list the watched
    address, or changes its balance by less than 1000 lamports, processing
    the signature fetches the transaction and does nothing else: no
    notification is sent and no error is logged. *)
Theorem processTransaction_irrelevant
    (StringToNumber : string -> jsnum) (env : Env) (connection : Connection)
    (userId : string) (wallet : Wallet.t) (sigInfo : SigInfo.t) :
  Irrelevant connection (Wallet.address wallet) (SigInfo.signature sigInfo) ->
  processTrace StringToNumber env connection userId wallet sigInfo
  = [EGetTransaction (SigInfo.signature sigInfo)].
Proof.
  intros Hirr. unfold processTrace, processTransaction. run_monad.
  destruct Hirr as [Hget | tx Hget Hmeta | tx meta Hget Hmeta Hkeys
                   | tx meta w d Hget Hmeta Hw Hfirst Hd Hdust];
    rewrite Hget; try reflexivity.
  - rewrite Hmeta. reflexivity.
  - rewrite Hmeta. unfold analyzeSolTransaction. rewrite Hmeta.
    assert (findWalletIndex (Wallet.address wallet) 0 (Tx.accountKeys tx)
            = None) as -> by (apply findWalletIndex_none; exact Hkeys).
    reflexivity.
  - rewrite Hmeta. unfold analyzeSolTransaction. rewrite Hmeta.
    assert (findWalletIndex (Wallet.address wallet) 0 (Tx.accountKeys tx)
            = Some w) as -> by (apply findWalletIndex_first; auto).
    fold (change meta w). rewrite (dust_exact meta w d Hd).
    assert ((Z.abs d <? 1000) = true) as -> by (apply Z.ltb_lt; exact Hdust).
    reflexivity.
Qed.

(** A change of 500 lamports of the watched balance. *)
Lemma processTransaction_irrelevant_witness :
  processTrace parseConfigured env0
    {| validAddress := fun _ => true;
       getSignaturesForAddress := fun _ _ => Ok [];
       getParsedTransaction := fun _ => Ok (Some (tx_change 500));
       sendMessage := fun _ _ _ => Ok tt |}
    "user" walletHalfToTwo (sigOf "S1")
  = [EGetTransaction "S1"].
Proof.
  apply processTransaction_irrelevant.
  apply (IrrelevantDust _ _ _ (tx_change 500)
           {| Tx.preBalances := [5000000; 0];
              Tx.postBalances := [5000000 - 500; 500] |} 1%nat 500).
  - reflexivity.
  - reflexivity.
  - reflexivity.
  - intros [|j] Hj; [simpl; discriminate|lia].
  - reflexivity.
  - reflexivity.
Defined.

(** X2. Every transfer the analyzer produces is about the first account
    whose key is the watched address.  Its amount is the magnitude of the
    balance change of that account as the program computes it, a double,
    and is not below 1000; its direction is "incoming" when that change
    is above zero and "outgoing" otherwise; its signature is the first
    signature of the transaction.  When a balance of the account is
    absent the amount is NaN and the direction "outgoing".  When both are
    present and differ by [d], the change is the double nearest to [d]
    (the amount is the magnitude of [d] up to [2^53]), [d] is not below
    1000 in magnitude, and the direction is "incoming" exactly for a
    positive [d] and "outgoing" exactly for a negative one. *)
Theorem analyzeSolTransaction_transfer
    (env : Env) (transaction : Tx.t) (walletAddress : string)
    (transfer : Transfer.t) :
  analyzeSolTransaction env transaction walletAddress = Ok (Some transfer) ->
  exists meta w,
    Tx.meta transaction = Some meta /\
    Tx.accountKeys transaction !! w = Some walletAddress /\
    (forall j, (j < w)%nat ->
               Tx.accountKeys transaction !! j <> Some walletAddress) /\
    Transfer.amount transfer = num_abs (change meta w) /\
    num_lt (Transfer.amount transfer) (Finite 1000) = false /\
    Transfer.direction transfer
    = (if num_gt (change meta w) (Finite 0) then "incoming"
       else "outgoing") /\
    Transfer.signature transfer = Tx.signatures transaction !! 0%nat /\
    (delta meta w = None ->
     Transfer.amount transfer = NaN /\
     Transfer.direction transfer = "outgoing") /\
    forall d, delta meta w = Some d ->
      change meta w = round (inject_Z d) /\
      (Z.abs d <= 2 ^ 53 -> Transfer.amount transfer = of_Z (Z.abs d)) /\
      1000 <= Z.abs d /\
      (Transfer.direction transfer = "incoming" <-> 0 < d) /\
      (Transfer.direction transfer = "outgoing" <-> d < 0).
Proof.
  unfold analyzeSolTransaction.
  destruct (Tx.meta transaction) as [meta|]; [|discriminate].
  destruct (findWalletIndex walletAddress 0 (Tx.accountKeys transaction))
    as [w|] eqn:Hidx; [|discriminate].
  apply findWalletIndex_first in Hidx. destruct Hidx as (Hw & Hfirst).
  fold (change meta w).
  destruct (num_lt (num_abs (change meta w)) (Finite 1000)) eqn:Hdust;
    [discriminate|].
  intros [= <-]. exists meta, w. cbn [Transfer.amount Transfer.signature
                                      Transfer.direction].
  repeat (split; [assumption || reflexivity|]).
  split.
  - intros Hnone. rewrite (change_absent meta w Hnone). split; reflexivity.
  - intros d Hd. pose proof (change_of_delta meta w d Hd) as Hch.
    split; [exact Hch|].
    rewrite (dust_exact meta w d Hd) in Hdust. apply Z.ltb_ge in Hdust.
    destruct (round_sign_Z d) as (Hgt & _). cbn [num_gt num_lt] in Hgt.
    rewrite Hch, Hgt. split; [|split; [exact Hdust|]].
    + intros Hle. rewrite (round_integer d Hle). reflexivity.
    + destruct (Z.ltb_spec 0 d) as [Hpos|Hneg]; split; split;
        try discriminate; try reflexivity; try lia.
Qed.

Lemma analyzeSolTransaction_transfer_witness :
  exists meta w,
    Tx.meta tx_incoming = Some meta /\
    Tx.accountKeys tx_incoming !! w = Some "Watched" /\
    (forall j, (j < w)%nat -> Tx.accountKeys tx_incoming !! j <> Some "Watched")
    /\ of_Z 2000000 = num_abs (change meta w) /\
    num_lt (of_Z 2000000) (Finite 1000) = false /\
    "incoming"
    = (if num_gt (change meta w) (Finite 0) then "incoming" else "outgoing")
    /\ Some "sig1" = Tx.signatures tx_incoming !! 0%nat /\
    (delta meta w = None -> of_Z 2000000 = NaN /\ "incoming" = "outgoing") /\
    forall d, delta meta w = Some d ->
      change meta w = round (inject_Z d) /\
      (Z.abs d <= 2 ^ 53 -> of_Z 2000000 = of_Z (Z.abs d)) /\
      1000 <= Z.abs d /\
      ("incoming" = "incoming" <-> 0 < d) /\
      ("incoming" = "outgoing" <-> d < 0).
Proof.
  apply (analyzeSolTransaction_transfer env0 tx_incoming "Watched"
           {| Transfer.signature := Some "sig1";
              Transfer.amount := of_Z 2000000;
              Transfer.direction := "incoming";
              Transfer.timestamp := of_Z 1700000000000;
              Transfer.receiver_sender := Some "Sender" |}).
  vm_compute. reflexivity.
Defined.

(** A transaction that lists the watched address without its balance
    after the transaction is reported as an outgoing transfer of NaN
    lamports. *)
Example analyzeSolTransaction_without_balance :
  analyzeSolTransaction env0
    {| Tx.meta := Some {| Tx.preBalances := [5000000; 7];
                          Tx.postBalances := [5000000] |};
       Tx.accountKeys := ["Sender"; "Watched"];
       Tx.signatures := ["sig4"];
       Tx.blockTime := None |} "Watched"
  = Ok (Some {| Transfer.signature := Some "sig4";
                Transfer.amount := NaN;
                Transfer.direction := "outgoing";
                Transfer.timestamp := Finite 0;
                Transfer.receiver_sender := None |}).
Proof. reflexivity. Qed.

(** X4. Direction filter: a wallet whose stored direction is neither the
    string 'both' nor the direction of the transfer (a boolean or a
    missing value included) gets no notification, whatever the amount. *)
Theorem shouldNotify_direction_mismatch
    (StringToNumber : string -> jsnum) (env : Env)
    (transfer : Transfer.t) (wallet : Wallet.t) :
  Wallet.direction wallet <> JStr "both" ->
  Wallet.direction wallet <> JStr (Transfer.direction transfer) ->
  shouldNotify StringToNumber env transfer wallet = false.
Proof.
  intros Hboth Hdir. unfold shouldNotify.
  assert (Hcheck : strict_ne_str (Wallet.direction wallet) "both"
                   && strict_ne_str (Wallet.direction wallet)
                        (Transfer.direction transfer) = true).
  { apply not_false_iff_true. intros H.
    apply direction_check_false in H. tauto. }
  rewrite Hcheck.
  destruct (lt_val _ _ _); [reflexivity|].
  destruct (ToBoolean (Wallet.minAmount wallet) && _); [reflexivity|].
  destruct (ToBoolean (Wallet.maxAmount wallet) && _); reflexivity.
Qed.

Lemma shouldNotify_direction_mismatch_witness :
  shouldNotify parseConfigured env0 (transferOf 1000000000 "outgoing")
    walletIncomingOnly = false /\
  shouldNotify parseConfigured env0 (transferOf 1000000000 "incoming")
    walletIncomingOnly = true.
Proof.
  split.
  - apply shouldNotify_direction_mismatch; discriminate.
  - reflexivity.
Defined.

(** X5. The floor is only enforced when it is configured: with
    MINIMUM_SOL_THRESHOLD unset, a wallet without a minimum and a maximum
    whose direction is 'both' is notified of every transfer, however
    small. *)
Theorem shouldNotify_without_configured_floor
    (StringToNumber : string -> jsnum) (env : Env)
    (transfer : Transfer.t) (wallet : Wallet.t) :
  MINIMUM_SOL_THRESHOLD env = None ->
  ToBoolean (Wallet.minAmount wallet) = false ->
  ToBoolean (Wallet.maxAmount wallet) = false ->
  Wallet.direction wallet = JStr "both" ->
  shouldNotify StringToNumber env transfer wallet = true.
Proof.
  intros Henv Hmin Hmax Hdir. unfold shouldNotify.
  rewrite Henv, Hmin, Hmax, Hdir. cbn [of_env].
  unfold lt_val, ToNumber, num_lt.
  destruct (div_1e9 (Transfer.amount transfer)); reflexivity.
Qed.

Lemma shouldNotify_without_configured_floor_witness :
  shouldNotify parseConfigured envUnset (transferOf 1000 "incoming")
    walletCreatedUnset = true.
Proof.
  apply shouldNotify_without_configured_floor; reflexivity.
Defined.

(** X6. A wallet whose set minimum exceeds its set maximum is never
    notified of a transfer with a numeric amount. *)
Theorem shouldNotify_min_above_max
    (StringToNumber : string -> jsnum) (env : Env)
    (transfer : Transfer.t) (wallet : Wallet.t) (a m M : Q) :
  amountSOL transfer = Finite a ->
  ToBoolean (Wallet.minAmount wallet) = true ->
  ToNumber StringToNumber (Wallet.minAmount wallet) = Finite m ->
  ToBoolean (Wallet.maxAmount wallet) = true ->
  ToNumber StringToNumber (Wallet.maxAmount wallet) = Finite M ->
  (M < m)%Q ->
  shouldNotify StringToNumber env transfer wallet = false.
Proof.
  intros Ha Hmin Hm Hmax HM Hlt. apply not_true_iff_false. intros H.
  apply (shouldNotify_true_iff _ _ _ _ a Ha) in H.
  destruct H as (_ & Hmin' & Hmax' & _).
  specialize (Hmin' Hmin). specialize (Hmax' Hmax).
  rewrite Hm in Hmin'. rewrite HM in Hmax'. cbn [notBelow notAbove] in *.
  apply (Qlt_irrefl M). eapply Qlt_le_trans; [exact Hlt|].
  eapply Qle_trans; eassumption.
Qed.

Lemma shouldNotify_min_above_max_witness :
  shouldNotify parseConfigured env0 (transferOf 3000000000 "incoming")
    walletMinAboveMax = false.
Proof.
  apply (shouldNotify_min_above_max parseConfigured env0 _ _ 3%Q 5%Q 2%Q);
    [vm_compute; reflexivity|reflexivity..].
Defined.

(** ** One poll *)

Lemma strict_eq_refl s : strict_eq s (Some s) = true.
Proof. simpl. apply String.eqb_refl. Qed.

(** The entries the scan keeps are not the cursor, and are a prefix of the
    window. *)
Lemma collectNew_not_cursor last recent :
  Forall (fun s => SigInfo.signature s <> last) (collectNew (Some last) recent).
Proof.
  induction recent as [|s recent IH]; simpl; [constructor|].
  destruct (String.eqb_spec (SigInfo.signature s) last); constructor; auto.
Qed.

Lemma collectNew_length lastSignature recent :
  (length (collectNew lastSignature recent) <= length recent)%nat.
Proof.
  induction recent as [|s recent IH]; simpl; [lia|].
  destruct (strict_eq _ _); simpl; lia.
Qed.

Section PollAgreement.

Variable StringToNumber : string -> jsnum.
Variable env : Env.
Variable userId walletId : string.
Variable wallet : Wallet.t.

Local Abbreviation path_of connection :=
  (Path StringToNumber env connection userId walletId wallet).
Local Abbreviation after_of connection :=
  (cursorsAfter StringToNumber env connection userId walletId wallet).
Local Abbreviation trace_of connection :=
  (traceOf StringToNumber env connection userId walletId wallet).

(** Two polls of the watch that see the same address validity, the same
    answers to the signature fetches and the same stored cursor do the
    same to the cursor. *)
Lemma path_cursor_agree connection connection' c c' c1 t1 c2 t2 :
  validAddress connection (Wallet.address wallet)
    = validAddress connection' (Wallet.address wallet) ->
  (forall limit,
     getSignaturesForAddress connection (Wallet.address wallet) limit
     = getSignaturesForAddress connection' (Wallet.address wallet) limit) ->
  c !! walletId = c' !! walletId ->
  path_of connection c c1 t1 ->
  path_of connection' c' c2 t2 ->
  (c1 = c /\ c2 = c') \/
  (exists s, c1 = <[walletId := s]> c /\ c2 = <[walletId := s]> c').
Proof.
  intros Hvalid Hsigs Hcur Hp1 Hp2.
  destruct Hp1; destruct Hp2;
    rewrite ?Hvalid, ?Hsigs, ?Hcur in *; try congruence;
    try (left; split; reflexivity);
    right; exists (SigInfo.signature first);
    (split; [reflexivity|congruence]).
Qed.

(** Against one chain state, the trace of a poll depends on the cursor map
    through the cursor of the watch only. *)
Lemma path_trace_agree connection c c' c1 t1 c2 t2 :
  c !! walletId = c' !! walletId ->
  path_of connection c c1 t1 ->
  path_of connection c' c2 t2 ->
  t1 = t2.
Proof.
  intros Hcur Hp1 Hp2.
  destruct Hp1; destruct Hp2; rewrite ?Hcur in *; congruence.
Qed.

Lemma cursorsAfter_agree connection connection' c c' :
  validAddress connection (Wallet.address wallet)
    = validAddress connection' (Wallet.address wallet) ->
  (forall limit,
     getSignaturesForAddress connection (Wallet.address wallet) limit
     = getSignaturesForAddress connection' (Wallet.address wallet) limit) ->
  c !! walletId = c' !! walletId ->
  (after_of connection c = c /\ after_of connection' c' = c') \/
  (exists s, after_of connection c = <[walletId := s]> c /\
             after_of connection' c' = <[walletId := s]> c').
Proof.
  intros Hvalid Hsigs Hcur. unfold cursorsAfter.
  destruct (poll_path StringToNumber env connection userId walletId wallet c)
    as (c1 & t1 & -> & Hp1).
  destruct (poll_path StringToNumber env connection' userId walletId wallet c')
    as (c2 & t2 & -> & Hp2).
  cbn [fst snd].
  exact (path_cursor_agree connection connection' c c' c1 t1 c2 t2
           Hvalid Hsigs Hcur Hp1 Hp2).
Qed.

Lemma traceOf_agree connection c c' :
  c !! walletId = c' !! walletId ->
  trace_of connection c = trace_of connection c'.
Proof.
  intros Hcur. unfold traceOf.
  destruct (poll_path StringToNumber env connection userId walletId wallet c)
    as (c1 & t1 & -> & Hp1).
  destruct (poll_path StringToNumber env connection userId walletId wallet c')
    as (c2 & t2 & -> & Hp2).
  cbn [snd]. exact (path_trace_agree connection c c' c1 t1 c2 t2 Hcur Hp1 Hp2).
Qed.

End PollAgreement.

(** X7. The cursor a poll leaves depends on the address validity, the
    answers to the two signature fetches and the stored cursor only: two
    chain clients that agree on those leave the same cursor map, whatever
    the transactions contain and whether the notifications are
    delivered. *)
Theorem cursor_ignores_transactions_and_delivery
    (StringToNumber : string -> jsnum) (env : Env)
    (connection connection' : Connection)
    (userId walletId : string) (wallet : Wallet.t) (c : Cursors) :
  validAddress connection (Wallet.address wallet)
    = validAddress connection' (Wallet.address wallet) ->
  (forall limit,
     getSignaturesForAddress connection (Wallet.address wallet) limit
     = getSignaturesForAddress connection' (Wallet.address wallet) limit) ->
  cursorsAfter StringToNumber env connection userId walletId wallet c
  = cursorsAfter StringToNumber env connection' userId walletId wallet c.
Proof.
  intros Hvalid Hsigs.
  destruct (cursorsAfter_agree StringToNumber env userId walletId wallet
              connection connection' c c Hvalid Hsigs eq_refl)
    as [(-> & ->) | (s & -> & ->)]; reflexivity.
Qed.

Lemma cursor_ignores_transactions_and_delivery_witness :
  cursorsAfter parseConfigured env0 chain "user" "w1" walletHalfToTwo
    {["w1" := "C0"]}
  = cursorsAfter parseConfigured env0 chainDeaf "user" "w1" walletHalfToTwo
      {["w1" := "C0"]}.
Proof.
  apply cursor_ignores_transactions_and_delivery.
  - reflexivity.
  - intros limit. reflexivity.
Defined.

(** X8. A poll repeated against an unchanged chain state is quiet: it
    fetches no transaction, sends no notification, and leaves the cursor
    map of the first poll. *)
Theorem repeated_poll_is_quiet
    (StringToNumber : string -> jsnum) (env : Env) (connection : Connection)
    (userId walletId : string) (wallet : Wallet.t) (c : Cursors) :
  let c1 :=
    cursorsAfter StringToNumber env connection userId walletId wallet c in
  fetched (traceOf StringToNumber env connection userId walletId wallet c1)
    = [] /\
  notifications
    (traceOf StringToNumber env connection userId walletId wallet c1) = [] /\
  cursorsAfter StringToNumber env connection userId walletId wallet c1 = c1.
Proof.
  intros c1. subst c1. unfold cursorsAfter, traceOf.
  destruct (poll_path StringToNumber env connection userId walletId wallet c)
    as (c1 & t1 & -> & Hp1).
  cbn [fst snd].
  destruct (poll_path StringToNumber env connection userId walletId wallet c1)
    as (c2 & t2 & -> & Hp2).
  cbn [fst snd].
  assert (Hquiet : forall first rest,
            getSignaturesForAddress connection (Wallet.address wallet) 1
              = Ok (first :: rest) ->
            c1 !! walletId = Some (SigInfo.signature first) ->
            fetched t2 = [] /\ notifications t2 = [] /\ c2 = c1).
  { intros first rest Hlatest Hcur.
    destruct Hp2; try (repeat split; reflexivity); try congruence.
    - repeat split. apply insert_id. congruence.
    - exfalso. assert (first0 = first) as -> by congruence.
      rewrite Hcur, strict_eq_refl in *. discriminate. }
  destruct Hp1.
  - destruct Hp2; try congruence. repeat split; reflexivity.
  - destruct Hp2; try congruence. repeat split; reflexivity.
  - destruct Hp2; try congruence. repeat split; reflexivity.
  - apply (Hquiet first rest); [assumption|apply lookup_insert_eq].
  - destruct Hp2; try congruence; repeat split; reflexivity.
  - destruct Hp2; try congruence; repeat split; reflexivity.
  - apply (Hquiet first rest); [assumption|apply lookup_insert_eq].
Qed.

Example repeated_poll_on_chain :
  traceOf parseConfigured env0 chain "user" "w1" walletHalfToTwo
    (cursorsAfter parseConfigured env0 chain "user" "w1" walletHalfToTwo
       {["w1" := "C0"]})
  = [EGetSignatures "Watched" 1].
Proof. vm_compute. reflexivity. Qed.

(** X9. A poll never fetches the transaction its cursor points at, and
    fetches at most 5 transactions when the chain client honours the
    limit of the fetch of the window. *)
Theorem poll_fetches_within_window
    (StringToNumber : string -> jsnum) (env : Env) (connection : Connection)
    (userId walletId : string) (wallet : Wallet.t) (c : Cursors) :
  (forall recent,
     getSignaturesForAddress connection (Wallet.address wallet) 5
       = Ok recent ->
     (length recent <= 5)%nat) ->
  (forall last,
     c !! walletId = Some last ->
     ~ In last
         (fetched
            (traceOf StringToNumber env connection userId walletId wallet c)))
  /\
  (length
     (fetched (traceOf StringToNumber env connection userId walletId wallet c))
   <= 5)%nat.
Proof.
  intros Hlimit. unfold traceOf.
  destruct (poll_path StringToNumber env connection userId walletId wallet c)
    as (c1 & t1 & -> & Hp1).
  cbn [snd].
  destruct Hp1; try (split; [intros last _ []|simpl; lia]).
  rewrite fetched_processed_trace. split.
  - intros last Hcur Hin. rewrite Hcur in Hin.
    apply in_map_iff in Hin. destruct Hin as (s & Hs & Hin).
    apply in_rev in Hin.
    pose proof (collectNew_not_cursor last recent) as Hall.
    rewrite Forall_forall in Hall.
    apply list_elem_of_In in Hin. apply (Hall s Hin Hs).
  - rewrite length_map, length_rev.
    pose proof (collectNew_length (c !! walletId) recent).
    specialize (Hlimit recent ltac:(assumption)). lia.
Qed.

Lemma poll_fetches_within_window_witness :
  ~ In "C0"
      (fetched (traceOf parseConfigured env0 chain "user" "w1"
                  walletHalfToTwo {["w1" := "C0"]})) /\
  (length (fetched (traceOf parseConfigured env0 chain "user" "w1"
                      walletHalfToTwo {["w1" := "C0"]})) <= 5)%nat.
Proof.
  destruct (poll_fetches_within_window parseConfigured env0 chain "user" "w1"
              walletHalfToTwo {["w1" := "C0"]}) as (Hnot & Hlen).
  - intros recent [= <-]. simpl. lia.
  - split; [apply Hnot; reflexivity|exact Hlen].
Defined.

(** X10. Polls of two different watches commute: either order leaves the
    same cursor map, and the trace of each poll is the same whether the
    other watch was polled before it or not. *)
Theorem polls_of_distinct_watches_commute
    (StringToNumber : string -> jsnum) (env : Env) (connection : Connection)
    (userA idA : string) (walletA : Wallet.t)
    (userB idB : string) (walletB : Wallet.t) (c : Cursors) :
  idA <> idB ->
  let afterA := cursorsAfter StringToNumber env connection userA idA walletA in
  let afterB := cursorsAfter StringToNumber env connection userB idB walletB in
  afterA (afterB c) = afterB (afterA c) /\
  traceOf StringToNumber env connection userA idA walletA (afterB c)
    = traceOf StringToNumber env connection userA idA walletA c /\
  traceOf StringToNumber env connection userB idB walletB (afterA c)
    = traceOf StringToNumber env connection userB idB walletB c.
Proof.
  intros Hne afterA afterB.
  assert (HA : afterA c !! idB = c !! idB).
  { subst afterA.
    destruct (poll_cursor_cases StringToNumber env connection userA idA
                walletA c) as [(-> & _) | (f & r & _ & -> & _)];
      [reflexivity|apply lookup_insert_ne; exact Hne]. }
  assert (HB : afterB c !! idA = c !! idA).
  { subst afterB.
    destruct (poll_cursor_cases StringToNumber env connection userB idB
                walletB c) as [(-> & _) | (f & r & _ & -> & _)];
      [reflexivity|apply lookup_insert_ne; congruence]. }
  split; [|split].
  - destruct (cursorsAfter_agree StringToNumber env userA idA walletA
                connection connection (afterB c) c eq_refl
                (fun _ => eq_refl) HB) as [(EA1 & EA2) | (s & EA1 & EA2)];
    destruct (cursorsAfter_agree StringToNumber env userB idB walletB
                connection connection (afterA c) c eq_refl
                (fun _ => eq_refl) HA) as [(EB1 & EB2) | (s' & EB1 & EB2)];
    fold afterA in EA1, EA2; fold afterB in EB1, EB2;
    rewrite EA1, EB1, ?EA2, ?EB2; try reflexivity.
    apply insert_insert_ne. exact Hne.
  - apply traceOf_agree. exact HB.
  - apply traceOf_agree. exact HA.
Qed.

Lemma polls_of_distinct_watches_commute_witness :
  cursorsAfter parseConfigured env0 chain "user" "w1" walletHalfToTwo
    (cursorsAfter parseConfigured env0 chain "other" "w3" walletIncomingOnly
       {["w1" := "C0"]})
  = cursorsAfter parseConfigured env0 chain "other" "w3" walletIncomingOnly
      (cursorsAfter parseConfigured env0 chain "user" "w1" walletHalfToTwo
         {["w1" := "C0"]}).
Proof.
  apply (polls_of_distinct_watches_commute parseConfigured env0 chain
           "user" "w1" walletHalfToTwo "other" "w3" walletIncomingOnly
           {["w1" := "C0"]}).
  discriminate.
Defined.

(** ** One pass over the store *)

Lemma withoutPauses_app t1 t2 :
  withoutPauses (t1 ++ t2) = withoutPauses t1 ++ withoutPauses t2.
Proof. apply List.filter_app. Qed.

Lemma pauseCount_app t1 t2 :
  pauseCount (t1 ++ t2) = (pauseCount t1 + pauseCount t2)%nat.
Proof. unfold pauseCount. rewrite List.filter_app. apply length_app. Qed.

Lemma withoutPauses_id tr :
  Forall (fun e => isPause e = false) tr -> withoutPauses tr = tr.
Proof.
  induction 1 as [|e tr He _ IH]; [reflexivity|].
  unfold withoutPauses in *. simpl. rewrite He. simpl. rewrite IH.
  reflexivity.
Qed.

Lemma pauseCount_zero tr :
  Forall (fun e => isPause e = false) tr -> pauseCount tr = 0%nat.
Proof.
  induction 1 as [|e tr He _ IH]; [reflexivity|].
  unfold pauseCount in *. simpl. rewrite He. exact IH.
Qed.

Section PassShape.

Variable StringToNumber : string -> jsnum.
Variable env : Env.
Variable connection : Connection.

Local Abbreviation batch_of := (processBatch StringToNumber env connection).
Local Abbreviation loop_of := (batchLoop StringToNumber env connection).

Lemma processTrace_no_pause userId wallet sigInfo :
  Forall (fun e => isPause e = false)
    (processTrace StringToNumber env connection userId wallet sigInfo).
Proof.
  unfold processTrace, processTransaction. run_monad.
  destruct (getParsedTransaction connection (SigInfo.signature sigInfo))
    as [[transaction|]|e]; try (repeat constructor).
  destruct (Tx.meta transaction) as [meta|]; try (repeat constructor).
  destruct (analyzeSolTransaction env transaction (Wallet.address wallet))
    as [[transfer|]|e]; try (repeat constructor).
  destruct (shouldNotify StringToNumber env transfer wallet);
    try (repeat constructor).
  rewrite sendTransactionNotification_run. unfold sendTrace.
  destruct (sendMessage connection userId (Wallet.name wallet) transfer)
    as [[]|e]; repeat constructor.
Qed.

Lemma loopTrace_no_pause userId wallet l :
  Forall (fun e => isPause e = false)
    (loopTrace StringToNumber env connection userId wallet l).
Proof.
  induction l as [|s l IH]; [constructor|].
  cbn [loopTrace flat_map]. rewrite !Forall_app. repeat split.
  - apply processTrace_no_pause.
  - repeat constructor.
  - exact IH.
Qed.

(** A poll makes no pause of its own. *)
Lemma poll_no_pause userId walletId wallet c :
  exists c' tr,
    checkWalletTransactions StringToNumber env connection userId walletId
      wallet c = (Ok tt, c', tr) /\
    Forall (fun e => isPause e = false) tr.
Proof.
  destruct (poll_path StringToNumber env connection userId walletId wallet c)
    as (c' & tr & Hrun & Hpath).
  exists c', tr. split; [exact Hrun|].
  destruct Hpath; try (repeat constructor).
  rewrite !Forall_app. repeat split; try (repeat constructor).
  apply loopTrace_no_pause.
Qed.

Lemma processBatch_no_pause batch : forall c,
  exists c' tr,
    batch_of batch c = (Ok tt, c', tr) /\
    Forall (fun e => isPause e = false) tr.
Proof.
  induction batch as [|w batch IH]; intros c.
  - exists c, []. split; [reflexivity|constructor].
  - unfold processBatch. cbn [for_of]. unfold bind at 1.
    destruct (poll_no_pause (ActiveWallet.userId w) (ActiveWallet.walletId w)
                (ActiveWallet.wallet w) c) as (c1 & t1 & -> & H1).
    destruct (IH c1) as (c2 & t2 & Hrun2 & H2).
    unfold processBatch in Hrun2. rewrite Hrun2.
    exists c2, (t1 ++ t2). split; [reflexivity|].
    apply Forall_app. split; assumption.
Qed.

(** Polling a list of wallets is polling a first part, then the rest. *)
Lemma processBatch_app l1 l2 c :
  exists c1 t1 r c2 t2,
    batch_of l1 c = (Ok tt, c1, t1) /\
    batch_of l2 c1 = (r, c2, t2) /\
    batch_of (l1 ++ l2) c = (r, c2, t1 ++ t2).
Proof.
  revert c. induction l1 as [|w l1 IH]; intros c.
  - destruct (batch_of l2 c) as [[r c2] t2] eqn:E.
    exists c, [], r, c2, t2. repeat split; auto.
  - unfold processBatch. cbn [app for_of]. unfold bind at 1 2.
    destruct (poll_no_pause (ActiveWallet.userId w) (ActiveWallet.walletId w)
                (ActiveWallet.wallet w) c) as (c0 & t0 & -> & _).
    destruct (IH c0) as (c1 & t1 & r & c2 & t2 & H1 & H2 & H12).
    unfold processBatch in H1, H2, H12. rewrite H1, H12.
    exists c1, (t0 ++ t1), r, c2, t2.
    repeat split; auto. rewrite app_assoc. reflexivity.
Qed.

(** With enough fuel the loop polls the wallets from index [i] on, one
    after the other, and pauses between the batches only. *)
Lemma batchLoop_polls_all activeWallets : forall fuel i c,
  (length activeWallets <= i + BATCH_SIZE * fuel)%nat ->
  exists r c' tr tr',
    loop_of fuel i activeWallets c = (r, c', tr) /\
    batch_of (drop i activeWallets) c = (r, c', tr') /\
    withoutPauses tr = tr' /\
    pauseCount tr = ((length activeWallets - i - 1) / BATCH_SIZE)%nat.
Proof.
  induction fuel as [|fuel IH]; intros i c Hfuel.
  - rewrite drop_ge by lia. exists (Ok tt), c, [], [].
    repeat split. change (pauseCount []) with 0%nat.
    symmetry. apply Nat.div_small. unfold BATCH_SIZE in *. lia.
  - cbn [batchLoop]. destruct (Nat.ltb_spec i (length activeWallets)) as [Hi|Hi].
    2:{ rewrite drop_ge by lia. exists (Ok tt), c, [], [].
        repeat split. change (pauseCount []) with 0%nat.
        symmetry. apply Nat.div_small. unfold BATCH_SIZE in *. lia. }
    assert (Hsplit : drop i activeWallets
                     = take BATCH_SIZE (drop i activeWallets)
                       ++ drop (i + BATCH_SIZE) activeWallets).
    { rewrite <- drop_drop. symmetry. apply take_drop. }
    destruct (processBatch_app (take BATCH_SIZE (drop i activeWallets))
                (drop (i + BATCH_SIZE) activeWallets) c)
      as (c1 & t1 & r & c2 & t2 & H1 & H2 & H12).
    rewrite <- Hsplit in H12.
    destruct (processBatch_no_pause (take BATCH_SIZE (drop i activeWallets)) c)
      as (c1' & t1' & H1' & Hno).
    rewrite H1 in H1'. injection H1' as <- <-.
    destruct (IH (i + BATCH_SIZE)%nat c1) as (r' & c' & tr & tr' & Hl & Hb & Hw & Hp);
      [unfold BATCH_SIZE in *; lia|].
    rewrite H2 in Hb. injection Hb as <- <- <-.
    unfold bind at 1. rewrite H1. unfold bind at 1.
    destruct (Nat.ltb_spec (i + BATCH_SIZE) (length activeWallets)) as [Hmore|Hlast].
    + unfold sleep, emit. rewrite Hl.
      exists r, c2, (t1 ++ [ESleep 1000] ++ tr), (t1 ++ t2).
      split; [reflexivity|]. split; [exact H12|]. split.
      * rewrite !withoutPauses_app, Hw, (withoutPauses_id t1 Hno).
        reflexivity.
      * rewrite !pauseCount_app, Hp, (pauseCount_zero t1 Hno).
        change (pauseCount [ESleep 1000]) with 1%nat.
        unfold BATCH_SIZE in *.
        replace (length activeWallets - i - 1)%nat
          with (1 * 3 + (length activeWallets - (i + 3) - 1))%nat by lia.
        rewrite Nat.div_add_l by lia. lia.
    + unfold ret at 1. rewrite Hl.
      exists r, c2, (t1 ++ [] ++ tr), (t1 ++ t2).
      split; [reflexivity|]. split; [exact H12|]. split.
      * rewrite !withoutPauses_app, Hw, (withoutPauses_id t1 Hno).
        reflexivity.
      * rewrite !pauseCount_app, Hp, (pauseCount_zero t1 Hno).
        change (pauseCount []) with 0%nat.
        unfold BATCH_SIZE in *.
        rewrite !Nat.div_small by lia. reflexivity.
Qed.

End PassShape.

Lemma latestFetches_app t1 t2 :
  latestFetches (t1 ++ t2) = latestFetches t1 ++ latestFetches t2.
Proof. apply flat_map_app. Qed.

Lemma latestFetches_withoutPauses tr :
  latestFetches (withoutPauses tr) = latestFetches tr.
Proof.
  unfold latestFetches, withoutPauses.
  induction tr as [|e tr IH]; [reflexivity|].
  cbn [List.filter].
  destruct e as [address limit|signature|userId name transfer
                |walletId signature|ms|message];
    cbn [isPause negb flat_map app]; try (rewrite IH; reflexivity).
  destruct (ms =? 1000); cbn [negb flat_map app]; rewrite IH; reflexivity.
Qed.

Section PassFetches.

Variable StringToNumber : string -> jsnum.
Variable env : Env.
Variable connection : Connection.

Lemma latestFetches_processTrace userId wallet sigInfo :
  latestFetches
    (processTrace StringToNumber env connection userId wallet sigInfo) = [].
Proof.
  unfold processTrace, processTransaction. run_monad.
  destruct (getParsedTransaction connection (SigInfo.signature sigInfo))
    as [[transaction|]|e]; try reflexivity.
  destruct (Tx.meta transaction) as [meta|]; try reflexivity.
  destruct (analyzeSolTransaction env transaction (Wallet.address wallet))
    as [[transfer|]|e]; try reflexivity.
  destruct (shouldNotify StringToNumber env transfer wallet);
    try reflexivity.
  rewrite sendTransactionNotification_run. unfold sendTrace.
  destruct (sendMessage connection userId (Wallet.name wallet) transfer)
    as [[]|e]; reflexivity.
Qed.

Lemma latestFetches_loopTrace userId wallet l :
  latestFetches (loopTrace StringToNumber env connection userId wallet l)
  = [].
Proof.
  induction l as [|s l IH]; [reflexivity|].
  cbn [loopTrace flat_map]. rewrite !latestFetches_app.
  rewrite latestFetches_processTrace. exact IH.
Qed.

(** A poll fetches the latest signature of its address once, when the
    address is a valid key. *)
Lemma latestFetches_poll userId walletId wallet c :
  exists c' tr,
    checkWalletTransactions StringToNumber env connection userId walletId
      wallet c = (Ok tt, c', tr) /\
    latestFetches tr
    = List.filter (validAddress connection) [Wallet.address wallet].
Proof.
  destruct (poll_path StringToNumber env connection userId walletId wallet c)
    as (c' & tr & Hrun & Hpath).
  exists c', tr. split; [exact Hrun|]. cbn [List.filter].
  destruct Hpath as [Hvalid|e Hvalid|Hvalid|f r Hvalid|f r Hvalid
                    |f r e Hvalid|f r recent Hvalid];
    rewrite Hvalid; try reflexivity.
  rewrite !latestFetches_app, latestFetches_loopTrace. reflexivity.
Qed.

Lemma latestFetches_batch batch : forall c,
  exists c' tr,
    processBatch StringToNumber env connection batch c = (Ok tt, c', tr) /\
    latestFetches tr = validAddresses connection batch.
Proof.
  induction batch as [|w batch IH]; intros c.
  - exists c, []. split; reflexivity.
  - unfold processBatch. cbn [for_of]. unfold bind at 1.
    destruct (latestFetches_poll (ActiveWallet.userId w)
                (ActiveWallet.walletId w) (ActiveWallet.wallet w) c)
      as (c1 & t1 & -> & H1).
    destruct (IH c1) as (c2 & t2 & Hrun2 & H2).
    unfold processBatch in Hrun2. rewrite Hrun2.
    exists c2, (t1 ++ t2). split; [reflexivity|].
    rewrite latestFetches_app, H1, H2. unfold validAddresses.
    cbn [map List.filter].
    destruct (validAddress connection
                (Wallet.address (ActiveWallet.wallet w))); reflexivity.
Qed.

End PassFetches.

(** X11. A pass never throws and polls every active wallet exactly once:
    the fetches of a latest signature that it makes are, in some order,
    those of the addresses of the active wallets that are valid keys, one
    for each wallet. *)
Theorem pass_polls_every_active_wallet_once
    (StringToNumber : string -> jsnum) (env : Env) (connection : Connection)
    (wallets : list (string * list (string * Wallet.t))) (c : Cursors) :
  let pass := checkTransactions StringToNumber env connection wallets c in
  pass.1.1 = Ok tt /\
  latestFetches pass.2 ≡ₚ validAddresses connection (collectActive wallets).
Proof.
  intros pass. subst pass.
  unfold checkTransactions, try_catch.
  destruct (Nat.eqb_spec (length (collectActive wallets)) 0) as [Hnil|_].
  - apply length_zero_iff_nil in Hnil. rewrite Hnil. split; reflexivity.
  - destruct (batchLoop_polls_all StringToNumber env connection
                (collectActive wallets) (length (collectActive wallets))
                0%nat c) as (r & c' & tr & tr' & Hl & Hb & Hw & _);
      [unfold BATCH_SIZE; lia|].
    rewrite drop_0 in Hb. rewrite Hl.
    destruct (latestFetches_batch StringToNumber env connection
                (collectActive wallets) c) as (c2 & t2 & Hb' & Hfetches).
    rewrite Hb in Hb'. injection Hb' as -> -> ->.
    cbn [fst snd]. split; [reflexivity|].
    rewrite <- Hfetches, <- Hw, latestFetches_withoutPauses. reflexivity.
Qed.

Example pass_over_three_wallets :
  map (fun e => match e with
                | EGetSignatures a limit => (a, limit)
                | _ => ("", 0%nat)
                end)
    (checkTransactions parseConfigured env0 quietChain storeOfThree ∅).2
  = [("Watched", 1%nat); ("Watched", 1%nat)].
Proof. vm_compute. reflexivity. Qed.

(** X12. A pass over [n >= 1] active wallets pauses [(n - 1) / 3] times
    for 1000 ms, between the batches of 3 and not after the last one;
    from 49 active wallets on the pauses alone last longer than the
    interval of 15000 ms between two passes. *)
Theorem pass_pauses
    (StringToNumber : string -> jsnum) (env : Env) (connection : Connection)
    (wallets : list (string * list (string * Wallet.t))) (c : Cursors) :
  let n := length (collectActive wallets) in
  let pauses :=
    pauseCount (checkTransactions StringToNumber env connection wallets c).2 in
  pauses = ((n - 1) / 3)%nat /\
  ((49 <= n)%nat -> INTERVAL < 1000 * Z.of_nat pauses).
Proof.
  intros n pauses. subst n pauses.
  assert (Hcount :
            pauseCount
              (checkTransactions StringToNumber env connection wallets c).2
            = ((length (collectActive wallets) - 1) / 3)%nat).
  { unfold checkTransactions, try_catch.
    destruct (Nat.eqb_spec (length (collectActive wallets)) 0) as [Hnil|_];
      [rewrite Hnil; reflexivity|].
    destruct (batchLoop_polls_all StringToNumber env connection
                (collectActive wallets) (length (collectActive wallets))
                0%nat c) as (r & c' & tr & tr' & Hl & Hb & _ & Hp);
      [unfold BATCH_SIZE; lia|].
    rewrite drop_0 in Hb.
    destruct (processBatch_no_pause StringToNumber env connection
                (collectActive wallets) c) as (c2 & t2 & Hb' & _).
    rewrite Hb in Hb'. injection Hb' as -> -> ->.
    rewrite Hl. cbn [snd]. rewrite Hp.
    unfold BATCH_SIZE; f_equal; lia. }
  split; [exact Hcount|].
  intros Hn. rewrite Hcount. unfold INTERVAL.
  assert (16 <= (length (collectActive wallets) - 1) / 3)%nat; [|lia].
  apply Nat.div_le_lower_bound; lia.
Qed.

Example pass_pauses_of_many_wallets :
  pauseCount
    (checkTransactions parseConfigured env0 quietChain manyWallets ∅).2
  = 16%nat.
Proof. vm_compute. reflexivity. Qed.

Lemma collectActive_activeOnly wallets :
  collectActive (activeOnly wallets) = collectActive wallets.
Proof.
  induction wallets as [|[userId userWallets] wallets IH]; [reflexivity|].
  cbn [activeOnly map collectActive flat_map].
  fold (activeOnly wallets). fold (collectActive (activeOnly wallets)).
  fold (collectActive wallets). rewrite IH. f_equal.
  induction userWallets as [|[walletId wallet] userWallets IHu];
    [reflexivity|].
  cbn [List.filter flat_map].
  destruct (ToBoolean (Wallet.active wallet)) eqn:Hact.
  - cbn [flat_map]. rewrite Hact, IHu. reflexivity.
  - exact IHu.
Qed.

(** X13. Paused wallets are never polled: a pass over the store is the
    pass over the store without the wallets whose [active] is falsy. *)
Theorem pass_skips_paused_wallets
    (StringToNumber : string -> jsnum) (env : Env) (connection : Connection)
    (wallets : list (string * list (string * Wallet.t))) (c : Cursors) :
  checkTransactions StringToNumber env connection wallets c
  = checkTransactions StringToNumber env connection (activeOnly wallets) c.
Proof.
  unfold checkTransactions. rewrite collectActive_activeOnly. reflexivity.
Qed.

Lemma pass_pauses_witness :
  INTERVAL
  < 1000 * Z.of_nat
             (pauseCount
                (checkTransactions parseConfigured env0 quietChain
                   manyWallets ∅).2).
Proof.
  destruct (pass_pauses parseConfigured env0 quietChain manyWallets ∅)
    as (_ & Hlong).
  apply Hlong. apply Nat.leb_le. vm_compute. reflexivity.
Defined.

(** * The conversation and the store *)

(** ** Strings *)

Lemma jsSplit_no_separator sep s :
  hasChar sep s = false -> UI.jsSplit sep s = [s].
Proof.
  induction s as [|ch s IH]; [reflexivity|].
  cbn [hasChar UI.jsSplit]. intros H. apply orb_false_iff in H.
  destruct H as (Hch & Hs). rewrite Hch, (IH Hs). reflexivity.
Qed.

Lemma jsSplit_at_separator sep s t :
  hasChar sep s = false ->
  UI.jsSplit sep (s +:+ String sep t) = s :: UI.jsSplit sep t.
Proof.
  induction s as [|ch s IH]; intros H.
  - change ("" +:+ String sep t) with (String sep t).
    cbn [UI.jsSplit]. rewrite Ascii.eqb_refl. reflexivity.
  - cbn [hasChar] in H. apply orb_false_iff in H. destruct H as (Hch & Hs).
    change (String ch s +:+ String sep t)
      with (String ch (s +:+ String sep t)).
    cbn [UI.jsSplit]. rewrite Hch, (IH Hs). reflexivity.
Qed.

Lemma startsWith_append p s : UI.startsWith p (p +:+ s) = true.
Proof.
  unfold UI.startsWith.
  induction p as [|ch p IH]; [destruct s; reflexivity|].
  change (String ch p +:+ s) with (String ch (p +:+ s)).
  cbn [String.prefix].
  destruct (Ascii.ascii_dec ch ch); [exact IH|contradiction].
Qed.

Lemma jsReplace_prefix p s : UI.jsReplace p (p +:+ s) = s.
Proof.
  pose proof (startsWith_append p s) as Hp. unfold UI.startsWith in Hp.
  assert (Hd : UI.dropChars (String.length p) (p +:+ s) = s).
  { clear Hp. induction p as [|ch p IH]; [destruct s; reflexivity|exact IH]. }
  destruct (p +:+ s) eqn:E; cbn [UI.jsReplace]; rewrite Hp; exact Hd.
Qed.

(** ** The callback router *)

(** X14. The buttons that carry a wallet id route to their handler with
    that id, whatever the id: the callback data [edit_wallet_<id>],
    [remove_wallet_<id>] and [confirm_remove_<id>] run [handleEditWallet],
    [handleConfirmRemove] and [handleActualRemove] on [<id>], after the
    query is answered and under the error report of the router. *)
Theorem wallet_buttons_route_to_their_wallet
    (bot : UI.Call -> result unit)
    (entries : UI.UserWallets -> list (string * UI.WalletObject))
    (q : UI.CallbackQuery) (id : string) (w : UI.World) :
  (UI.data q = "edit_wallet_" +:+ id ->
   UI.onCallbackQuery bot entries q w
   = routed bot q
       (UI.handleEditWallet bot (UI.queryChatId q) (UI.queryMessageId q)
          (UI.queryFromId q) id) w) /\
  (UI.data q = "remove_wallet_" +:+ id ->
   UI.onCallbackQuery bot entries q w
   = routed bot q
       (UI.handleConfirmRemove bot (UI.queryChatId q) (UI.queryMessageId q)
          (UI.queryFromId q) id) w) /\
  (UI.data q = "confirm_remove_" +:+ id ->
   UI.onCallbackQuery bot entries q w
   = routed bot q
       (UI.handleActualRemove bot (UI.queryChatId q) (UI.queryMessageId q)
          (UI.queryFromId q) id) w).
Proof.
  split; [|split]; intros Hdata; unfold UI.onCallbackQuery, routed;
    rewrite Hdata.
  - rewrite (jsReplace_prefix "edit_wallet_" id),
      (startsWith_append "edit_wallet_" id).
    reflexivity.
  - rewrite (jsReplace_prefix "remove_wallet_" id),
      (startsWith_append "remove_wallet_" id).
    reflexivity.
  - rewrite (jsReplace_prefix "confirm_remove_" id),
      (startsWith_append "confirm_remove_" id).
    reflexivity.
Qed.

(** ** The store *)

Lemma findWallet_stringify s u i :
  UI.findWallet (UI.stringify s) u i = asWritten <$> UI.findWallet s u i.
Proof.
  unfold UI.findWallet, UI.stringify.
  rewrite lookup_fmap. destruct (s !! u) as [uw|]; [|reflexivity].
  cbn. rewrite lookup_fmap. reflexivity.
Qed.

Lemma findWallet_insert s u uw i o u' i' :
  s !! u = Some uw \/ (s !! u = None /\ uw = ∅) ->
  UI.findWallet (<[u := <[i := o]> uw]> s) u' i'
  = if decide (u' = u /\ i' = i) then Some o else UI.findWallet s u' i'.
Proof.
  intros Hu. unfold UI.findWallet.
  destruct (decide (u' = u)) as [->|Hne].
  - rewrite lookup_insert_eq.
    destruct (decide (i' = i)) as [->|Hni].
    + rewrite lookup_insert_eq.
      case_decide as Hd; [reflexivity|destruct Hd; split; reflexivity].
    + rewrite lookup_insert_ne by done.
      case_decide as Hd; [destruct Hd; congruence|].
      destruct Hu as [->|[-> ->]]; [reflexivity|]. apply lookup_empty.
  - rewrite lookup_insert_ne by done.
    case_decide as Hd; [destruct Hd; congruence|]. reflexivity.
Qed.

Lemma findWallet_delete s u uw i u' i' :
  s !! u = Some uw ->
  UI.findWallet (<[u := delete i uw]> s) u' i'
  = if decide (u' = u /\ i' = i) then None else UI.findWallet s u' i'.
Proof.
  intros Hu. unfold UI.findWallet.
  destruct (decide (u' = u)) as [->|Hne].
  - rewrite lookup_insert_eq.
    destruct (decide (i' = i)) as [->|Hni].
    + rewrite lookup_delete_eq.
      case_decide as Hd; [reflexivity|destruct Hd; split; reflexivity].
    + rewrite lookup_delete_ne by done.
      case_decide as Hd; [destruct Hd; congruence|]. rewrite Hu. reflexivity.
  - rewrite lookup_insert_ne by done.
    case_decide as Hd; [destruct Hd; congruence|]. reflexivity.
Qed.

Lemma findWallet_Some s u i o :
  UI.findWallet s u i = Some o ->
  exists uw, s !! u = Some uw /\ uw !! i = Some o.
Proof.
  unfold UI.findWallet. destruct (s !! u) as [uw|]; [|discriminate].
  intros H. exists uw. split; [reflexivity|exact H].
Qed.

Lemma findWallet_None s u i :
  UI.findWallet s u i = None ->
  s !! u = None \/ exists uw, s !! u = Some uw /\ uw !! i = None.
Proof.
  unfold UI.findWallet. destruct (s !! u) as [uw|]; [|left; reflexivity].
  intros H. right. exists uw. split; [reflexivity|exact H].
Qed.

(** X15. [updateWalletFilter] changes one field of one wallet or nothing:
    for a wallet that is not in the store, under ids that name no
    inherited property, it returns without writing; for a stored wallet
    and a file that cannot be written it rejects and leaves the world as
    it was; otherwise it returns, with no call of the bot and the
    sessions as they were, and the file holds the store in which that
    wallet has the new value of the field and every other wallet is what
    it was, as JSON writes them. *)
Theorem updateWalletFilter_sets_one_field
    (userId walletId field : string) (value : jsval) (w : UI.World) :
  let run := UI.updateWalletFilter userId walletId field value w in
  (UI.inherited userId = false -> UI.inherited walletId = false ->
   UI.findWallet (storeOf w) userId walletId = None ->
   run = (Ok tt, w, [])) /\
  (forall wallet,
     UI.findWallet (storeOf w) userId walletId = Some wallet ->
     UI.writable w = false ->
     exists message, run = (Throw message, w, [])) /\
  (forall wallet,
     UI.findWallet (storeOf w) userId walletId = Some wallet ->
     UI.writable w = true ->
     resultOf run = Ok tt /\ callsOf run = [] /\
     UI.userSessions (worldAfter run) = UI.userSessions w /\
     forall u i,
       UI.findWallet (storeOf (worldAfter run)) u i
       = if decide (u = userId /\ i = walletId)
         then Some (asWritten (<[field := value]> wallet))
         else asWritten <$> UI.findWallet (storeOf w) u i).
Proof.
  cbv zeta. unfold UI.updateWalletFilter, UI.bind, UI.loadWallets.
  fold (storeOf w). split; [|split].
  - intros _ _ H. apply findWallet_None in H.
    destruct H as [->|(uw & -> & ->)]; reflexivity.
  - intros wallet H Hw. apply findWallet_Some in H.
    destruct H as (uw & -> & ->). unfold UI.saveWallets. rewrite Hw.
    eexists. reflexivity.
  - intros wallet H Hw. pose proof H as H'. apply findWallet_Some in H'.
    destruct H' as (uw & Hu & Hi). rewrite Hu, Hi.
    unfold UI.saveWallets. rewrite Hw.
    split; [reflexivity|]. split; [reflexivity|]. split; [reflexivity|].
    intros u i. cbn. rewrite findWallet_stringify.
    rewrite (findWallet_insert (storeOf w) userId uw) by (left; exact Hu).
    case_decide; reflexivity.
Qed.

(** X16. Removal is committed before it is confirmed: for a stored
    wallet, [handleActualRemove] writes the store without that wallet and
    then edits the message; whether or not the edit is accepted, the
    wallet is gone, the other wallets are what they were as JSON writes
    them, and the user keeps an entry in the store. *)
Theorem handleActualRemove_removes_one_wallet
    (bot : UI.Call -> result unit)
    (chatId messageId userId walletId : string) (w : UI.World)
    (wallet : UI.WalletObject) :
  UI.findWallet (storeOf w) userId walletId = Some wallet ->
  UI.writable w = true ->
  let run := UI.handleActualRemove bot chatId messageId userId walletId w in
  let confirmation :=
    UI.EditMessageText chatId messageId
      (UI.TRemoved (UI.get wallet "name")) UI.backKeyboard in
  callsOf run = [confirmation] /\
  resultOf run = bot confirmation /\
  UI.userSessions (worldAfter run) = UI.userSessions w /\
  is_Some (storeOf (worldAfter run) !! userId) /\
  forall u i,
    UI.findWallet (storeOf (worldAfter run)) u i
    = if decide (u = userId /\ i = walletId) then None
      else asWritten <$> UI.findWallet (storeOf w) u i.
Proof.
  intros H Hw. cbv zeta. pose proof H as H'. apply findWallet_Some in H'.
  destruct H' as (uw & Hu & Hi).
  unfold UI.handleActualRemove, UI.bind, UI.loadWallets.
  fold (storeOf w). rewrite Hu, Hi. unfold UI.saveWallets. rewrite Hw.
  unfold UI.await.
  destruct (bot _) as [[]|e] eqn:Hbot;
    (split; [reflexivity|]; split; [cbn; congruence|];
     split; [reflexivity|]; split;
     [cbn; unfold UI.stringify; rewrite lookup_fmap, lookup_insert_eq;
      eexists; reflexivity|];
     intros u i; cbn; rewrite findWallet_stringify;
     rewrite (findWallet_delete (storeOf w) userId uw) by exact Hu;
     case_decide; reflexivity).
Qed.

(** ** What the handlers never do *)

Lemma silent_ret {A} (a : A) : silent (UI.ret a).
Proof. intros w. constructor. Qed.

Lemma silent_throw {A} e : silent (@UI.throw A e).
Proof. intros w. constructor. Qed.

Lemma silent_bind {A B} (m : UI.U A) (k : A -> UI.U B) :
  silent m -> (forall a, silent (k a)) -> silent (UI.bind m k).
Proof.
  intros Hm Hk w. unfold UI.bind, callsOf. specialize (Hm w).
  destruct (m w) as [[[a|e] w'] t]; [|exact Hm].
  specialize (Hk a w'). destruct (k a w') as [[r w''] t'].
  apply Forall_app. split; [exact Hm|exact Hk].
Qed.

Lemma silent_try_catch {A} (m : UI.U A) (h : string -> UI.U A) :
  silent m -> (forall e, silent (h e)) -> silent (UI.try_catch m h).
Proof.
  intros Hm Hh w. unfold UI.try_catch, callsOf. specialize (Hm w).
  destruct (m w) as [[[a|e] w'] t]; [exact Hm|].
  specialize (Hh e w'). destruct (h e w') as [[r w''] t'].
  apply Forall_app. split; [exact Hm|exact Hh].
Qed.

Lemma silent_call c : deadReply c = false -> silent (UI.call c).
Proof. intros H w. repeat constructor. exact H. Qed.

Lemma silent_await bot c : deadReply c = false -> silent (UI.await bot c).
Proof. intros H w. repeat constructor. exact H. Qed.

Lemma silent_session_set u s : silent (UI.session_set u s).
Proof. intros w. constructor. Qed.

Lemma silent_session_get u : silent (UI.session_get u).
Proof. intros w. constructor. Qed.

Lemma silent_session_delete u : silent (UI.session_delete u).
Proof. intros w. constructor. Qed.

Lemma silent_loadWallets : silent UI.loadWallets.
Proof. intros w. constructor. Qed.

Lemma silent_saveWallets s : silent (UI.saveWallets s).
Proof.
  intros w. unfold UI.saveWallets. destruct (UI.writable w); constructor.
Qed.

Ltac silence :=
  repeat first
    [ apply silent_ret | apply silent_throw | apply silent_session_set
    | apply silent_session_get | apply silent_session_delete
    | apply silent_loadWallets | apply silent_saveWallets
    | apply silent_call; reflexivity | apply silent_await; reflexivity
    | apply silent_bind; [|intros ?]
    | apply silent_try_catch; [|intros ?]
    | progress unfold UI.console_error ].

Lemma silent_handleEditWallet bot chatId messageId userId walletId :
  silent (UI.handleEditWallet bot chatId messageId userId walletId).
Proof.
  unfold UI.handleEditWallet. apply silent_bind; [silence|]. intros wallets.
  destruct (UI.findWallet wallets userId walletId) as [wallet|].
  - silence. unfold UI.directionLabel.
    destruct (UI.get wallet "direction"); silence.
  - intros w. constructor.
Qed.

Lemma silent_updateWalletFilter userId walletId field value :
  silent (UI.updateWalletFilter userId walletId field value).
Proof.
  unfold UI.updateWalletFilter. silence.
  destruct (a !! userId) as [uw|]; [|silence].
  destruct (uw !! walletId); silence.
Qed.

Lemma filter_is_not_set_direction s :
  UI.startsWith "filter_" s = true -> UI.startsWith "set_direction_" s = false.
Proof.
  unfold UI.startsWith. destruct s as [|c s]; [discriminate|].
  cbn [String.prefix]. destruct (Ascii.ascii_dec _ c) as [<-|]; [|discriminate].
  reflexivity.
Qed.

Lemma silent_handleFilterSelection bot chatId messageId userId data :
  UI.startsWith "filter_" data = true ->
  silent (UI.handleFilterSelection bot chatId messageId userId data).
Proof.
  intros H. unfold UI.handleFilterSelection.
  rewrite (filter_is_not_set_direction data H). cbv zeta.
  apply silent_bind; [|intros ?; silence].
  repeat case_decide; silence.
  destruct (a !! userId) as [uw|]; [|silence].
  destruct (uw !! _); [|silence].
  apply silent_bind; [silence|intros ?; apply silent_handleEditWallet].
Qed.

(** X17. Two replies of the source are never sent: no callback query and
    no message makes the bot say that the wallet was not found (line 262
    follows a property access that throws for a missing wallet) or that
    the direction filter was set (the block of lines 464-469 needs data
    that starts with [set_direction_], which the router never hands to
    [handleFilterSelection]). *)
Theorem unreachable_replies_are_never_sent
    (StringToNumber : string -> jsnum) (env : Env) (connection : Connection)
    (bot : UI.Call -> result unit)
    (entries : UI.UserWallets -> list (string * UI.WalletObject))
    (trim : string -> string) (jsLength : string -> nat)
    (parseFloat : string -> jsnum) (w : UI.World) :
  (forall q c,
     In c (callsOf (UI.onCallbackQuery bot entries q w)) ->
     deadReply c = false) /\
  (forall msg c,
     In c (callsOf (UI.onMessage StringToNumber env connection trim jsLength
                      parseFloat msg w)) ->
     deadReply c = false).
Proof.
  split.
  - intros q c. revert c. apply List.Forall_forall. revert w.
    change (silent (UI.onCallbackQuery bot entries q)).
    unfold UI.onCallbackQuery. cbv zeta. silence.
    destruct (String.eqb _ "back_to_menu"); [silence|].
    destruct (String.eqb _ "add_wallet");
      [unfold UI.handleAddWallet; silence|].
    destruct (String.eqb _ "view_wallets").
    { unfold UI.handleViewWallets. silence.
      destruct (Nat.eqb _ 0); silence. }
    destruct (String.eqb _ "remove_wallet").
    { unfold UI.handleRemoveWallet. silence.
      destruct (Nat.eqb _ 0); silence. }
    destruct (UI.startsWith "edit_wallet_" _);
      [apply silent_handleEditWallet|].
    destruct (UI.startsWith "remove_wallet_" _).
    { unfold UI.handleConfirmRemove. silence.
      destruct (UI.findWallet _ _ _); silence. }
    destruct (UI.startsWith "confirm_remove_" _).
    { unfold UI.handleActualRemove. silence.
      destruct (a0 !! _) as [uw|]; [|silence].
      destruct (uw !! _); silence. }
    destruct (UI.startsWith "filter_" _) eqn:Hf;
      [apply silent_handleFilterSelection; exact Hf|].
    destruct (UI.startsWith "set_direction_" _); [|silence].
    apply silent_bind;
      [apply silent_updateWalletFilter|intros ?; apply silent_handleEditWallet].
  - intros msg c. revert c. apply List.Forall_forall. revert w.
    change (silent (UI.onMessage StringToNumber env connection trim jsLength
                      parseFloat msg)).
    unfold UI.onMessage. destruct (UI.text msg) as [raw|]; [|silence].
    destruct (_ || _); [silence|]. silence.
    destruct a as [session|]; [|silence]. silence.
    repeat match goal with
           | |- silent (if ?b then _ else _) => destruct b
           | |- silent (match ?o with Some _ => _ | None => _ end) =>
               destruct o
           | _ => progress silence
           | _ => apply silent_updateWalletFilter
           end.
Qed.

Lemma try_catch_returns (m : UI.U unit) (h : string -> UI.U unit) w :
  (forall e w', resultOf (h e w') = Ok tt) ->
  resultOf (UI.try_catch m h w) = Ok tt.
Proof.
  intros Hh. unfold UI.try_catch, resultOf.
  destruct (m w) as [[[[]|e] w'] t]; [reflexivity|].
  specialize (Hh e w'). unfold resultOf in Hh.
  destruct (h e w') as [[r w''] t']. exact Hh.
Qed.

(** X18. For an update that carries its chat and its sender, neither
    handler rejects: whatever the bot API, the file and the text do, the
    promise of the callback-query handler and of the message handler
    resolves. *)
Theorem handlers_never_reject
    (StringToNumber : string -> jsnum) (env : Env) (connection : Connection)
    (bot : UI.Call -> result unit)
    (entries : UI.UserWallets -> list (string * UI.WalletObject))
    (trim : string -> string) (jsLength : string -> nat)
    (parseFloat : string -> jsnum) (w : UI.World) :
  (forall q, resultOf (UI.onCallbackQuery bot entries q w) = Ok tt) /\
  (forall msg,
     resultOf (UI.onMessage StringToNumber env connection trim jsLength
                 parseFloat msg w) = Ok tt).
Proof.
  split.
  - intros q. unfold UI.onCallbackQuery. cbv zeta.
    apply try_catch_returns. reflexivity.
  - intros msg. unfold UI.onMessage.
    destruct (UI.text msg) as [raw|]; [|reflexivity].
    destruct (_ || _); [reflexivity|].
    unfold UI.bind at 1, UI.session_get.
    destruct (UI.userSessions w !! UI.fromId msg) as [session|];
      [|reflexivity].
    match goal with
    | |- resultOf (let (_, _) := ?run in _) = _ =>
        assert (Hrun : resultOf run = Ok tt)
          by (apply try_catch_returns; reflexivity);
        destruct run as [[r w'] t]
    end.
    exact Hrun.
Qed.

(** X19. Opening the settings of a wallet that is not in the store is
    reported as a general error: the exception of line 259 is logged and
    the chat receives the error text; nothing is stored. *)
Theorem editing_a_missing_wallet_reports_an_error
    (bot : UI.Call -> result unit)
    (entries : UI.UserWallets -> list (string * UI.WalletObject))
    (q : UI.CallbackQuery) (id : string) (w : UI.World) :
  UI.data q = "edit_wallet_" +:+ id ->
  UI.findWallet (storeOf w) (UI.queryFromId q) id = None ->
  bot (UI.AnswerCallbackQuery (UI.queryId q)) = Ok tt ->
  exists message,
    UI.onCallbackQuery bot entries q w
    = (Ok tt, w,
       [UI.AnswerCallbackQuery (UI.queryId q); UI.ConsoleError message;
        UI.SendMessage (UI.queryChatId q) UI.TError []]).
Proof.
  intros Hdata Hnone Hbot. unfold UI.onCallbackQuery. rewrite Hdata.
  rewrite (jsReplace_prefix "edit_wallet_" id),
    (startsWith_append "edit_wallet_" id).
  cbv zeta.
  change (String.eqb ("edit_wallet_" +:+ id) "back_to_menu") with false.
  change (String.eqb ("edit_wallet_" +:+ id) "add_wallet") with false.
  change (String.eqb ("edit_wallet_" +:+ id) "view_wallets") with false.
  change (String.eqb ("edit_wallet_" +:+ id) "remove_wallet") with false.
  cbv iota.
  unfold UI.try_catch, UI.bind, UI.await, UI.handleEditWallet, UI.bind,
    UI.loadWallets. rewrite Hbot. fold (storeOf w). rewrite Hnone.
  eexists. reflexivity.
Qed.

(** ** The steps of the conversation *)

Section Conversation.

Variable StringToNumber : string -> jsnum.
Variable env : Env.
Variable connection : Connection.
Variable bot : UI.Call -> result unit.
Variable entries : UI.UserWallets -> list (string * UI.WalletObject).
Variable trim : string -> string.
Variable jsLength : string -> nat.
Variable parseFloat : string -> jsnum.

Local Abbreviation onMessage :=
  (UI.onMessage StringToNumber env connection trim jsLength parseFloat).

Lemma name_step msg w raw session :
  UI.text msg = Some raw -> accepted raw = true ->
  UI.userSessions w !! UI.fromId msg = Some session ->
  UI.state session = "awaiting_wallet_name" ->
  (jsLength (trim raw) <= 50)%nat ->
  onMessage msg w
  = (Ok tt,
     withSessions w
       (<[UI.fromId msg :=
            {| UI.state := "awaiting_wallet_address";
               UI.walletName := Some (trim raw);
               UI.walletId := UI.walletId session |}]> (UI.userSessions w)),
     [UI.SendMessage (UI.chatId msg) (UI.TAskAddress (trim raw)) []]).
Proof.
  intros Htext Hacc Hsession Hstate Hlen. unfold UI.onMessage.
  rewrite Htext. unfold accepted in Hacc.
  apply negb_true_iff in Hacc. rewrite Hacc.
  unfold UI.bind at 1, UI.session_get. rewrite Hsession, Hstate.
  change (String.eqb "awaiting_wallet_name" "awaiting_wallet_name") with true.
  cbv iota.
  assert (Hlt : (50 <? jsLength (trim raw))%nat = false)
    by (apply Nat.ltb_ge; exact Hlen).
  rewrite Hlt. reflexivity.
Qed.

Lemma address_step msg w raw session :
  UI.text msg = Some raw -> accepted raw = true ->
  UI.userSessions w !! UI.fromId msg = Some session ->
  UI.state session = "awaiting_wallet_address" ->
  validAddress connection (trim raw) = true ->
  UI.writable w = true ->
  onMessage msg w
  = (Ok tt,
     {| UI.file :=
          UI.Json
            (UI.stringify
               (<[UI.fromId msg :=
                    <[UI.now msg :=
                        UI.newWallet env (UI.walletName session) (trim raw)
                          (UI.nowISO msg)]>
                      (default ∅ (storeOf w !! UI.fromId msg))]>
                  (storeOf w)));
        UI.writable := true;
        UI.userSessions := delete (UI.fromId msg) (UI.userSessions w) |},
     [UI.SendMessage (UI.chatId msg) (UI.TAdded (UI.walletName session))
        ["edit_wallet_" +:+ UI.now msg; "back_to_menu"]]).
Proof.
  intros Htext Hacc Hsession Hstate Hvalid Hw. unfold UI.onMessage.
  rewrite Htext. unfold accepted in Hacc.
  apply negb_true_iff in Hacc. rewrite Hacc.
  unfold UI.bind at 1, UI.session_get. rewrite Hsession, Hstate.
  change (String.eqb "awaiting_wallet_address" "awaiting_wallet_name")
    with false.
  change (String.eqb "awaiting_wallet_address" "awaiting_wallet_address")
    with true.
  cbv iota. unfold UI.isValidSolanaAddress. rewrite Hvalid.
  unfold UI.try_catch, UI.bind, UI.loadWallets, UI.saveWallets.
  cbn [negb]. cbv beta iota. fold (storeOf w). rewrite Hw. reflexivity.
Qed.

Lemma add_wallet_button q w :
  UI.data q = "add_wallet" ->
  bot (UI.AnswerCallbackQuery (UI.queryId q)) = Ok tt ->
  exists calls,
    UI.onCallbackQuery bot entries q w
    = (Ok tt,
       withSessions w
         (<[UI.queryFromId q :=
              {| UI.state := "awaiting_wallet_name"; UI.walletName := None;
                 UI.walletId := None |}]> (UI.userSessions w)),
       calls).
Proof.
  intros Hdata Hbot. unfold UI.onCallbackQuery. rewrite Hdata. cbv zeta.
  change (String.eqb "add_wallet" "back_to_menu") with false.
  change (String.eqb "add_wallet" "add_wallet") with true. cbv iota.
  unfold UI.try_catch, UI.bind, UI.await, UI.handleAddWallet, UI.bind,
    UI.session_set, UI.await.
  rewrite Hbot. destruct (bot (UI.EditMessageText _ _ _ _)) as [[]|e];
    eexists; reflexivity.
Qed.

(** X20. The conversation that adds a wallet, handled one update after
    the other: the button [add_wallet], then a name of at most 50
    characters, then a valid address.  It ends with no session for the
    user, the confirmation with the link to the new wallet as the last
    message, and a store in which the wallet named by the clock holds the
    trimmed name and address with the default filters; every other
    wallet is what it was, as JSON writes it.  The outcome of editing
    the menu message does not matter. *)
Theorem conversation_adds_a_wallet q msg1 msg2 name address w :
  UI.data q = "add_wallet" ->
  bot (UI.AnswerCallbackQuery (UI.queryId q)) = Ok tt ->
  UI.fromId msg1 = UI.queryFromId q ->
  UI.fromId msg2 = UI.queryFromId q ->
  UI.text msg1 = Some name -> accepted name = true ->
  (jsLength (trim name) <= 50)%nat ->
  UI.text msg2 = Some address -> accepted address = true ->
  validAddress connection (trim address) = true ->
  UI.writable w = true ->
  let run :=
    UI.bind (UI.onCallbackQuery bot entries q)
      (fun _ => UI.bind (onMessage msg1) (fun _ => onMessage msg2)) w in
  resultOf run = Ok tt /\
  UI.userSessions (worldAfter run)
  = delete (UI.queryFromId q) (UI.userSessions w) /\
  (exists calls,
     callsOf run
     = calls
       ++ [UI.SendMessage (UI.chatId msg1) (UI.TAskAddress (trim name)) [];
           UI.SendMessage (UI.chatId msg2) (UI.TAdded (Some (trim name)))
             ["edit_wallet_" +:+ UI.now msg2; "back_to_menu"]]) /\
  forall u i,
    UI.findWallet (storeOf (worldAfter run)) u i
    = if decide (u = UI.queryFromId q /\ i = UI.now msg2)
      then Some (asWritten
                   (UI.newWallet env (Some (trim name)) (trim address)
                      (UI.nowISO msg2)))
      else asWritten <$> UI.findWallet (storeOf w) u i.
Proof.
  intros Hdata Hbot Hfrom1 Hfrom2 Htext1 Hacc1 Hlen Htext2 Hacc2 Hvalid Hw.
  cbv zeta. destruct (add_wallet_button q w Hdata Hbot) as (calls & Hq).
  unfold UI.bind. rewrite Hq. cbv beta iota.
  rewrite (name_step msg1 _ name
             {| UI.state := "awaiting_wallet_name"; UI.walletName := None;
                UI.walletId := None |} Htext1 Hacc1)
    by (try exact Hlen; try reflexivity; rewrite Hfrom1;
        apply lookup_insert_eq).
  cbv beta iota.
  erewrite (address_step msg2 _ address _ Htext2 Hacc2);
    [|rewrite Hfrom2, Hfrom1; apply lookup_insert_eq|reflexivity
     |exact Hvalid|exact Hw].
  cbv beta iota.
  split; [reflexivity|]. split.
  { cbn. rewrite Hfrom1, Hfrom2. rewrite !delete_insert_eq. reflexivity. }
  split; [exists calls; reflexivity|].
  intros u i. cbn. rewrite findWallet_stringify. rewrite Hfrom2.
  change (storeOf (withSessions (withSessions w _) _)) with (storeOf w).
  rewrite findWallet_insert.
  - case_decide; reflexivity.
  - destruct (storeOf w !! UI.queryFromId q) as [uw|];
      [left; reflexivity|right; split; reflexivity].
Qed.

Ltac no_log :=
  cbn; intros Hin;
  repeat match goal with
         | H : _ \/ _ |- _ => destruct H
         | H : False |- _ => destruct H
         | H : _ = UI.ConsoleError _ |- _ => discriminate H
         end.

Ltac logged :=
  cbn; intros Hin;
  repeat match goal with
         | H : _ \/ _ |- _ => destruct H
         | H : False |- _ => destruct H
         | H : _ = UI.ConsoleError _ |- _ =>
             first [discriminate H | injection H as ->]
         end;
  auto.

Lemma updateWalletFilter_cases userId walletId field value w :
  (exists w', UI.updateWalletFilter userId walletId field value w
              = (Ok tt, w', [])) \/
  (exists e, UI.updateWalletFilter userId walletId field value w
             = (Throw e, w, [])).
Proof.
  unfold UI.updateWalletFilter, UI.bind, UI.loadWallets, UI.saveWallets,
    UI.ret.
  destruct (_ !! userId) as [uw|]; [|left; eexists; reflexivity].
  destruct (uw !! walletId); [|left; eexists; reflexivity].
  destruct (UI.writable w);
    [left; eexists; reflexivity|right; eexists; reflexivity].
Qed.

(** X21. When the message handler logs an error, the file is what it was,
    the session of the sender is deleted, and the log entry and the error
    text are all that was emitted. *)
Theorem logged_error_ends_the_conversation msg w message :
  In (UI.ConsoleError message) (callsOf (onMessage msg w)) ->
  onMessage msg w
  = (Ok tt, withSessions w (delete (UI.fromId msg) (UI.userSessions w)),
     [UI.ConsoleError message; UI.SendMessage (UI.chatId msg) UI.TError []]).
Proof.
  unfold UI.onMessage.
  destruct (UI.text msg) as [raw|]; [|intros []].
  destruct (_ || _); [intros []|].
  unfold UI.bind, UI.session_get.
  destruct (UI.userSessions w !! UI.fromId msg) as [session|]; [|intros []].
  destruct (String.eqb _ "awaiting_wallet_name").
  { destruct (_ <? _)%nat; no_log. }
  destruct (String.eqb _ "awaiting_wallet_address").
  { destruct (negb _); [no_log|].
    unfold UI.try_catch, UI.bind, UI.loadWallets, UI.saveWallets.
    destruct (UI.writable w); [no_log|logged]. }
  destruct (String.eqb _ "awaiting_min_amount").
  { destruct (_ || _); [no_log|].
    unfold UI.try_catch, UI.bind.
    destruct (updateWalletFilter_cases (UI.fromId msg)
                (UI.show (UI.walletId session)) "minAmount"
                (JNum (parseFloat (trim raw))) w) as [(w' & ->)|(e & ->)];
      [no_log|logged]. }
  destruct (String.eqb _ "awaiting_max_amount"); [|no_log].
  destruct (_ || _); [no_log|].
  unfold UI.try_catch, UI.loadWallets.
  destruct (UI.findWallet _ _ _) as [currentWallet|].
  - destruct (lt_val _ _ _); [no_log|].
    unfold UI.bind.
    destruct (updateWalletFilter_cases (UI.fromId msg)
                (UI.show (UI.walletId session)) "maxAmount"
                (JNum (parseFloat (trim raw))) w) as [(w' & ->)|(e & ->)];
      [no_log|logged].
  - unfold UI.bind.
    destruct (updateWalletFilter_cases (UI.fromId msg)
                (UI.show (UI.walletId session)) "maxAmount"
                (JNum (parseFloat (trim raw))) w) as [(w' & ->)|(e & ->)];
      [no_log|logged].
Qed.

Lemma updateWalletFilter_known userId walletId field value w wallet :
  UI.findWallet (storeOf w) userId walletId = Some wallet ->
  UI.writable w = true ->
  exists userWallets,
    storeOf w !! userId = Some userWallets /\
    UI.updateWalletFilter userId walletId field value w
    = (Ok tt,
       withFile w
         (UI.Json
            (UI.stringify
               (<[userId := <[walletId := <[field := value]> wallet]>
                              userWallets]> (storeOf w)))),
       []).
Proof.
  intros H Hw. apply findWallet_Some in H. destruct H as (uw & Hu & Hi).
  exists uw. split; [exact Hu|].
  unfold UI.updateWalletFilter, UI.bind, UI.loadWallets, UI.saveWallets.
  fold (storeOf w). unfold withFile. rewrite Hu, Hi, Hw. reflexivity.
Qed.

Lemma updateWalletFilter_keeps_file userId walletId field value w :
  UI.findWallet (storeOf w) userId walletId = None \/ UI.writable w = false ->
  worldAfter (UI.updateWalletFilter userId walletId field value w) = w.
Proof.
  unfold UI.updateWalletFilter, UI.bind, UI.loadWallets, UI.saveWallets,
    UI.findWallet.
  fold (storeOf w). intros H.
  destruct (storeOf w !! userId) as [uw|]; [|reflexivity].
  destruct (uw !! walletId); [|reflexivity].
  destruct H as [H|H]; [discriminate|]. rewrite H. reflexivity.
Qed.

Lemma le_val_false a v :
  le_val StringToNumber (Finite a) v = false <->
  notAtMost a (ToNumber StringToNumber v).
Proof.
  unfold le_val. destruct (ToNumber StringToNumber v) as [|negative|f];
    cbn [num_le notAtMost].
  - split; auto.
  - apply negb_false_iff.
  - rewrite <- Qltb_lt. unfold Qltb. rewrite negb_true_iff. reflexivity.
Qed.

(** What [JSON.stringify] leaves of a number that was stored. *)
Lemma get_asWritten_number (wallet : UI.WalletObject) field n :
  UI.get (asWritten (<[field := JNum n]> wallet)) field
  = match n with
    | Finite _ => JNum n
    | _ => JNull
    end.
Proof.
  unfold UI.get, asWritten. rewrite lookup_omap, lookup_insert_eq.
  destruct n; reflexivity.
Qed.

Lemma updateWalletFilter_then userId walletId field value w
    (rest : UI.U unit) :
  (forall w', UI.file (worldAfter (rest w')) = UI.file w') ->
  UI.file (worldAfter
             (UI.bind (UI.updateWalletFilter userId walletId field value)
                (fun _ => rest) w))
  <> UI.file w ->
  exists wallet,
    UI.findWallet (storeOf w) userId walletId = Some wallet /\
    UI.writable w = true /\
    UI.findWallet
      (storeOf
         (worldAfter
            (UI.bind (UI.updateWalletFilter userId walletId field value)
               (fun _ => rest) w)))
      userId walletId
    = Some (asWritten (<[field := value]> wallet)).
Proof.
  intros Hrest H.
  destruct (UI.findWallet (storeOf w) userId walletId) as [wallet|] eqn:Hf;
    [destruct (UI.writable w) eqn:Hw|].
  - exists wallet. split; [reflexivity|]. split; [reflexivity|].
    destruct (updateWalletFilter_known userId walletId field value w wallet
                Hf Hw) as (uw & Hu & Hrun).
    unfold UI.bind. rewrite Hrun.
    match goal with
    | |- context [rest ?w0] =>
        specialize (Hrest w0); destruct (rest w0) as [[r w''] t'] eqn:Hr
    end.
    unfold worldAfter in *. cbn in *. unfold storeOf. rewrite Hrest.
    fold (storeOf w).
    change (UI.findWallet
              (UI.stringify
                 (<[userId := <[walletId := <[field := value]> wallet]> uw]>
                    (storeOf w))) userId walletId
            = Some (asWritten (<[field := value]> wallet))).
    rewrite findWallet_stringify, (findWallet_insert (storeOf w) userId uw)
      by (left; exact Hu).
    case_decide as Hd; [reflexivity|destruct Hd; split; reflexivity].
  - exfalso. apply H.
    pose proof (updateWalletFilter_keeps_file userId walletId field value w
                  (or_intror Hw)) as Hk.
    unfold UI.bind, worldAfter in *.
    destruct (UI.updateWalletFilter _ _ _ _ w) as [[[[]|e] w'] t];
      cbn in Hk; subst w'; [|reflexivity].
    specialize (Hrest w). destruct (rest w) as [[r w''] t']. exact Hrest.
  - exfalso. apply H.
    pose proof (updateWalletFilter_keeps_file userId walletId field value w
                  (or_introl Hf)) as Hk.
    unfold UI.bind, worldAfter in *.
    destruct (UI.updateWalletFilter _ _ _ _ w) as [[[[]|e] w'] t];
      cbn in Hk; subst w'; [|reflexivity].
    specialize (Hrest w). destruct (rest w) as [[r w''] t']. exact Hrest.
Qed.

Lemma try_catch_file (m : UI.U unit) (h : string -> UI.U unit) w :
  (forall e w', UI.file (worldAfter (h e w')) = UI.file w') ->
  UI.file (worldAfter (UI.try_catch m h w)) = UI.file (worldAfter (m w)) /\
  (forall u i,
     UI.findWallet (storeOf (worldAfter (UI.try_catch m h w))) u i
     = UI.findWallet (storeOf (worldAfter (m w))) u i).
Proof.
  intros Hh. unfold UI.try_catch, worldAfter.
  destruct (m w) as [[[[]|e] w'] t]; [split; reflexivity|].
  specialize (Hh e w'). unfold worldAfter in Hh.
  destruct (h e w') as [[r w''] t']. cbn in *.
  split; [exact Hh|]. intros u i. unfold storeOf. rewrite Hh. reflexivity.
Qed.

Lemma bind_session_get {A} userId (k : option UI.Session -> UI.U A) w :
  UI.bind (UI.session_get userId) k w = k (UI.userSessions w !! userId) w.
Proof.
  unfold UI.bind, UI.session_get.
  destruct (k (UI.userSessions w !! userId) w) as [[r w'] t]. reflexivity.
Qed.

(** X22. For a sender and a wallet id that name no inherited property,
    the minimum step writes the file only for a text that parses to a
    number that is not NaN and not below the floor, and for a wallet of
    the sender that is stored; what it writes is that number as the
    [minAmount] of that wallet when the number is finite, and [null] when
    it is an infinity. *)
Theorem stored_minimum_respects_the_floor msg w session :
  UI.userSessions w !! UI.fromId msg = Some session ->
  UI.state session = "awaiting_min_amount" ->
  UI.inherited (UI.fromId msg) = false ->
  UI.inherited (UI.show (UI.walletId session)) = false ->
  let after := worldAfter (onMessage msg w) in
  UI.file after <> UI.file w ->
  exists raw wallet,
    UI.text msg = Some raw /\
    num_isNaN (parseFloat (trim raw)) = false /\
    num_lt (parseFloat (trim raw)) (floor StringToNumber env) = false /\
    (forall m, parseFloat (trim raw) = Finite m ->
               floor_allows StringToNumber env m) /\
    UI.findWallet (storeOf w) (UI.fromId msg) (UI.show (UI.walletId session))
    = Some wallet /\
    UI.findWallet (storeOf after) (UI.fromId msg)
      (UI.show (UI.walletId session))
    = Some (asWritten
              (<["minAmount" := JNum (parseFloat (trim raw))]> wallet)) /\
    UI.get (asWritten (<["minAmount" := JNum (parseFloat (trim raw))]> wallet))
      "minAmount"
    = match parseFloat (trim raw) with
      | Finite m => JNum (Finite m)
      | _ => JNull
      end.
Proof.
  intros Hsession Hstate _ _. cbv zeta. unfold UI.onMessage.
  destruct (UI.text msg) as [raw|]; [|intros []; reflexivity].
  destruct (_ || _); [intros []; reflexivity|].
  rewrite bind_session_get, Hsession, Hstate.
  change (String.eqb "awaiting_min_amount" "awaiting_wallet_name") with false.
  change (String.eqb "awaiting_min_amount" "awaiting_wallet_address")
    with false.
  change (String.eqb "awaiting_min_amount" "awaiting_min_amount") with true.
  cbv iota.
  destruct (num_isNaN (parseFloat (trim raw))) eqn:Hnan;
    [intros []; reflexivity|].
  destruct (lt_val StringToNumber (parseFloat (trim raw)) _) eqn:Hfloor;
    [intros []; reflexivity|].
  cbn [orb].
  match goal with
  | |- context [UI.try_catch ?m ?h w] =>
      destruct (try_catch_file m h w) as (Hfile & Hfind);
      [intros e w'; reflexivity|]
  end.
  rewrite Hfile, Hfind. intros Hchanged.
  apply updateWalletFilter_then in Hchanged; [|intros w'; reflexivity].
  destruct Hchanged as (wallet & Hwallet & _ & Hafter).
  exists raw, wallet. split; [reflexivity|]. split; [exact Hnan|].
  split; [exact Hfloor|]. split.
  { intros m Hm. rewrite Hm in Hfloor. apply lt_val_false. exact Hfloor. }
  split; [exact Hwallet|]. split; [exact Hafter|].
  rewrite get_asWritten_number.
  destruct (parseFloat (trim raw)); reflexivity.
Qed.

Lemma bind_loadWallets {A} (k : UI.Store -> UI.U A) w :
  UI.bind UI.loadWallets k w = k (storeOf w) w.
Proof.
  unfold UI.bind, UI.loadWallets. fold (storeOf w).
  destruct (k (storeOf w) w) as [[r w'] t]. reflexivity.
Qed.

(** X23. For a sender and a wallet id that name no inherited property,
    the maximum step writes the file only for a text that parses to a
    number that is not NaN, not at most the floor and not below the
    [minAmount] of the wallet, and only for a stored wallet of the
    sender; what it writes is that number as the [maxAmount] of that
    wallet when the number is finite, and [null] when it is an
    infinity. *)
Theorem stored_maximum_respects_the_bounds msg w session :
  UI.userSessions w !! UI.fromId msg = Some session ->
  UI.state session = "awaiting_max_amount" ->
  UI.inherited (UI.fromId msg) = false ->
  UI.inherited (UI.show (UI.walletId session)) = false ->
  let after := worldAfter (onMessage msg w) in
  UI.file after <> UI.file w ->
  exists raw wallet,
    UI.text msg = Some raw /\
    num_isNaN (parseFloat (trim raw)) = false /\
    num_le (parseFloat (trim raw)) (floor StringToNumber env) = false /\
    UI.findWallet (storeOf w) (UI.fromId msg) (UI.show (UI.walletId session))
    = Some wallet /\
    num_lt (parseFloat (trim raw))
      (ToNumber StringToNumber (UI.get wallet "minAmount")) = false /\
    (forall m, parseFloat (trim raw) = Finite m ->
               notAtMost m (floor StringToNumber env) /\
               notBelow m
                 (ToNumber StringToNumber (UI.get wallet "minAmount"))) /\
    UI.findWallet (storeOf after) (UI.fromId msg)
      (UI.show (UI.walletId session))
    = Some (asWritten
              (<["maxAmount" := JNum (parseFloat (trim raw))]> wallet)) /\
    UI.get (asWritten (<["maxAmount" := JNum (parseFloat (trim raw))]> wallet))
      "maxAmount"
    = match parseFloat (trim raw) with
      | Finite m => JNum (Finite m)
      | _ => JNull
      end.
Proof.
  intros Hsession Hstate _ _. cbv zeta. unfold UI.onMessage.
  destruct (UI.text msg) as [raw|]; [|intros []; reflexivity].
  destruct (_ || _); [intros []; reflexivity|].
  rewrite bind_session_get, Hsession, Hstate.
  change (String.eqb "awaiting_max_amount" "awaiting_wallet_name") with false.
  change (String.eqb "awaiting_max_amount" "awaiting_wallet_address")
    with false.
  change (String.eqb "awaiting_max_amount" "awaiting_min_amount") with false.
  change (String.eqb "awaiting_max_amount" "awaiting_max_amount") with true.
  cbv iota.
  destruct (num_isNaN (parseFloat (trim raw))) eqn:Hnan;
    [intros []; reflexivity|].
  destruct (le_val StringToNumber (parseFloat (trim raw)) _) eqn:Hfloor;
    [intros []; reflexivity|].
  cbn [orb].
  match goal with
  | |- context [UI.try_catch ?m ?h w] =>
      destruct (try_catch_file m h w) as (Hfile & Hfind);
      [intros e w'; reflexivity|]
  end.
  rewrite Hfile, Hfind. clear Hfile Hfind.
  rewrite bind_loadWallets.
  destruct (UI.findWallet (storeOf w) _ _) as [wallet|] eqn:Hwallet.
  - destruct (lt_val StringToNumber (parseFloat (trim raw)) _) eqn:Hmin;
      [intros []; reflexivity|].
    intros Hchanged.
    apply updateWalletFilter_then in Hchanged; [|intros w'; reflexivity].
    destruct Hchanged as (wallet' & Hwallet' & _ & Hafter).
    rewrite Hwallet in Hwallet'. injection Hwallet' as <-.
    exists raw, wallet. split; [reflexivity|]. split; [exact Hnan|].
    split; [exact Hfloor|]. split; [reflexivity|]. split; [exact Hmin|].
    split.
    { intros m Hm. rewrite Hm in Hfloor, Hmin.
      split; [apply le_val_false; exact Hfloor
             |apply lt_val_false; exact Hmin]. }
    split; [exact Hafter|].
    rewrite get_asWritten_number.
    destruct (parseFloat (trim raw)); reflexivity.
  - intros Hchanged.
    apply updateWalletFilter_then in Hchanged; [|intros w'; reflexivity].
    destruct Hchanged as (wallet' & Hwallet' & _).
    rewrite Hwallet in Hwallet'. discriminate.
Qed.

End Conversation.

(** ** The settings buttons *)

Lemma split_filter_data action id :
  hasChar UI.underscore action = false ->
  hasChar UI.underscore id = false ->
  UI.jsSplit UI.underscore ("filter_" +:+ action +:+ String UI.underscore id)
  = ["filter"; action; id].
Proof.
  intros Haction Hid.
  change ("filter_" +:+ action +:+ String UI.underscore id)
    with ("filter" +:+ String UI.underscore
                         (action +:+ String UI.underscore id)).
  rewrite jsSplit_at_separator by reflexivity.
  rewrite jsSplit_at_separator by exact Haction.
  rewrite jsSplit_no_separator by exact Hid. reflexivity.
Qed.

Lemma split_direction_data direction id :
  hasChar UI.underscore direction = false ->
  hasChar UI.underscore id = false ->
  UI.jsSplit UI.underscore
    ("set_direction_" +:+ direction +:+ String UI.underscore id)
  = ["set"; "direction"; direction; id].
Proof.
  intros Hdirection Hid.
  change ("set_direction_" +:+ direction +:+ String UI.underscore id)
    with ("set" +:+ String UI.underscore
                      ("direction" +:+ String UI.underscore
                                         (direction
                                          +:+ String UI.underscore id))).
  rewrite jsSplit_at_separator by reflexivity.
  rewrite jsSplit_at_separator by reflexivity.
  rewrite jsSplit_at_separator by exact Hdirection.
  rewrite jsSplit_no_separator by exact Hid. reflexivity.
Qed.

Lemma handleEditWallet_keeps_world bot chatId messageId userId walletId w :
  worldAfter (UI.handleEditWallet bot chatId messageId userId walletId w) = w.
Proof.
  unfold UI.handleEditWallet. rewrite bind_loadWallets.
  destruct (UI.findWallet (storeOf w) userId walletId) as [wallet|];
    [|reflexivity].
  unfold UI.bind, UI.directionLabel, UI.await.
  destruct (UI.get wallet "direction"); reflexivity.
Qed.

(** X24. The toggle button: for a stored wallet whose id has no
    underscore, [filter_toggle_<id>] stores the negation of the
    truthiness of [active] for that wallet and leaves every other wallet
    and the sessions as they were, whatever the redrawn settings message
    does. *)
Theorem toggle_flips_active
    (bot : UI.Call -> result unit)
    (chatId messageId userId id : string) (w : UI.World)
    (wallet : UI.WalletObject) :
  hasChar UI.underscore id = false ->
  UI.findWallet (storeOf w) userId id = Some wallet ->
  UI.writable w = true ->
  let after :=
    worldAfter
      (UI.handleFilterSelection bot chatId messageId userId
         ("filter_toggle_" +:+ id) w) in
  UI.userSessions after = UI.userSessions w /\
  forall u i,
    UI.findWallet (storeOf after) u i
    = if decide (u = userId /\ i = id)
      then Some (asWritten
                   (<["active" :=
                        JBool (negb (ToBoolean (UI.get wallet "active")))]>
                      wallet))
      else asWritten <$> UI.findWallet (storeOf w) u i.
Proof.
  intros Hid Hwallet Hw. cbv zeta.
  pose proof Hwallet as H'. apply findWallet_Some in H'.
  destruct H' as (uw & Hu & Hi).
  assert (Hafter :
    worldAfter
      (UI.handleFilterSelection bot chatId messageId userId
         ("filter_toggle_" +:+ id) w)
    = withFile w
        (UI.Json
           (UI.stringify
              (<[userId :=
                   <[id := <["active" :=
                               JBool (negb (ToBoolean
                                              (UI.get wallet "active")))]>
                             wallet]> uw]> (storeOf w))))).
  { unfold UI.handleFilterSelection.
    assert (Hsplit : UI.jsSplit UI.underscore ("filter_toggle_" +:+ id)
                     = ["filter"; "toggle"; id])
      by (apply (split_filter_data "toggle" id); [reflexivity|exact Hid]).
    rewrite Hsplit.
    cbv zeta.
    change (UI.startsWith "set_direction_" ("filter_toggle_" +:+ id))
      with false.
    change (["filter"; "toggle"; id] !! 1%nat) with (Some "toggle").
    change (["filter"; "toggle"; id] !! 2%nat) with (Some id).
    change (UI.show (Some id)) with id.
    repeat case_decide; try congruence.
    unfold UI.bind at 1.
    rewrite bind_loadWallets. rewrite Hu, Hi.
    unfold UI.bind, UI.saveWallets. rewrite Hw.
    match goal with
    | |- context [UI.handleEditWallet bot chatId messageId userId id ?w0] =>
        pose proof (handleEditWallet_keeps_world bot chatId messageId userId
                      id w0) as Hkeep;
        destruct (UI.handleEditWallet bot chatId messageId userId id w0)
          as [[[[]|e] w1] t1]
    end; cbn in Hkeep; subst w1; unfold withFile; rewrite Hw; reflexivity. }
  rewrite Hafter. split; [reflexivity|].
  intros u i. cbn. rewrite findWallet_stringify.
  rewrite (findWallet_insert (storeOf w) userId uw) by (left; exact Hu).
  case_decide; reflexivity.
Qed.

(** X25. [initDataFile] never changes what [loadWallets] reads: it
    creates an empty store only where the file is missing, leaves a file
    that exists (also an unparsable one) untouched, and a missing file
    exists after it returned. *)
Theorem initDataFile_keeps_the_store (w : UI.World) :
  let run := UI.initDataFile w in
  storeOf (worldAfter run) = storeOf w /\
  UI.userSessions (worldAfter run) = UI.userSessions w /\
  callsOf run = [] /\
  (resultOf run = Ok tt -> UI.file (worldAfter run) <> UI.Missing) /\
  (UI.file w <> UI.Missing -> run = (Ok tt, w, [])).
Proof.
  cbv zeta. unfold UI.initDataFile, UI.saveWallets, storeOf.
  destruct (UI.file w) eqn:Hfile; cbn; rewrite ?Hfile.
  - destruct (UI.writable w); cbn; rewrite ?Hfile;
      (split; [reflexivity|]; split; [reflexivity|]; split; [reflexivity|];
       split; [discriminate|intros []; reflexivity]).
  - split; [reflexivity|]. split; [reflexivity|]. split; [reflexivity|].
    split; [congruence|reflexivity].
  - split; [reflexivity|]. split; [reflexivity|]. split; [reflexivity|].
    split; [congruence|reflexivity].
Qed.

Section Settings.

Variable StringToNumber : string -> jsnum.
Variable env : Env.
Variable connection : Connection.
Variable bot : UI.Call -> result unit.
Variable entries : UI.UserWallets -> list (string * UI.WalletObject).
Variable trim : string -> string.
Variable jsLength : string -> nat.
Variable parseFloat : string -> jsnum.

Local Abbreviation onMessage :=
  (UI.onMessage StringToNumber env connection trim jsLength parseFloat).

Lemma minimum_button q id w :
  hasChar UI.underscore id = false ->
  UI.data q = "filter_min_" +:+ id ->
  bot (UI.AnswerCallbackQuery (UI.queryId q)) = Ok tt ->
  exists calls,
    UI.onCallbackQuery bot entries q w
    = (Ok tt,
       withSessions w
         (<[UI.queryFromId q :=
              {| UI.state := "awaiting_min_amount"; UI.walletName := None;
                 UI.walletId := Some id |}]> (UI.userSessions w)),
       calls).
Proof.
  intros Hid Hdata Hbot. unfold UI.onCallbackQuery. rewrite Hdata. cbv zeta.
  change (String.eqb ("filter_min_" +:+ id) "back_to_menu") with false.
  change (String.eqb ("filter_min_" +:+ id) "add_wallet") with false.
  change (String.eqb ("filter_min_" +:+ id) "view_wallets") with false.
  change (String.eqb ("filter_min_" +:+ id) "remove_wallet") with false.
  change (UI.startsWith "edit_wallet_" ("filter_min_" +:+ id)) with false.
  change (UI.startsWith "remove_wallet_" ("filter_min_" +:+ id)) with false.
  change (UI.startsWith "confirm_remove_" ("filter_min_" +:+ id)) with false.
  change (UI.startsWith "filter_" ("filter_min_" +:+ id)) with true.
  cbv iota. unfold UI.handleFilterSelection.
  assert (Hsplit : UI.jsSplit UI.underscore ("filter_min_" +:+ id)
                   = ["filter"; "min"; id])
    by (apply (split_filter_data "min" id); [reflexivity|exact Hid]).
  rewrite Hsplit. cbv zeta.
  change (UI.startsWith "set_direction_" ("filter_min_" +:+ id)) with false.
  change (["filter"; "min"; id] !! 1%nat) with (Some "min").
  change (["filter"; "min"; id] !! 2%nat) with (Some id).
  repeat case_decide; try congruence.
  unfold UI.try_catch, UI.bind, UI.await, UI.session_set. rewrite Hbot.
  destruct (bot (UI.EditMessageText _ _ _ _)) as [[]|e];
    eexists; reflexivity.
Qed.

Lemma minimum_step msg w raw m session wallet :
  UI.text msg = Some raw -> accepted raw = true ->
  UI.userSessions w !! UI.fromId msg = Some session ->
  UI.state session = "awaiting_min_amount" ->
  parseFloat (trim raw) = Finite m ->
  floor_allows StringToNumber env m ->
  UI.findWallet (storeOf w) (UI.fromId msg) (UI.show (UI.walletId session))
  = Some wallet ->
  UI.writable w = true ->
  exists userWallets,
    storeOf w !! UI.fromId msg = Some userWallets /\
    onMessage msg w
    = (Ok tt,
       {| UI.file :=
            UI.Json
              (UI.stringify
                 (<[UI.fromId msg :=
                      <[UI.show (UI.walletId session) :=
                          <["minAmount" := JNum (Finite m)]> wallet]>
                        userWallets]> (storeOf w)));
          UI.writable := UI.writable w;
          UI.userSessions := delete (UI.fromId msg) (UI.userSessions w) |},
       [UI.SendMessage (UI.chatId msg) (UI.TMinSet (Finite m))
          (UI.afterKeyboard (UI.walletId session))]).
Proof.
  intros Htext Hacc Hsession Hstate Hparse Hfloor Hwallet Hw.
  destruct (updateWalletFilter_known (UI.fromId msg)
              (UI.show (UI.walletId session)) "minAmount" (JNum (Finite m))
              w wallet Hwallet Hw) as (uw & Hu & Hrun).
  exists uw. split; [exact Hu|].
  unfold UI.onMessage. rewrite Htext. unfold accepted in Hacc.
  apply negb_true_iff in Hacc. rewrite Hacc.
  rewrite bind_session_get, Hsession, Hstate.
  change (String.eqb "awaiting_min_amount" "awaiting_wallet_name") with false.
  change (String.eqb "awaiting_min_amount" "awaiting_wallet_address")
    with false.
  change (String.eqb "awaiting_min_amount" "awaiting_min_amount") with true.
  cbv iota. rewrite Hparse.
  apply (lt_val_false StringToNumber) in Hfloor. rewrite Hfloor.
  cbn [num_isNaN orb].
  unfold UI.try_catch, UI.bind. rewrite Hrun. reflexivity.
Qed.

(** X26. The id of a wallet survives the trip through the callback data
    and the session: after the button [filter_min_<id>] and a text that
    parses to a number not below the floor, it is the wallet [<id>] of
    the sender whose [minAmount] is that number, whatever its stored
    maximum; the session is closed and every other wallet is what it was,
    as JSON writes it. *)
Theorem minimum_button_then_amount_sets_that_wallet q msg raw m id w wallet :
  hasChar UI.underscore id = false ->
  UI.data q = "filter_min_" +:+ id ->
  bot (UI.AnswerCallbackQuery (UI.queryId q)) = Ok tt ->
  UI.fromId msg = UI.queryFromId q ->
  UI.text msg = Some raw -> accepted raw = true ->
  parseFloat (trim raw) = Finite m ->
  floor_allows StringToNumber env m ->
  UI.findWallet (storeOf w) (UI.queryFromId q) id = Some wallet ->
  UI.writable w = true ->
  let run :=
    UI.bind (UI.onCallbackQuery bot entries q) (fun _ => onMessage msg) w in
  resultOf run = Ok tt /\
  UI.userSessions (worldAfter run)
  = delete (UI.queryFromId q) (UI.userSessions w) /\
  forall u i,
    UI.findWallet (storeOf (worldAfter run)) u i
    = if decide (u = UI.queryFromId q /\ i = id)
      then Some (asWritten (<["minAmount" := JNum (Finite m)]> wallet))
      else asWritten <$> UI.findWallet (storeOf w) u i.
Proof.
  intros Hid Hdata Hbot Hfrom Htext Hacc Hparse Hfloor Hwallet Hw. cbv zeta.
  destruct (minimum_button q id w Hid Hdata Hbot) as (calls & Hq).
  unfold UI.bind. rewrite Hq. cbv beta iota.
  match goal with
  | |- context [onMessage msg ?w0] =>
      destruct (minimum_step msg w0 raw m
                  {| UI.state := "awaiting_min_amount";
                     UI.walletName := None; UI.walletId := Some id |}
                  wallet Htext Hacc) as (uw & Hu & Hrun);
      [rewrite Hfrom; apply lookup_insert_eq|reflexivity|exact Hparse
      |exact Hfloor|rewrite Hfrom; exact Hwallet|exact Hw|]
  end.
  rewrite Hrun. cbv beta iota. split; [reflexivity|]. split.
  { cbn. rewrite Hfrom, delete_insert_eq. reflexivity. }
  intros u i. cbn. rewrite findWallet_stringify, Hfrom.
  change (storeOf (withSessions w _)) with (storeOf w).
  rewrite (findWallet_insert (storeOf w) (UI.queryFromId q) uw)
    by (left; rewrite <- Hfrom; exact Hu).
  case_decide; reflexivity.
Qed.

Lemma get_asWritten_insert (wallet : UI.WalletObject) field value :
  UI.get (asWritten (<[field := value]> wallet)) field
  = default JUndefined (UI.toJSON value).
Proof.
  unfold UI.get, asWritten. rewrite lookup_omap, lookup_insert_eq.
  reflexivity.
Qed.

(** X27. The direction buttons store their word: for direction and id
    without underscore, [set_direction_<direction>_<id>] stores the
    string [<direction>], unchecked, as the [direction] of the wallet
    [<id>] and redraws the settings of the updated wallet. *)
Theorem direction_button_stores_its_direction q direction id w wallet :
  hasChar UI.underscore direction = false ->
  hasChar UI.underscore id = false ->
  UI.data q = "set_direction_" +:+ (direction +:+ String UI.underscore id) ->
  bot (UI.AnswerCallbackQuery (UI.queryId q)) = Ok tt ->
  UI.findWallet (storeOf w) (UI.queryFromId q) id = Some wallet ->
  UI.writable w = true ->
  let run := UI.onCallbackQuery bot entries q w in
  let updated := asWritten (<["direction" := JStr direction]> wallet) in
  resultOf run = Ok tt /\
  In (UI.EditMessageText (UI.queryChatId q) (UI.queryMessageId q)
        (UI.TSettings updated)
        ["filter_min_" +:+ id; "filter_max_" +:+ id;
         "filter_direction_" +:+ id; "filter_toggle_" +:+ id;
         "view_wallets"])
     (callsOf run) /\
  forall u i,
    UI.findWallet (storeOf (worldAfter run)) u i
    = if decide (u = UI.queryFromId q /\ i = id) then Some updated
      else asWritten <$> UI.findWallet (storeOf w) u i.
Proof.
  intros Hdirection Hid Hdata Hbot Hwallet Hw. cbv zeta.
  destruct (updateWalletFilter_known (UI.queryFromId q) id "direction"
              (JStr direction) w wallet Hwallet Hw) as (uw & Hu & Hrun).
  assert (Hfind : forall u i,
    UI.findWallet
      (UI.stringify
         (<[UI.queryFromId q :=
              <[id := <["direction" := JStr direction]> wallet]> uw]>
            (storeOf w))) u i
    = if decide (u = UI.queryFromId q /\ i = id)
      then Some (asWritten (<["direction" := JStr direction]> wallet))
      else asWritten <$> UI.findWallet (storeOf w) u i).
  { intros u i. rewrite findWallet_stringify.
    rewrite (findWallet_insert (storeOf w) (UI.queryFromId q) uw)
      by (left; exact Hu).
    case_decide; reflexivity. }
  assert (Hq : exists calls,
    UI.onCallbackQuery bot entries q w
    = (Ok tt,
       withFile w
         (UI.Json
            (UI.stringify
               (<[UI.queryFromId q :=
                    <[id := <["direction" := JStr direction]> wallet]> uw]>
                  (storeOf w)))),
       [UI.AnswerCallbackQuery (UI.queryId q);
        UI.EditMessageText (UI.queryChatId q) (UI.queryMessageId q)
          (UI.TSettings
             (asWritten (<["direction" := JStr direction]> wallet)))
          ["filter_min_" +:+ id; "filter_max_" +:+ id;
           "filter_direction_" +:+ id; "filter_toggle_" +:+ id;
           "view_wallets"]] ++ calls)).
  { unfold UI.onCallbackQuery. rewrite Hdata. cbv zeta.
    rewrite (startsWith_append "set_direction_").
    assert (Hsplit :
      UI.jsSplit UI.underscore
        ("set_direction_" +:+ (direction +:+ String UI.underscore id))
      = ["set"; "direction"; direction; id])
      by (apply split_direction_data; assumption).
    rewrite Hsplit.
    change (["set"; "direction"; direction; id] !! 2%nat)
      with (Some direction).
    change (["set"; "direction"; direction; id] !! 3%nat) with (Some id).
    change (UI.show (Some id)) with id.
    change (UI.strOrUndefined (Some direction)) with (JStr direction).
    match goal with
    | |- context [String.eqb ?d "back_to_menu"] =>
        change (String.eqb d "back_to_menu") with false;
        change (String.eqb d "add_wallet") with false;
        change (String.eqb d "view_wallets") with false;
        change (String.eqb d "remove_wallet") with false;
        change (UI.startsWith "edit_wallet_" d) with false;
        change (UI.startsWith "remove_wallet_" d) with false;
        change (UI.startsWith "confirm_remove_" d) with false;
        change (UI.startsWith "filter_" d) with false
    end.
    cbv iota. unfold UI.try_catch, UI.bind at 1 2, UI.await at 1.
    rewrite Hbot, Hrun. unfold UI.handleEditWallet.
    rewrite bind_loadWallets.
    change (storeOf (withFile w (UI.Json ?s))) with s.
    rewrite Hfind. rewrite decide_True by (split; reflexivity).
    unfold UI.bind, UI.directionLabel. rewrite get_asWritten_insert.
    cbn [UI.toJSON default]. unfold UI.ret, UI.await.
    destruct (bot (UI.EditMessageText _ _ _ _)) as [[]|e];
      eexists; reflexivity. }
  destruct Hq as (calls & Hq). rewrite Hq.
  split; [reflexivity|]. split; [right; left; reflexivity|].
  intros u i. apply Hfind.
Qed.

End Settings.



(** ** The properties on the concrete conversation *)

Lemma wallet_buttons_route_to_their_wallet_witness :
  UI.onCallbackQuery botAccepting entriesByKey
    (pressed "edit_wallet_1700000000000") worldOne
  = routed botAccepting (pressed "edit_wallet_1700000000000")
      (UI.handleEditWallet botAccepting "7" "40" "7" "1700000000000")
      worldOne.
Proof.
  apply (proj1 (wallet_buttons_route_to_their_wallet botAccepting
                  entriesByKey (pressed "edit_wallet_1700000000000")
                  "1700000000000" worldOne)).
  reflexivity.
Defined.

Lemma updateWalletFilter_sets_one_field_witness :
  UI.findWallet
    (storeOf
       (worldAfter
          (UI.updateWalletFilter "7" "1700000000000" "maxAmount"
             (JNum (Finite 2)) worldOne)))
    "7" "1700000000000"
  = Some (asWritten (<["maxAmount" := JNum (Finite 2)]> walletStored)) /\
  UI.updateWalletFilter "7" "5" "maxAmount" (JNum (Finite 2)) worldOne
  = (Ok tt, worldOne, []).
Proof.
  split.
  - destruct (updateWalletFilter_sets_one_field "7" "1700000000000"
                "maxAmount" (JNum (Finite 2)) worldOne) as (_ & _ & H).
    destruct (H walletStored) as (_ & _ & _ & Hfind);
      [reflexivity|reflexivity|].
    rewrite Hfind. rewrite decide_True by (split; reflexivity). reflexivity.
  - apply (updateWalletFilter_sets_one_field "7" "5" "maxAmount"
             (JNum (Finite 2)) worldOne); reflexivity.
Defined.

Lemma handleActualRemove_removes_one_wallet_witness :
  UI.findWallet
    (storeOf
       (worldAfter
          (UI.handleActualRemove botAccepting "7" "40" "7" "1700000000000"
             worldOne)))
    "7" "1700000000000"
  = None.
Proof.
  destruct (handleActualRemove_removes_one_wallet botAccepting "7" "40" "7"
              "1700000000000" worldOne walletStored)
    as (_ & _ & _ & _ & Hfind);
    [reflexivity|reflexivity|].
  rewrite Hfind. rewrite decide_True by (split; reflexivity). reflexivity.
Defined.

Lemma editing_a_missing_wallet_reports_an_error_witness :
  exists message,
    UI.onCallbackQuery botAccepting entriesByKey (pressed "edit_wallet_5")
      worldOne
    = (Ok tt, worldOne,
       [UI.AnswerCallbackQuery "q1"; UI.ConsoleError message;
        UI.SendMessage "7" UI.TError []]).
Proof.
  apply (editing_a_missing_wallet_reports_an_error botAccepting entriesByKey
           (pressed "edit_wallet_5") "5" worldOne);
    [reflexivity|reflexivity|reflexivity].
Defined.

Lemma unreachable_replies_are_never_sent_witness :
  deadReply (UI.SendMessage "7" UI.TError []) = false.
Proof.
  apply (proj2 (unreachable_replies_are_never_sent parseConfigured env0 chain
                  botAccepting entriesByKey (fun s => s) String.length
                  parseAmount worldReadOnly) (said "Watched")).
  right. left. reflexivity.
Defined.

Lemma conversation_adds_a_wallet_witness :
  UI.findWallet
    (storeOf
       (worldAfter
          (UI.bind (UI.onCallbackQuery botAccepting entriesByKey
                      (pressed "add_wallet"))
             (fun _ =>
                UI.bind
                  (UI.onMessage parseConfigured env0 chain (fun s => s)
                     String.length parseAmount (said "second"))
                  (fun _ =>
                     UI.onMessage parseConfigured env0 chain (fun s => s)
                       String.length parseAmount (said "Watched")))
             worldOne)))
    "7" "1700000000001"
  = Some (asWritten
            (UI.newWallet env0 (Some "second") "Watched"
               "2026-01-02T00:00:00.000Z")).
Proof.
  destruct (conversation_adds_a_wallet parseConfigured env0 chain
              botAccepting entriesByKey (fun s => s) String.length
              parseAmount (pressed "add_wallet") (said "second")
              (said "Watched") "second" "Watched" worldOne)
    as (_ & _ & _ & Hfind);
    [first [reflexivity | vm_compute; lia] ..|].
  rewrite Hfind. rewrite decide_True by (split; reflexivity). reflexivity.
Defined.

Lemma logged_error_ends_the_conversation_witness :
  UI.onMessage parseConfigured env0 chain (fun s => s) String.length
    parseAmount (said "Watched") worldReadOnly
  = (Ok tt,
     withSessions worldReadOnly (delete "7" (UI.userSessions worldReadOnly)),
     [UI.ConsoleError "EACCES: permission denied";
      UI.SendMessage "7" UI.TError []]).
Proof.
  apply (logged_error_ends_the_conversation parseConfigured env0 chain
           (fun s => s) String.length parseAmount (said "Watched")
           worldReadOnly "EACCES: permission denied").
  left. reflexivity.
Defined.

Lemma stored_minimum_respects_the_floor_witness :
  exists raw wallet,
    Some "1.5" = Some raw /\
    num_isNaN (parseAmount raw) = false /\
    num_lt (parseAmount raw) (floor parseConfigured env0) = false /\
    (forall m, parseAmount raw = Finite m ->
               floor_allows parseConfigured env0 m) /\
    UI.findWallet (storeOf (worldAsked "awaiting_min_amount")) "7"
      "1700000000000" = Some wallet /\
    UI.findWallet
      (storeOf
         (worldAfter
            (UI.onMessage parseConfigured env0 chain (fun s => s)
               String.length parseAmount (said "1.5")
               (worldAsked "awaiting_min_amount"))))
      "7" "1700000000000"
    = Some (asWritten (<["minAmount" := JNum (parseAmount raw)]> wallet)) /\
    UI.get (asWritten (<["minAmount" := JNum (parseAmount raw)]> wallet))
      "minAmount"
    = match parseAmount raw with
      | Finite m => JNum (Finite m)
      | _ => JNull
      end.
Proof.
  apply (stored_minimum_respects_the_floor parseConfigured env0 chain
           (fun s => s) String.length parseAmount (said "1.5")
           (worldAsked "awaiting_min_amount")
           {| UI.state := "awaiting_min_amount"; UI.walletName := None;
              UI.walletId := Some "1700000000000" |});
    [reflexivity|reflexivity|reflexivity|reflexivity|].
  intros H.
  apply (f_equal (fun f => match f with
                           | UI.Json s =>
                               UI.findWallet s "7" "1700000000000"
                               ≫= (.!! "minAmount")
                           | _ => None
                           end)) in H.
  vm_compute in H. discriminate H.
Defined.

(** The text [Infinity] passes the checks of the minimum step and of the
    maximum step; the file then holds [null] for the amount. *)
Example infinite_minimum_is_stored_as_null :
  UI.findWallet
    (storeOf
       (worldAfter
          (UI.onMessage parseConfigured env0 chain (fun s => s)
             String.length parseAmount (said "Infinity")
             (worldAsked "awaiting_min_amount"))))
    "7" "1700000000000" ≫= (.!! "minAmount")
  = Some JNull.
Proof. vm_compute. reflexivity. Qed.

Example infinite_maximum_is_stored_as_null :
  UI.findWallet
    (storeOf
       (worldAfter
          (UI.onMessage parseConfigured env0 chain (fun s => s)
             String.length parseAmount (said "Infinity")
             (worldAsked "awaiting_max_amount"))))
    "7" "1700000000000" ≫= (.!! "maxAmount")
  = Some JNull.
Proof. vm_compute. reflexivity. Qed.

Lemma stored_maximum_respects_the_bounds_witness :
  exists raw wallet,
    Some "1.5" = Some raw /\
    num_isNaN (parseAmount raw) = false /\
    num_le (parseAmount raw) (floor parseConfigured env0) = false /\
    UI.findWallet (storeOf (worldAsked "awaiting_max_amount")) "7"
      "1700000000000" = Some wallet /\
    num_lt (parseAmount raw)
      (ToNumber parseConfigured (UI.get wallet "minAmount")) = false /\
    (forall m, parseAmount raw = Finite m ->
               notAtMost m (floor parseConfigured env0) /\
               notBelow m
                 (ToNumber parseConfigured (UI.get wallet "minAmount"))) /\
    UI.findWallet
      (storeOf
         (worldAfter
            (UI.onMessage parseConfigured env0 chain (fun s => s)
               String.length parseAmount (said "1.5")
               (worldAsked "awaiting_max_amount"))))
      "7" "1700000000000"
    = Some (asWritten (<["maxAmount" := JNum (parseAmount raw)]> wallet)) /\
    UI.get (asWritten (<["maxAmount" := JNum (parseAmount raw)]> wallet))
      "maxAmount"
    = match parseAmount raw with
      | Finite m => JNum (Finite m)
      | _ => JNull
      end.
Proof.
  apply (stored_maximum_respects_the_bounds parseConfigured env0 chain
           (fun s => s) String.length parseAmount (said "1.5")
           (worldAsked "awaiting_max_amount")
           {| UI.state := "awaiting_max_amount"; UI.walletName := None;
              UI.walletId := Some "1700000000000" |});
    [reflexivity|reflexivity|reflexivity|reflexivity|].
  intros H.
  apply (f_equal (fun f => match f with
                           | UI.Json s =>
                               UI.findWallet s "7" "1700000000000"
                               ≫= (.!! "maxAmount")
                           | _ => None
                           end)) in H.
  vm_compute in H. discriminate H.
Defined.

Lemma toggle_flips_active_witness :
  UI.findWallet
    (storeOf
       (worldAfter
          (UI.handleFilterSelection botAccepting "7" "40" "7"
             "filter_toggle_1700000000000" worldOne)))
    "7" "1700000000000"
  = Some (asWritten (<["active" := JBool false]> walletStored)).
Proof.
  destruct (toggle_flips_active botAccepting "7" "40" "7" "1700000000000"
              worldOne walletStored) as (_ & Hfind);
    [reflexivity|reflexivity|reflexivity|].
  rewrite Hfind. rewrite decide_True by (split; reflexivity). reflexivity.
Defined.

Lemma minimum_button_then_amount_sets_that_wallet_witness :
  UI.findWallet
    (storeOf
       (worldAfter
          (UI.bind
             (UI.onCallbackQuery botAccepting entriesByKey
                (pressed "filter_min_1700000000000"))
             (fun _ =>
                UI.onMessage parseConfigured env0 chain (fun s => s)
                  String.length parseAmount (said "1.5"))
             worldOne)))
    "7" "1700000000000"
  = Some (asWritten
            (<["minAmount" := JNum (Finite (3 # 2))]> walletStored)).
Proof.
  destruct (minimum_button_then_amount_sets_that_wallet parseConfigured env0
              chain botAccepting entriesByKey (fun s => s) String.length
              parseAmount (pressed "filter_min_1700000000000") (said "1.5")
              "1.5" (3 # 2)%Q "1700000000000" worldOne walletStored)
    as (_ & _ & Hfind);
    [first [reflexivity | vm_compute; discriminate] ..|].
  rewrite Hfind. rewrite decide_True by (split; reflexivity). reflexivity.
Defined.

Lemma direction_button_stores_its_direction_witness :
  UI.findWallet
    (storeOf
       (worldAfter
          (UI.onCallbackQuery botAccepting entriesByKey
             (pressed "set_direction_incoming_1700000000000") worldOne)))
    "7" "1700000000000"
  = Some (asWritten (<["direction" := JStr "incoming"]> walletStored)).
Proof.
  destruct (direction_button_stores_its_direction botAccepting entriesByKey
              (pressed "set_direction_incoming_1700000000000") "incoming"
              "1700000000000" worldOne walletStored)
    as (_ & _ & Hfind); [reflexivity ..|].
  rewrite Hfind. rewrite decide_True by (split; reflexivity). reflexivity.
Defined.
